(** * TaskFlow backend: a shallow embedding of the route handlers

    The Express routers of the backend (auth, tasks, family, dashboard) are
    embedded as functions over an explicit relational store.  A handler maps
    the store before the request to an outcome (the HTTP response, or the
    error it threw into [asyncHandler]) and the store after it.

    Conventions of the model:
    - request-body fields are JSON values ([value]); numbers are restricted
      to the integers a double holds exactly and prints in plain decimal,
      and arrays and objects are left out;
    - a string is the sequence of bytes of its UTF-8 encoding (well formed,
      without U+0000, which a text column refuses); [trim] strips the white
      space and line terminators of ECMAScript in that encoding, and
      [toUpperCase], whose Unicode case tables are not part of the
      repository, is a collaborator;
    - instants are milliseconds since the epoch ([Z]); a [DATE] column holds
      the day number of the UTC date;
    - [req.user.id] and the [:id] route parameters are integers (the token
      middleware and the id validator sit in front of every such handler);
      a route parameter outside the range of the [integer] id column makes
      the query that compares it fail;
    - collaborators that live outside these files (validators, the week
      helper, bcrypt, the token signer, the mailer, the integer input
      function of the database, the upper-casing of strings) are fields of
      [Externals]. *)

From Stdlib Require Import ZArith List String Ascii Bool Lia DecimalString.
From Stdlib Require Import Permutation Sorted.
Import ListNotations.
Local Open Scope string_scope.
Local Open Scope Z_scope.

(** ** JavaScript values and the operators the handlers use *)

Inductive value :=
| VUndefined
| VNull
| VBool (b : bool)
| VNum (n : Z)
| VStr (s : string).

(** ToBoolean: what [!x], [x || y] and [if (x)] look at. *)
Definition truthy (v : value) : bool :=
  match v with
  | VUndefined | VNull => false
  | VBool b => b
  | VNum n => negb (n =? 0)
  | VStr s => negb (String.eqb s "")
  end.

(** [a || b] *)
Definition js_or (a b : value) : value := if truthy a then a else b.

(** [v === "lit"] *)
Definition strict_eq_str (v : value) (lit : string) : bool :=
  match v with
  | VStr s => String.eqb s lit
  | _ => false
  end.

(** White space and line terminators of one byte: U+0009 to U+000D and
    U+0020. *)
Definition is_space (c : ascii) : bool :=
  let n := nat_of_ascii c in
  (Nat.eqb n 32 || (Nat.leb 9 n && Nat.leb n 13))%bool.

(** Of two bytes: U+00A0. *)
Definition is_space2 (a b : ascii) : bool :=
  (Nat.eqb (nat_of_ascii a) 194 && Nat.eqb (nat_of_ascii b) 160)%bool.

(** Of three bytes: U+1680, U+2000 to U+200A, U+2028, U+2029, U+202F,
    U+205F, U+3000 and U+FEFF. *)
Definition is_space3 (a b c : ascii) : bool :=
  let x := nat_of_ascii a in
  let y := nat_of_ascii b in
  let z := nat_of_ascii c in
  ((Nat.eqb x 225 && Nat.eqb y 154 && Nat.eqb z 128)
   || (Nat.eqb x 226 && Nat.eqb y 128
       && ((Nat.leb 128 z && Nat.leb z 138)
           || Nat.eqb z 168 || Nat.eqb z 169 || Nat.eqb z 175))
   || (Nat.eqb x 226 && Nat.eqb y 129 && Nat.eqb z 159)
   || (Nat.eqb x 227 && Nat.eqb y 128 && Nat.eqb z 128)
   || (Nat.eqb x 239 && Nat.eqb y 187 && Nat.eqb z 191))%bool.

(** The string after its first character, when that is white space. *)
Definition leading_space (s : string) : option string :=
  match s with
  | String a s1 =>
      if is_space a then Some s1
      else
        match s1 with
        | String b s2 =>
            if is_space2 a b then Some s2
            else
              match s2 with
              | String c s3 => if is_space3 a b c then Some s3 else None
              | EmptyString => None
              end
        | EmptyString => None
        end
  | EmptyString => None
  end.

(** The same from the end, on the reversed bytes. *)
Definition trailing_space (r : string) : option string :=
  match r with
  | String c r1 =>
      if is_space c then Some r1
      else
        match r1 with
        | String b r2 =>
            if is_space2 b c then Some r2
            else
              match r2 with
              | String a r3 => if is_space3 a b c then Some r3 else None
              | EmptyString => None
              end
        | EmptyString => None
        end
  | EmptyString => None
  end.

(** [strip] at most [n] times; a string has no more characters than bytes. *)
Fixpoint strip_spaces (strip : string -> option string) (n : nat)
                      (s : string) : string :=
  match n with
  | O => s
  | S n' =>
      match strip s with
      | Some s' => strip_spaces strip n' s'
      | None => s
      end
  end.

Definition reverse (s : string) : string :=
  string_of_list_ascii (rev (list_ascii_of_string s)).

Definition trimStart (s : string) : string :=
  strip_spaces leading_space (String.length s) s.

Definition trimEnd (s : string) : string :=
  reverse (strip_spaces trailing_space (String.length s) (reverse s)).

(** [String.prototype.trim] *)
Definition trim (s : string) : string := trimEnd (trimStart s).

(** Upper-casing on the letters a to z, the part of
    [String.prototype.toUpperCase] the examples need. *)
Definition upper_char (c : ascii) : ascii :=
  let n := nat_of_ascii c in
  if (Nat.leb 97 n && Nat.leb n 122)%bool then ascii_of_nat (n - 32) else c.

Fixpoint upper_letters (s : string) : string :=
  match s with
  | EmptyString => EmptyString
  | String c s' => String (upper_char c) (upper_letters s')
  end.

(** [v.trim()]: a string is trimmed; on anything else the call throws a
    TypeError ([None]). *)
Definition call_trim (v : value) : option string :=
  match v with
  | VStr s => Some (trim s)
  | _ => None
  end.

(** [v?.trim()]: [undefined] for a nullish receiver, otherwise as [v.trim()]. *)
Definition optional_trim (v : value) : option value :=
  match v with
  | VUndefined | VNull => Some VUndefined
  | VStr s => Some (VStr (trim s))
  | VBool _ | VNum _ => None
  end.

(** ** Query parameters as the driver sends them *)

(** A parameter bound to a text column: nullish becomes NULL, everything else
    its [toString()]. *)
Definition sql_text (v : value) : option string :=
  match v with
  | VUndefined | VNull => None
  | VBool b => Some (if b then "true" else "false")
  | VNum n => Some (NilZero.string_of_int (Z.to_int n))
  | VStr s => Some s
  end.

Definition int4_min : Z := - 2147483648.
Definition int4_max : Z := 2147483647.

Definition in_int4 (n : Z) : bool := (int4_min <=? n) && (n <=? int4_max).

(** A parameter bound to an integer column: [None] is a rejected statement,
    [Some None] is NULL.  Text is parsed by the database ([int4in]). *)
Definition sql_int (int4in : string -> option Z) (v : value) : option (option Z) :=
  match v with
  | VUndefined | VNull => Some None
  | VNum n => if in_int4 n then Some (Some n) else None
  | VBool b => option_map Some (int4in (if b then "true" else "false"))
  | VStr s => option_map Some (int4in s)
  end.

Definition ms_per_day : Z := 24 * 60 * 60 * 1000.

(** [d.toISOString().split("T")[0]], as a day number. *)
Definition iso_date (ms : Z) : Z := ms / ms_per_day.

(** ** Tables *)

Module User.
Record t := mk
  { id : Z; username : string; email : string; password_hash : string;
    created_at : Z }.
End User.

Module ResetToken.
Record t := mk
  { user_id : Z; token : string; expires_at : Z; created_at : Z }.
End ResetToken.

Module Task.
Record t := mk
  { id : Z; user_id : Z; title : string; description : option string;
    priority : option Z; status : option string; assigned_to : Z;
    week_start : Z; archived : bool; archived_at : option Z;
    completed_at : option Z; created_at : Z; updated_at : Z }.
End Task.

Module Family.
Record t := mk
  { id : Z; name : string; created_by : Z; invitation_code : string }.
End Family.

Module Member.
Record t := mk { id : Z; family_id : Z; user_id : Z }.
End Member.

Module FamilyTask.
Record t := mk
  { id : Z; family_id : Z; created_by : Z; title : option string;
    description : option string; priority : option Z;
    status : option string; assigned_to : option Z; week_start : Z;
    completed_at : option Z; created_at : Z; updated_at : Z }.
End FamilyTask.

(** The store: one list of rows per table, in insertion order, and the
    sequence behind each serial [id] column. *)
Record DB := mkDB
  { users : list User.t;
    password_reset_tokens : list ResetToken.t;
    tasks : list Task.t;
    families : list Family.t;
    family_members : list Member.t;
    family_tasks : list FamilyTask.t;
    users_id_seq : Z;
    tasks_id_seq : Z;
    families_id_seq : Z;
    family_members_id_seq : Z;
    family_tasks_id_seq : Z }.

Definition empty_db : DB := mkDB [] [] [] [] [] [] 1 1 1 1 1.

Definition set_users (l : list User.t) (n : Z) (db : DB) : DB :=
  mkDB l (password_reset_tokens db) (tasks db) (families db)
       (family_members db) (family_tasks db)
       n (tasks_id_seq db) (families_id_seq db)
       (family_members_id_seq db) (family_tasks_id_seq db).

Definition set_password_reset_tokens (l : list ResetToken.t) (db : DB) : DB :=
  mkDB (users db) l (tasks db) (families db)
       (family_members db) (family_tasks db)
       (users_id_seq db) (tasks_id_seq db) (families_id_seq db)
       (family_members_id_seq db) (family_tasks_id_seq db).

Definition set_tasks (l : list Task.t) (n : Z) (db : DB) : DB :=
  mkDB (users db) (password_reset_tokens db) l (families db)
       (family_members db) (family_tasks db)
       (users_id_seq db) n (families_id_seq db)
       (family_members_id_seq db) (family_tasks_id_seq db).

Definition set_families (l : list Family.t) (n : Z) (db : DB) : DB :=
  mkDB (users db) (password_reset_tokens db) (tasks db) l
       (family_members db) (family_tasks db)
       (users_id_seq db) (tasks_id_seq db) n
       (family_members_id_seq db) (family_tasks_id_seq db).

Definition set_family_members (l : list Member.t) (n : Z) (db : DB) : DB :=
  mkDB (users db) (password_reset_tokens db) (tasks db) (families db)
       l (family_tasks db)
       (users_id_seq db) (tasks_id_seq db) (families_id_seq db)
       n (family_tasks_id_seq db).

Definition set_family_tasks (l : list FamilyTask.t) (n : Z) (db : DB) : DB :=
  mkDB (users db) (password_reset_tokens db) (tasks db) (families db)
       (family_members db) l
       (users_id_seq db) (tasks_id_seq db) (families_id_seq db)
       (family_members_id_seq db) n.

(** ** Requests and responses *)

Module TaskBody.
Record t := mk
  { title : value; description : value; priority : value; status : value }.
End TaskBody.

Module FamilyTaskBody.
Record t := mk
  { title : value; description : value; priority : value; status : value;
    assigned_to : value }.
End FamilyTaskBody.

Module AuthBody.
Record t := mk { username : value; email : value; password : value }.
End AuthBody.

Record counts := mkCounts
  { total_tasks : Z; completed_tasks : Z; pending_tasks : Z }.

(** A family task joined with the assignee's user name. *)
Definition family_task_row : Type := (FamilyTask.t * string)%type.

Inductive body :=
| ErrorBody (error : string)
| MessageBody (message : string)
| TaskRow (row : option Task.t)
| TaskRows (rows : list Task.t)
| ArchiveBody (message : string) (archived_count : Z)
| FamilyRow (row : Family.t)
| FamilyCreated (message : string) (family_id : Z) (name : string)
                (invitation_code : string)
| FamilyJoined (message : string) (family_id : Z) (name : string)
| MemberRows (rows : list (Z * string * string))
| FamilyTaskRow (row : option family_task_row)
| FamilyTaskRows (rows : list family_task_row)
| StatsBody (currentWeek : counts) (weeklyData : list (Z * counts))
| AnalyticsBody (trends : list (Z * Z * Z))
                (priorityDistribution : list (option Z * Z * Z))
                (timeframe : value)
| SessionBody (message : string) (id : Z) (username email : string)
              (token : string).

Inductive error :=
| Error (message : string)
| TypeError
| DatabaseError
| BcryptError
| MailError.

(** What a request ends in: a response written by the handler, or an error
    handed to the error middleware. *)
Inductive outcome :=
| Respond (status : Z) (payload : body)
| Threw (e : error).

(** Collaborators defined outside the route files. *)
Record Externals := mkExternals
  { validateRegistration : AuthBody.t -> option outcome;
    validateLogin : AuthBody.t -> option outcome;
    validateTask : TaskBody.t -> option outcome;
    validateTaskId : Z -> option outcome;
    validateFamily : value -> option outcome;
    getCurrentWeekStart : Z -> Z;
    int4in : string -> option Z;
    bcrypt_hash : string -> string -> string;
    bcrypt_compare : string -> string -> bool;
    generateToken : User.t -> string;
    sendEmail : string -> string -> bool;
    toUpperCase : string -> string }.

(** ** SQL building blocks *)

Section OrderBy.
Context {A : Type} (le : A -> A -> bool).

Fixpoint insert_row (x : A) (l : list A) : list A :=
  match l with
  | [] => [x]
  | y :: l' => if le x y then x :: l else y :: insert_row x l'
  end.

(** [ORDER BY]: the rows rearranged so that [le] holds from left to right. *)
Fixpoint order_by (l : list A) : list A :=
  match l with
  | [] => []
  | x :: l' => insert_row x (order_by l')
  end.
End OrderBy.

(** [col = 'lit'] on a nullable text column (NULL is never equal). *)
Definition text_is (lit : string) (col : option string) : bool :=
  match col with
  | Some s => String.eqb s lit
  | None => false
  end.

(** [col = $n] for a text column and a bound parameter. *)
Definition text_matches (param : option string) (col : string) : bool :=
  match param with
  | Some s => String.eqb col s
  | None => false
  end.

(** [col = n] on a nullable integer column. *)
Definition int_is (n : Z) (col : option Z) : bool :=
  match col with
  | Some m => m =? n
  | None => false
  end.

(** [CASE WHEN status = 'pending' THEN 0 ELSE 1 END] *)
Definition pending_rank (status : option string) : Z :=
  if text_is "pending" status then 0 else 1.

(** [ORDER BY col DESC] on a nullable column: NULL sorts first. *)
Definition compare_desc (a b : option Z) : comparison :=
  match a, b with
  | None, None => Eq
  | None, Some _ => Lt
  | Some _, None => Gt
  | Some x, Some y => y ?= x
  end.

Definition listing_key : Type := (Z * option Z * Z)%type.

(** [ORDER BY rank, priority DESC, created_at DESC] on the keys of two rows. *)
Definition listing_le (a b : listing_key) : bool :=
  let '(ra, pa, ca) := a in
  let '(rb, pb, cb) := b in
  match ra ?= rb with
  | Lt => true
  | Gt => false
  | Eq =>
      match compare_desc pa pb with
      | Lt => true
      | Gt => false
      | Eq => cb <=? ca
      end
  end.

Definition task_key (t : Task.t) : listing_key :=
  (pending_rank (Task.status t), Task.priority t, Task.created_at t).

Definition family_task_key (r : family_task_row) : listing_key :=
  (pending_rank (FamilyTask.status (fst r)), FamilyTask.priority (fst r),
   FamilyTask.created_at (fst r)).

(** [WHERE user_id = $1 AND archived = FALSE] *)
Definition owned_active (uid : Z) (t : Task.t) : bool :=
  (Task.user_id t =? uid) && negb (Task.archived t).

(** [COUNT( * )], [COUNT(CASE WHEN status = 'completed' ...)],
    [COUNT(CASE WHEN status = 'pending' ...)] over a group of rows. *)
Definition tally (rows : list Task.t) : counts :=
  mkCounts
    (Z.of_nat (List.length rows))
    (Z.of_nat (List.length (filter (fun t => text_is "completed" (Task.status t)) rows)))
    (Z.of_nat (List.length (filter (fun t => text_is "pending" (Task.status t)) rows))).

Definition option_Z_eq_dec (a b : option Z) : {a = b} + {a <> b}.
Proof. decide equality; apply Z.eq_dec. Defined.

Section Routes.
Variable ext : Externals.

(** ** routes/tasks.js *)

(** GET /api/tasks *)
Definition get_tasks (uid : Z) (db : DB) : outcome * DB :=
  let rows :=
    order_by (fun a b => listing_le (task_key a) (task_key b))
             (filter (owned_active uid) (tasks db)) in
  (Respond 200 (TaskRows rows), db).

(** POST /api/tasks *)
Definition post_task (now uid : Z) (b : TaskBody.t) (db : DB) : outcome * DB :=
  match validateTask ext b with
  | Some r => (r, db)
  | None =>
    let weekStart := getCurrentWeekStart ext now in
    match call_trim (TaskBody.title b) with
    | None => (Threw TypeError, db)
    | Some title =>
      match optional_trim (TaskBody.description b) with
      | None => (Threw TypeError, db)
      | Some d =>
        let description := sql_text (js_or d VNull) in
        let status := sql_text (js_or (TaskBody.status b) (VStr "pending")) in
        let completed_at :=
          if strict_eq_str (TaskBody.status b) "completed"
          then Some now else None in
        match sql_int (int4in ext) (js_or (TaskBody.priority b) (VNum 1)) with
        | None => (Threw DatabaseError, db)
        | Some priority =>
          let row :=
            Task.mk (tasks_id_seq db) uid title description priority status
                    uid (iso_date weekStart) false None completed_at
                    now now in
          (Respond 201 (TaskRow (Some row)),
           set_tasks (tasks db ++ [row]) (tasks_id_seq db + 1) db)
        end
      end
    end
  end.

(** PUT /api/tasks/:id.  The first query already compares [id] with the
    integer id column, and fails for an [id] outside its range. *)
Definition put_task (now uid id : Z) (b : TaskBody.t) (db : DB)
  : outcome * DB :=
  match validateTaskId ext id with
  | Some r => (r, db)
  | None =>
    match validateTask ext b with
    | Some r => (r, db)
    | None =>
      let hit t := (Task.id t =? id) && (Task.user_id t =? uid) in
      if negb (in_int4 id) then (Threw DatabaseError, db) else
      match filter hit (tasks db) with
      | [] => (Respond 404 (ErrorBody "Task not found"), db)
      | _ :: _ =>
        let completedAt :=
          if strict_eq_str (TaskBody.status b) "completed"
          then Some now else None in
        match call_trim (TaskBody.title b) with
        | None => (Threw TypeError, db)
        | Some title =>
          match optional_trim (TaskBody.description b) with
          | None => (Threw TypeError, db)
          | Some d =>
            match sql_int (int4in ext) (TaskBody.priority b) with
            | None => (Threw DatabaseError, db)
            | Some priority =>
              let upd t :=
                if hit t then
                  Task.mk (Task.id t) (Task.user_id t) title (sql_text d)
                          priority (sql_text (TaskBody.status b))
                          (Task.assigned_to t) (Task.week_start t)
                          (Task.archived t) (Task.archived_at t)
                          completedAt (Task.created_at t) now
                else t in
              let tasks' := map upd (tasks db) in
              (Respond 200 (TaskRow (hd_error (filter hit tasks'))),
               set_tasks tasks' (tasks_id_seq db) db)
            end
          end
        end
      end
    end
  end.

(** DELETE /api/tasks/:id.  The statement fails for an [id] outside the
    range of the integer id column. *)
Definition delete_task (uid id : Z) (db : DB) : outcome * DB :=
  match validateTaskId ext id with
  | Some r => (r, db)
  | None =>
    let hit t := (Task.id t =? id) && (Task.user_id t =? uid) in
    let db' :=
      set_tasks (filter (fun t => negb (hit t)) (tasks db))
                (tasks_id_seq db) db in
    if negb (in_int4 id) then (Threw DatabaseError, db) else
    match filter hit (tasks db) with
    | [] => (Respond 404 (ErrorBody "Task not found"), db')
    | _ :: _ => (Respond 200 (MessageBody "Task deleted successfully"), db')
    end
  end.

(** [WHERE user_id = $1 AND week_start < $2 AND archived = FALSE] *)
Definition archivable (uid cutoff : Z) (t : Task.t) : bool :=
  (Task.user_id t =? uid) && (Task.week_start t <? cutoff)
  && negb (Task.archived t).

(** [SET archived = TRUE, archived_at = CURRENT_TIMESTAMP] *)
Definition archive_row (now : Z) (t : Task.t) : Task.t :=
  Task.mk (Task.id t) (Task.user_id t) (Task.title t) (Task.description t)
          (Task.priority t) (Task.status t) (Task.assigned_to t)
          (Task.week_start t) true (Some now) (Task.completed_at t)
          (Task.created_at t) (Task.updated_at t).

(** The date bound to [$2] by POST /archive. *)
Definition archive_cutoff (now : Z) : Z :=
  let weekStart := getCurrentWeekStart ext now in
  let lastWeek := weekStart - 7 * 24 * 60 * 60 * 1000 in
  iso_date lastWeek.

(** POST /api/tasks/archive *)
Definition post_archive (now uid : Z) (db : DB) : outcome * DB :=
  let cutoff := archive_cutoff now in
  let tasks' :=
    map (fun t => if archivable uid cutoff t then archive_row now t else t)
        (tasks db) in
  let returned := filter (archivable uid cutoff) (tasks db) in
  (Respond 200 (ArchiveBody "Tasks archived successfully"
                            (Z.of_nat (List.length returned))),
   set_tasks tasks' (tasks_id_seq db) db).

(** ** routes/dashboard.js *)

(** [GROUP BY week_start ORDER BY week_start DESC LIMIT 4] *)
Definition weekly_groups (rows : list Task.t) : list (Z * counts) :=
  let weeks :=
    firstn 4 (order_by (fun a b => b <=? a)
                       (nodup Z.eq_dec (map Task.week_start rows))) in
  map (fun w => (w, tally (filter (fun t => Task.week_start t =? w) rows)))
      weeks.

(** GET /api/dashboard/stats *)
Definition get_stats (uid : Z) (db : DB) : outcome * DB :=
  let currentWeekStats := tally (filter (owned_active uid) (tasks db)) in
  let weeklyData := weekly_groups (filter (owned_active uid) (tasks db)) in
  (Respond 200 (StatsBody currentWeekStats weeklyData), db).

(** The look-back window chosen by the [switch] on [timeframe]. *)
Definition lookback_days (timeframe : value) : Z :=
  if strict_eq_str timeframe "week" then 7
  else if strict_eq_str timeframe "month" then 30
  else if strict_eq_str timeframe "year" then 365
  else 30.

(** GET /api/dashboard/analytics *)
Definition get_analytics (now uid : Z) (query_timeframe : value) (db : DB)
  : outcome * DB :=
  let timeframe :=
    match query_timeframe with
    | VUndefined => VStr "month"
    | v => v
    end in
  let since := (iso_date now - lookback_days timeframe) * ms_per_day in
  let rows :=
    filter (fun t => owned_active uid t && (since <=? Task.created_at t))
           (tasks db) in
  let completed l :=
    Z.of_nat (List.length (filter (fun t => text_is "completed" (Task.status t)) l)) in
  let dates :=
    order_by (fun a b => b <=? a)
             (nodup Z.eq_dec (map (fun t => iso_date (Task.created_at t)) rows)) in
  let trends :=
    map (fun d =>
           let g := filter (fun t => iso_date (Task.created_at t) =? d) rows in
           (d, Z.of_nat (List.length g), completed g)) dates in
  let priorities :=
    order_by (fun a b => match compare_desc a b with Gt => false | _ => true end)
             (nodup option_Z_eq_dec (map Task.priority rows)) in
  let priorityDistribution :=
    map (fun p =>
           let g := filter (fun t => if option_Z_eq_dec (Task.priority t) p
                                     then true else false) rows in
           (p, Z.of_nat (List.length g), completed g)) priorities in
  (Respond 200 (AnalyticsBody trends priorityDistribution timeframe), db).

(** ** routes/family.js *)

(** Statements issued on a transaction client: they see and change the
    store of the transaction, and may throw. *)
Definition Tx (A : Type) : Type := DB -> (error + A) * DB.

Definition tx_ret {A} (a : A) : Tx A := fun db => (inr a, db).

Definition tx_throw {A} (e : error) : Tx A := fun db => (inl e, db).

Definition tx_bind {A B} (c : Tx A) (k : A -> Tx B) : Tx B :=
  fun db =>
    match c db with
    | (inl e, db') => (inl e, db')
    | (inr a, db') => k a db'
    end.

Notation "x <- c ;; k" := (tx_bind c (fun x => k))
  (at level 61, c at next level, right associativity).

(** Modelled from the spec: [withTransaction] of config/database.js, which
    is not among the route files.  The statements of the callback commit
    together when it returns; when it throws, every write it made is rolled
    back and the error is thrown on to the caller. *)
Definition withTransaction {A} (callback : Tx A) : Tx A :=
  fun db =>
    match callback db with
    | (inr a, db') => (inr a, db')
    | (inl e, _) => (inl e, db)
    end.

(** [SELECT id FROM family_members WHERE user_id = $1] *)
Definition select_memberships (uid : Z) : Tx (list Member.t) :=
  fun db => (inr (filter (fun m => Member.user_id m =? uid) (family_members db)), db).

(** [INSERT INTO families (name, created_by, invitation_code) ... RETURNING *].
    The invitation code is a unique column: a code already present makes
    the statement fail.  (The value such a failed statement draws from the
    id sequence all the same is not represented: properties of failed
    requests are stated on the rows, see [same_rows].) *)
Definition insert_family (name : string) (created_by : Z) (code : string)
  : Tx Family.t :=
  fun db =>
    if existsb (fun f => String.eqb (Family.invitation_code f) code) (families db)
    then (inl DatabaseError, db)
    else
      let row := Family.mk (families_id_seq db) name created_by code in
      (inr row, set_families (families db ++ [row]) (families_id_seq db + 1) db).

(** [INSERT INTO family_members (family_id, user_id) VALUES ($1, $2)] *)
Definition insert_member (family_id uid : Z) : Tx unit :=
  fun db =>
    let row := Member.mk (family_members_id_seq db) family_id uid in
    (inr tt,
     set_family_members (family_members db ++ [row])
                        (family_members_id_seq db + 1) db).

(** [SELECT * FROM families WHERE invitation_code = $1] *)
Definition select_families_by_code (code : string) : Tx (list Family.t) :=
  fun db =>
    (inr (filter (fun f => String.eqb (Family.invitation_code f) code)
                 (families db)), db).

(** [SELECT f.* FROM families f JOIN family_members fm
     ON f.id = fm.family_id WHERE fm.user_id = $1] *)
Definition families_of (uid : Z) (db : DB) : list Family.t :=
  flat_map
    (fun f =>
       map (fun _ => f)
           (filter (fun fm => (Family.id f =? Member.family_id fm)
                              && (Member.user_id fm =? uid))
                   (family_members db)))
    (families db).

(** GET /api/family/info *)
Definition get_family_info (uid : Z) (db : DB) : outcome * DB :=
  match families_of uid db with
  | [] => (Respond 404 (ErrorBody "You are not part of any family"), db)
  | f :: _ => (Respond 200 (FamilyRow f), db)
  end.

(** The callback POST /create hands to [withTransaction];
    [invitationCode] is what [generateInvitationCode()] returned. *)
Definition create_family_tx (uid : Z) (name : value) (invitationCode : string)
  : Tx Family.t :=
  existingMember <- select_memberships uid ;;
  match existingMember with
  | _ :: _ => tx_throw (Error "You are already a member of a family")
  | [] =>
      match call_trim name with
      | None => tx_throw TypeError
      | Some trimmed =>
          newFamily <- insert_family trimmed uid invitationCode ;;
          _ <- insert_member (Family.id newFamily) uid ;;
          tx_ret newFamily
      end
  end.

(** POST /api/family/create *)
Definition post_family_create (uid : Z) (name : value)
           (invitationCode : string) (db : DB) : outcome * DB :=
  match validateFamily ext name with
  | Some r => (r, db)
  | None =>
    match withTransaction (create_family_tx uid name invitationCode) db with
    | (inl e, db') => (Threw e, db')
    | (inr result, db') =>
        (Respond 201 (FamilyCreated "Family created successfully"
                                    (Family.id result) (Family.name result)
                                    (Family.invitation_code result)), db')
    end
  end.

(** The callback POST /join hands to [withTransaction]. *)
Definition join_family_tx (uid : Z) (invitationCode : string) : Tx Family.t :=
  existingMember <- select_memberships uid ;;
  match existingMember with
  | _ :: _ => tx_throw (Error "You are already a member of a family")
  | [] =>
      familyResult <-
        select_families_by_code (toUpperCase ext (trim invitationCode)) ;;
      match familyResult with
      | [] => tx_throw (Error "Invalid invitation code")
      | family :: _ =>
          _ <- insert_member (Family.id family) uid ;;
          tx_ret family
      end
  end.

(** POST /api/family/join *)
Definition post_family_join (uid : Z) (invitationCode : value) (db : DB)
  : outcome * DB :=
  if negb (truthy invitationCode) then
    (Respond 400 (ErrorBody "Invitation code is required"), db)
  else
    match invitationCode with
    | VStr s =>
        if (String.length (trim s) =? 0)%nat then
          (Respond 400 (ErrorBody "Invitation code is required"), db)
        else
          match withTransaction (join_family_tx uid s) db with
          | (inl e, db') => (Threw e, db')
          | (inr result, db') =>
              (Respond 200 (FamilyJoined "Successfully joined family"
                                         (Family.id result)
                                         (Family.name result)), db')
          end
    | _ => (Threw TypeError, db)
    end.

(** GET /api/family/members *)
Definition get_family_members (uid : Z) (db : DB) : outcome * DB :=
  let rows :=
    flat_map
      (fun u =>
         flat_map
           (fun fm1 =>
              map (fun _ => (User.id u, User.username u, User.email u))
                  (filter (fun fm2 =>
                             (Member.family_id fm1 =? Member.family_id fm2)
                             && (Member.user_id fm2 =? uid))
                          (family_members db)))
           (filter (fun fm1 => User.id u =? Member.user_id fm1)
                   (family_members db)))
      (users db) in
  (Respond 200 (MemberRows rows), db).

(** [SELECT ft.*, u.username as assigned_username FROM family_tasks ft
     JOIN users u ON ft.assigned_to = u.id] over the given tasks. *)
Definition with_assignee (db : DB) (fts : list FamilyTask.t)
  : list family_task_row :=
  flat_map
    (fun ft =>
       map (fun u => (ft, User.username u))
           (filter (fun u => int_is (User.id u) (FamilyTask.assigned_to ft))
                   (users db)))
    fts.

(** [JOIN family_members fm ON ft.family_id = fm.family_id
     WHERE fm.user_id = $1]: one copy of the row per matching membership. *)
Definition visible_to (uid : Z) (db : DB) (r : family_task_row)
  : list family_task_row :=
  map (fun _ => r)
      (filter (fun fm => (FamilyTask.family_id (fst r) =? Member.family_id fm)
                         && (Member.user_id fm =? uid))
              (family_members db)).

(** GET /api/family/tasks *)
Definition get_family_tasks (uid : Z) (db : DB) : outcome * DB :=
  let rows :=
    order_by (fun a b => listing_le (family_task_key a) (family_task_key b))
             (flat_map (visible_to uid db)
                       (with_assignee db (family_tasks db))) in
  (Respond 200 (FamilyTaskRows rows), db).

(** POST /api/family/tasks.  New rows take the column defaults for
    [status] and [completed_at]. *)
Definition post_family_task (now uid : Z) (b : FamilyTaskBody.t) (db : DB)
  : outcome * DB :=
  let bad_title := Respond 400 (ErrorBody "Task title is required") in
  if negb (truthy (FamilyTaskBody.title b)) then (bad_title, db)
  else
    match call_trim (FamilyTaskBody.title b) with
    | None => (Threw TypeError, db)
    | Some title =>
      if (String.length title =? 0)%nat then (bad_title, db)
      else if negb (truthy (FamilyTaskBody.assigned_to b)) then
        (Respond 400 (ErrorBody "Assigned user is required"), db)
      else
        match families_of uid db with
        | [] => (Respond 404 (ErrorBody "You are not part of any family"), db)
        | family :: _ =>
          if negb (Family.created_by family =? uid) then
            (Respond 403 (ErrorBody "Only the family leader can create tasks"), db)
          else
            let weekStart := getCurrentWeekStart ext now in
            match optional_trim (FamilyTaskBody.description b) with
            | None => (Threw TypeError, db)
            | Some d =>
              match sql_int (int4in ext) (js_or (FamilyTaskBody.priority b) (VNum 1)),
                    sql_int (int4in ext) (FamilyTaskBody.assigned_to b) with
              | Some priority, Some assigned_to =>
                  let row :=
                    FamilyTask.mk (family_tasks_id_seq db) (Family.id family)
                                  uid (Some title) (sql_text (js_or d VNull))
                                  priority (Some "pending") assigned_to
                                  (iso_date weekStart) None now now in
                  let db' :=
                    set_family_tasks (family_tasks db ++ [row])
                                     (family_tasks_id_seq db + 1) db in
                  let taskWithUsername :=
                    with_assignee db'
                      (filter (fun ft => FamilyTask.id ft =? FamilyTask.id row)
                              (family_tasks db')) in
                  (Respond 201 (FamilyTaskRow (hd_error taskWithUsername)), db')
              | _, _ => (Threw DatabaseError, db)
              end
            end
        end
    end.

(** [SELECT ft.*, f.created_by as family_leader FROM family_tasks ft
     JOIN families f ON ft.family_id = f.id
     JOIN family_members fm ON f.id = fm.family_id
     WHERE ft.id = $1 AND fm.user_id = $2], for a [taskId] within the range
    of the integer id column. *)
Definition task_with_leader (taskId uid : Z) (db : DB)
  : list (FamilyTask.t * Z) :=
  flat_map
    (fun ft =>
       flat_map
         (fun f =>
            map (fun _ => (ft, Family.created_by f))
                (filter (fun fm => (Family.id f =? Member.family_id fm)
                                   && (Member.user_id fm =? uid))
                        (family_members db)))
         (filter (fun f => FamilyTask.family_id ft =? Family.id f)
                 (families db)))
    (filter (fun ft => FamilyTask.id ft =? taskId) (family_tasks db)).

(** PUT /api/family/tasks/:taskId.  The first query fails for a [taskId]
    outside the range of the integer id column. *)
Definition put_family_task (now uid taskId : Z) (b : FamilyTaskBody.t)
           (db : DB) : outcome * DB :=
  match validateTaskId ext taskId with
  | Some r => (r, db)
  | None =>
    if negb (in_int4 taskId) then (Threw DatabaseError, db) else
    match task_with_leader taskId uid db with
    | [] => (Respond 404 (ErrorBody "Task not found"), db)
    | (task, family_leader) :: _ =>
      if negb (family_leader =? uid)
         && negb (int_is uid (FamilyTask.assigned_to task))
      then
        (Respond 403
           (ErrorBody "You don't have permission to update this task"), db)
      else
        let completedAt :=
          if strict_eq_str (FamilyTaskBody.status b) "completed"
          then Some now else None in
        match sql_int (int4in ext) (FamilyTaskBody.priority b),
              sql_int (int4in ext) (FamilyTaskBody.assigned_to b) with
        | Some priority, Some assigned_to =>
            let upd ft :=
              if FamilyTask.id ft =? taskId then
                FamilyTask.mk (FamilyTask.id ft) (FamilyTask.family_id ft)
                              (FamilyTask.created_by ft)
                              (sql_text (FamilyTaskBody.title b))
                              (sql_text (FamilyTaskBody.description b))
                              priority
                              (sql_text (FamilyTaskBody.status b))
                              assigned_to (FamilyTask.week_start ft)
                              completedAt (FamilyTask.created_at ft) now
              else ft in
            let db' :=
              set_family_tasks (map upd (family_tasks db))
                               (family_tasks_id_seq db) db in
            let updatedTaskResult :=
              with_assignee db'
                (filter (fun ft => FamilyTask.id ft =? taskId)
                        (family_tasks db')) in
            (Respond 200 (FamilyTaskRow (hd_error updatedTaskResult)), db')
        | _, _ => (Threw DatabaseError, db)
        end
    end
  end.

(** [SELECT ft.id FROM family_tasks ft JOIN families f
     ON ft.family_id = f.id WHERE ft.id = $1 AND f.created_by = $2], for a
    [taskId] within the range of the integer id column. *)
Definition task_led_by (taskId uid : Z) (db : DB) : list Z :=
  flat_map
    (fun ft =>
       map (fun _ => FamilyTask.id ft)
           (filter (fun f => (FamilyTask.family_id ft =? Family.id f)
                             && (Family.created_by f =? uid))
                   (families db)))
    (filter (fun ft => FamilyTask.id ft =? taskId) (family_tasks db)).

(** DELETE /api/family/tasks/:taskId.  The first query fails for a
    [taskId] outside the range of the integer id column. *)
Definition delete_family_task (uid taskId : Z) (db : DB) : outcome * DB :=
  match validateTaskId ext taskId with
  | Some r => (r, db)
  | None =>
    if negb (in_int4 taskId) then (Threw DatabaseError, db) else
    match task_led_by taskId uid db with
    | [] =>
        (Respond 404
           (ErrorBody "Task not found or you don't have permission to delete it"),
         db)
    | _ :: _ =>
        (Respond 200 (MessageBody "Task deleted successfully"),
         set_family_tasks
           (filter (fun ft => negb (FamilyTask.id ft =? taskId))
                   (family_tasks db))
           (family_tasks_id_seq db) db)
    end
  end.

(** ** routes/auth.js *)

Definition session (message : string) (u : User.t) : body :=
  SessionBody message (User.id u) (User.username u) (User.email u)
              (generateToken ext u).

(** POST /api/auth/register; [salt] is the salt bcrypt drew. *)
Definition post_register (now : Z) (salt : string) (b : AuthBody.t) (db : DB)
  : outcome * DB :=
  match validateRegistration ext b with
  | Some r => (r, db)
  | None =>
    let email := sql_text (AuthBody.email b) in
    let username := sql_text (AuthBody.username b) in
    match filter (fun u => text_matches email (User.email u)
                           || text_matches username (User.username u))
                 (users db) with
    | _ :: _ =>
        (Respond 400
           (ErrorBody "User already exists with this email or username"), db)
    | [] =>
      match AuthBody.password b with
      | VStr password =>
        let hashedPassword := bcrypt_hash ext password salt in
        match username, email with
        | Some username, Some email =>
            let newUser :=
              User.mk (users_id_seq db) username email hashedPassword now in
            let db' :=
              set_users (users db ++ [newUser]) (users_id_seq db + 1) db in
            if sendEmail ext (User.email newUser) "Welcome to TaskFlow!" then
              (Respond 201 (session "User created successfully" newUser), db')
            else (Threw MailError, db')
        | _, _ => (Threw DatabaseError, db)
        end
      | _ => (Threw BcryptError, db)
      end
    end
  end.

(** POST /api/auth/login *)
Definition post_login (b : AuthBody.t) (db : DB) : outcome * DB :=
  match validateLogin ext b with
  | Some r => (r, db)
  | None =>
    match filter (fun u => text_matches (sql_text (AuthBody.email b))
                                        (User.email u))
                 (users db) with
    | [] => (Respond 401 (ErrorBody "Invalid email or password"), db)
    | user :: _ =>
      match AuthBody.password b with
      | VStr password =>
          if negb (bcrypt_compare ext password (User.password_hash user)) then
            (Respond 401 (ErrorBody "Invalid email or password"), db)
          else (Respond 200 (session "Login successful" user), db)
      | _ => (Threw BcryptError, db)
      end
    end
  end.

Definition reset_notice : body :=
  MessageBody
    "If an account with that email exists, a password reset link has been sent.".

(** POST /api/auth/forgot-password; [resetToken] is the random token. *)
Definition post_forgot_password (now : Z) (resetToken : string)
           (email : value) (db : DB) : outcome * DB :=
  if negb (truthy email) then
    (Respond 400 (ErrorBody "Email is required"), db)
  else
    match filter (fun u => text_matches (sql_text email) (User.email u))
                 (users db) with
    | [] => (Respond 200 reset_notice, db)
    | user :: _ =>
        let resetTokenExpiry := now + 3600000 in
        let row :=
          ResetToken.mk (User.id user) resetToken resetTokenExpiry now in
        let others :=
          filter (fun r => negb (ResetToken.user_id r =? User.id user))
                 (password_reset_tokens db) in
        let db' := set_password_reset_tokens (others ++ [row]) db in
        if sendEmail ext (User.email user) "Password Reset Request - TaskFlow"
        then (Respond 200 reset_notice, db')
        else (Threw MailError, db')
    end.

(** ** The API as a whole *)

Inductive request :=
| Register (now : Z) (salt : string) (b : AuthBody.t)
| Login (b : AuthBody.t)
| ForgotPassword (now : Z) (resetToken : string) (email : value)
| ListTasks (uid : Z)
| CreateTask (now uid : Z) (b : TaskBody.t)
| UpdateTask (now uid id : Z) (b : TaskBody.t)
| DeleteTask (uid id : Z)
| ArchiveTasks (now uid : Z)
| FamilyInfo (uid : Z)
| CreateFamily (uid : Z) (name : value) (invitationCode : string)
| JoinFamily (uid : Z) (invitationCode : value)
| FamilyMembers (uid : Z)
| ListFamilyTasks (uid : Z)
| CreateFamilyTask (now uid : Z) (b : FamilyTaskBody.t)
| UpdateFamilyTask (now uid taskId : Z) (b : FamilyTaskBody.t)
| DeleteFamilyTask (uid taskId : Z)
| Stats (uid : Z)
| Analytics (now uid : Z) (timeframe : value).

Definition handle (r : request) (db : DB) : outcome * DB :=
  match r with
  | Register now salt b => post_register now salt b db
  | Login b => post_login b db
  | ForgotPassword now resetToken email =>
      post_forgot_password now resetToken email db
  | ListTasks uid => get_tasks uid db
  | CreateTask now uid b => post_task now uid b db
  | UpdateTask now uid id b => put_task now uid id b db
  | DeleteTask uid id => delete_task uid id db
  | ArchiveTasks now uid => post_archive now uid db
  | FamilyInfo uid => get_family_info uid db
  | CreateFamily uid name code => post_family_create uid name code db
  | JoinFamily uid code => post_family_join uid code db
  | FamilyMembers uid => get_family_members uid db
  | ListFamilyTasks uid => get_family_tasks uid db
  | CreateFamilyTask now uid b => post_family_task now uid b db
  | UpdateFamilyTask now uid taskId b => put_family_task now uid taskId b db
  | DeleteFamilyTask uid taskId => delete_family_task uid taskId db
  | Stats uid => get_stats uid db
  | Analytics now uid timeframe => get_analytics now uid timeframe db
  end.

(** The store after a sequence of requests served one after the other. *)
Fixpoint serve (rs : list request) (db : DB) : DB :=
  match rs with
  | [] => db
  | r :: rs' => serve rs' (snd (handle r db))
  end.

End Routes.

(** * Vocabulary of the properties

    Predicates on stores and rows, the rows the handlers write spelled out
    as functions of their parameters, and the ways one request may change a
    table. *)

(** Descending priority, a NULL priority sorting before every number. *)
Definition priority_desc (pa pb : option Z) : Prop :=
  match pa, pb with
  | None, _ => True
  | Some _, None => False
  | Some x, Some y => y <= x
  end.

(** Row [a] may stand before row [b] in a listing: a pending row never
    follows a row that is not pending; inside a group the priorities
    descend, and among equal priorities the creation times descend. *)
Definition in_listing_order (sa sb : option string) (pa pb : option Z)
           (ca cb : Z) : Prop :=
  (text_is "pending" sb = true -> text_is "pending" sa = true)
  /\ (text_is "pending" sa = text_is "pending" sb ->
      priority_desc pa pb /\ (pa = pb -> cb <= ca)).

(** [completed_at] is set exactly on rows whose status is [completed]. *)
Definition completion_consistent (status : option string)
           (completed_at : option Z) : Prop :=
  completed_at <> None <-> status = Some "completed".

(** The row POST /api/tasks inserts once its parameters are evaluated. *)
Definition created_task (ext : Externals) (now uid : Z) (b : TaskBody.t)
           (db : DB) (title : string) (d : value) (priority : option Z)
  : Task.t :=
  Task.mk (tasks_id_seq db) uid title (sql_text (js_or d VNull)) priority
          (sql_text (js_or (TaskBody.status b) (VStr "pending")))
          uid (iso_date (getCurrentWeekStart ext now)) false None
          (if strict_eq_str (TaskBody.status b) "completed"
           then Some now else None)
          now now.

(** The [UPDATE tasks SET ... WHERE id = $6 AND user_id = $7] of
    PUT /api/tasks/:id, row by row. *)
Definition updated_task (now uid id : Z) (b : TaskBody.t) (title : string)
           (d : value) (priority : option Z) (t : Task.t) : Task.t :=
  if (Task.id t =? id) && (Task.user_id t =? uid) then
    Task.mk (Task.id t) (Task.user_id t) title (sql_text d) priority
            (sql_text (TaskBody.status b)) (Task.assigned_to t)
            (Task.week_start t) (Task.archived t) (Task.archived_at t)
            (if strict_eq_str (TaskBody.status b) "completed"
             then Some now else None)
            (Task.created_at t) now
  else t.

(** The [UPDATE family_tasks SET ... WHERE id = $7] of
    PUT /api/family/tasks/:taskId, row by row. *)
Definition updated_family_task (now taskId : Z) (b : FamilyTaskBody.t)
           (priority assigned_to : option Z) (ft : FamilyTask.t)
  : FamilyTask.t :=
  if FamilyTask.id ft =? taskId then
    FamilyTask.mk (FamilyTask.id ft) (FamilyTask.family_id ft)
                  (FamilyTask.created_by ft)
                  (sql_text (FamilyTaskBody.title b))
                  (sql_text (FamilyTaskBody.description b))
                  priority
                  (sql_text (FamilyTaskBody.status b))
                  assigned_to (FamilyTask.week_start ft)
                  (if strict_eq_str (FamilyTaskBody.status b) "completed"
                   then Some now else None)
                  (FamilyTask.created_at ft) now
  else ft.

Definition archive_step (ext : Externals) (now uid : Z) (t : Task.t) : Task.t :=
  if archivable uid (archive_cutoff ext now) t then archive_row now t else t.

(** Number of archived rows in the tasks table. *)
Definition archived_total (db : DB) : Z :=
  Z.of_nat (List.length (filter Task.archived (tasks db))).

(** How one request may change the tasks table: not at all, by inserting a
    row under the next id, by rewriting rows in place without touching an
    id or clearing an archived flag, or by deleting rows. *)
Inductive tasks_step (db db' : DB) : Prop :=
| tasks_same :
    tasks db' = tasks db -> tasks_id_seq db' = tasks_id_seq db ->
    tasks_step db db'
| tasks_inserted row :
    tasks db' = (tasks db ++ [row])%list -> Task.id row = tasks_id_seq db ->
    tasks_id_seq db' = tasks_id_seq db + 1 ->
    tasks_step db db'
| tasks_rewritten f :
    tasks db' = map f (tasks db) -> tasks_id_seq db' = tasks_id_seq db ->
    (forall t, Task.id (f t) = Task.id t
               /\ (Task.archived t = true -> Task.archived (f t) = true)) ->
    tasks_step db db'
| tasks_deleted keep :
    tasks db' = filter keep (tasks db) -> tasks_id_seq db' = tasks_id_seq db ->
    tasks_step db db'.

(** The tasks table respects its primary key and its id sequence. *)
Definition tasks_keyed (db : DB) : Prop :=
  NoDup (map Task.id (tasks db))
  /\ Forall (fun t => Task.id t < tasks_id_seq db) (tasks db).

Definition memberships (uid : Z) (db : DB) : list Member.t :=
  filter (fun m => Member.user_id m =? uid) (family_members db).

(** No user has more than one membership row. *)
Definition at_most_one_family (db : DB) : Prop :=
  forall uid, (List.length (memberships uid db) <= 1)%nat.

(** How one request may change the membership table: not at all, or by one
    new row for a user who had none. *)
Inductive members_step (db db' : DB) : Prop :=
| members_same :
    family_members db' = family_members db -> members_step db db'
| members_joined m :
    family_members db' = (family_members db ++ [m])%list ->
    memberships (Member.user_id m) db = [] ->
    members_step db db'.

(** Equal up to letter case: equal once upper-cased. *)
Definition same_ignoring_case (ext : Externals) (a b : string) : Prop :=
  toUpperCase ext a = toUpperCase ext b.

(** A code is blank when it is falsy or a string of white space only. *)
Definition blank_code (code : value) : Prop :=
  truthy code = false \/ exists s, code = VStr s /\ trim s = "".

(** The store after [uid] has become a member of [family]. *)
Definition joined (uid : Z) (family : Family.t) (db : DB) : DB :=
  set_family_members
    (family_members db
     ++ [Member.mk (family_members_id_seq db) (Family.id family) uid])
    (family_members_id_seq db + 1) db.

(** [ft] is a family task with id [taskId] whose family [f] has [uid] among
    its members. *)
Definition task_in_own_family (taskId uid : Z) (db : DB)
           (ft : FamilyTask.t) (f : Family.t) : Prop :=
  In ft (family_tasks db) /\ FamilyTask.id ft = taskId
  /\ In f (families db) /\ Family.id f = FamilyTask.family_id ft
  /\ exists m, In m (family_members db)
               /\ Member.family_id m = Family.id f
               /\ Member.user_id m = uid.

(** The assignee of a family task has a membership row in its family. *)
Definition assignee_is_member (db : DB) (ft : FamilyTask.t) : Prop :=
  exists m, In m (family_members db)
            /\ Member.family_id m = FamilyTask.family_id ft
            /\ FamilyTask.assigned_to ft = Some (Member.user_id m).

(** The counts announced by the handler's comment "Get current week stats",
    in the words of the specification: the requester's non-archived tasks
    of the current week bucket. *)
Definition current_week_tally (ext : Externals) (now uid : Z) (db : DB)
  : counts :=
  tally (filter (fun t => owned_active uid t
                          && (Task.week_start t
                              =? iso_date (getCurrentWeekStart ext now)))
                (tasks db)).

Definition codes_unique (db : DB) : Prop :=
  NoDup (map Family.invitation_code (families db)).

(** How one request may change the families table: not at all, or by one
    new family whose code no family carried. *)
Inductive families_step (db db' : DB) : Prop :=
| families_same : families db' = families db -> families_step db db'
| families_added f :
    families db' = (families db ++ [f])%list ->
    existsb (fun g => String.eqb (Family.invitation_code g)
                                 (Family.invitation_code f))
            (families db) = false ->
    families_step db db'.

(** Emails and user names each identify one user row. *)
Definition users_unique (db : DB) : Prop :=
  NoDup (map User.email (users db)) /\ NoDup (map User.username (users db)).

(** How one request may change the users table: not at all, or by one new
    row whose email and user name no row carried. *)
Inductive users_step (db db' : DB) : Prop :=
| users_same : users db' = users db -> users_step db db'
| users_added u :
    users db' = (users db ++ [u])%list ->
    (forall v, In v (users db) ->
               User.email v <> User.email u
               /\ User.username v <> User.username u) ->
    users_step db db'.

(** The row POST /api/auth/register inserts. *)
Definition registered_user (ext : Externals) (now : Z) (salt : string)
           (db : DB) (username email password : string) : User.t :=
  User.mk (users_id_seq db) username email (bcrypt_hash ext password salt) now.

(** The store after the insert of POST /api/auth/register. *)
Definition with_user (u : User.t) (db : DB) : DB :=
  set_users (users db ++ [u]) (users_id_seq db + 1) db.

(** The reset tokens stored for one user. *)
Definition tokens_of (uid : Z) (db : DB) : list ResetToken.t :=
  filter (fun r => ResetToken.user_id r =? uid) (password_reset_tokens db).

(** No user has more than one reset token. *)
Definition one_token_per_user (db : DB) : Prop :=
  forall uid, (List.length (tokens_of uid db) <= 1)%nat.

(** How one request may change the reset tokens: not at all, or by putting
    one user's new token in the place of that user's old ones. *)
Inductive tokens_step (db db' : DB) : Prop :=
| tokens_same :
    password_reset_tokens db' = password_reset_tokens db -> tokens_step db db'
| tokens_upserted row :
    password_reset_tokens db'
    = (filter (fun r => negb (ResetToken.user_id r =? ResetToken.user_id row))
              (password_reset_tokens db) ++ [row])%list ->
    tokens_step db db'.

(** The rows GET /api/tasks answers with. *)
Definition listed_tasks (uid : Z) (db : DB) : list Task.t :=
  order_by (fun a b => listing_le (task_key a) (task_key b))
           (filter (owned_active uid) (tasks db)).

(** The tables of [db'] hold the rows of [db]; the id sequences, which a
    failed statement may still advance, are not compared. *)
Definition same_rows (db db' : DB) : Prop :=
  users db' = users db
  /\ password_reset_tokens db' = password_reset_tokens db
  /\ tasks db' = tasks db
  /\ families db' = families db
  /\ family_members db' = family_members db
  /\ family_tasks db' = family_tasks db.

(** A request failed: it was answered with a status of 400 or more, or it
    threw an error other than the mailer's. *)
Definition failed (out : outcome) : Prop :=
  match out with
  | Respond status _ => 400 <= status
  | Threw e => e <> MailError
  end.

(** The sizes, added up, of the groups [GROUP BY] forms for the keys [ks]. *)
Definition group_sizes {A K} (test : A -> K -> bool) (ks : list K)
           (rows : list A) : Z :=
  fold_right
    (fun k acc => Z.of_nat (List.length (filter (fun t => test t k) rows)) + acc)
    0 ks.

(** The [total_tasks] of the weekly rows of the dashboard, added up. *)
Definition sum_totals (weekly : list (Z * counts)) : Z :=
  fold_right (fun p acc => total_tasks (snd p) + acc) 0 weekly.

(** The middle column (the [COUNT( * )]) of analytics rows, added up. *)
Definition sum_counts {K} (rows : list (K * Z * Z)) : Z :=
  fold_right (fun r acc => snd (fst r) + acc) 0 rows.

(** [WHERE user_id = $1 AND archived = FALSE AND created_at >= CURRENT_DATE
    - INTERVAL 'n days'] of the analytics queries. *)
Definition in_window (now uid days : Z) (t : Task.t) : bool :=
  owned_active uid t
  && ((iso_date now - days) * ms_per_day <=? Task.created_at t).

(** The number of tasks the trend rows of an analytics response count. *)
Definition trend_total (out : outcome) : Z :=
  match out with
  | Respond _ (AnalyticsBody trends _ _) => sum_counts trends
  | _ => 0
  end.

(** * Example stores and requests

    A concrete instance of the collaborators, to run the handlers on
    examples: validators that accept every request, weeks counted from the
    epoch, decimal integer input, stand-ins for bcrypt, the token signer
    and the mailer, and upper-casing of the letters a to z (what
    [toUpperCase] does on the ASCII strings of the examples). *)

Definition week_ms : Z := 7 * ms_per_day.

Definition demo_ext : Externals :=
  mkExternals
    (fun _ => None) (fun _ => None) (fun _ => None) (fun _ => None)
    (fun _ => None)
    (fun now => now / week_ms * week_ms)
    (fun s => option_map Z.of_int (NilZero.int_of_string s))
    (fun password salt => salt ++ "$" ++ password)
    (fun password hash => String.eqb hash ("salt$" ++ password))
    (fun u => "token:" ++ User.username u)
    (fun _ _ => true)
    upper_letters.

Definition demo_users : list User.t :=
  [ User.mk 1 "alice" "alice@example.com" "salt$secret" 0;
    User.mk 2 "bob" "bob@example.com" "salt$hunter2" 0;
    User.mk 3 "carol" "carol@example.com" "salt$letmein" 0 ].

(** Three registered users and nothing else. *)
Definition demo_db : DB :=
  mkDB demo_users [] [] [] [] [] 4 1 1 1 1.

(** Alice leads the family Home, Bob is its other member and Carol belongs
    to no family; Alice has one personal task, and the family has one task
    assigned to Bob and one assigned to Alice. *)
Definition home_db : DB :=
  mkDB demo_users []
       [ Task.mk 1 1 "Water plants" None (Some 2) (Some "pending") 1
                 19999 false None None 100 100 ]
       [ Family.mk 1 "Home" 1 "ABC123" ]
       [ Member.mk 1 1 1; Member.mk 2 1 2 ]
       [ FamilyTask.mk 1 1 1 (Some "Dishes") None (Some 1) (Some "pending")
                       (Some 2) 19999 None 200 200;
         FamilyTask.mk 2 1 1 (Some "Taxes") None (Some 3) (Some "pending")
                       (Some 1) 19999 None 300 300 ]
       4 2 2 3 3.

Definition falsy_create : TaskBody.t :=
  TaskBody.mk (VStr " Buy milk ") VUndefined (VNum 0) (VStr "").

Definition complete_task : TaskBody.t :=
  TaskBody.mk (VStr "Water plants") VUndefined (VNum 2) (VStr "completed").

Definition complete_family_task : FamilyTaskBody.t :=
  FamilyTaskBody.mk (VStr "Dishes") VNull (VNum 1) (VStr "completed") (VNum 2).

Definition edit_dishes : FamilyTaskBody.t :=
  FamilyTaskBody.mk (VStr "Dishes") VNull (VNum 1) (VStr "pending") (VNum 2).

Definition assign_to_carol : FamilyTaskBody.t :=
  FamilyTaskBody.mk (VStr "Mow the lawn") VUndefined VUndefined VUndefined
                    (VNum 3).

(** Alice has a pending task in the current week (bucket 20020) and a
    completed one in the week before (bucket 20013). *)
Definition two_weeks_db : DB :=
  mkDB demo_users []
       [ Task.mk 1 1 "Last week" None (Some 1) (Some "completed") 1
                 20013 false None (Some 50) 40 50;
         Task.mk 2 1 "This week" None (Some 1) (Some "pending") 1
                 20020 false None None 60 60 ]
       [] [] [] 4 3 1 1 1.

(** Alice and Bob found a family and organise a week. *)
Definition story : list request :=
  [ CreateFamily 1 (VStr " Home ") "ABC123";
    JoinFamily 2 (VStr "abc123");
    CreateFamily 2 (VStr "Elsewhere") "QRS456";
    CreateTask 1000 1 (TaskBody.mk (VStr "Low") VUndefined (VNum 1) VUndefined);
    CreateTask 2000 1 (TaskBody.mk (VStr "Done") VUndefined (VNum 9)
                                   (VStr "completed"));
    CreateTask 3000 1 (TaskBody.mk (VStr "High") VUndefined (VNum 5) VUndefined);
    CreateTask 4000 2 (TaskBody.mk (VStr "Bob's") VUndefined VUndefined VUndefined) ].

(** The collaborators of [demo_ext] with a mailer that fails. *)
Definition offline_ext : Externals :=
  mkExternals
    (validateRegistration demo_ext) (validateLogin demo_ext)
    (validateTask demo_ext) (validateTaskId demo_ext)
    (validateFamily demo_ext) (getCurrentWeekStart demo_ext)
    (int4in demo_ext) (bcrypt_hash demo_ext) (bcrypt_compare demo_ext)
    (generateToken demo_ext) (fun _ _ => false) (toUpperCase demo_ext).

Definition dave_signup : AuthBody.t :=
  AuthBody.mk (VStr "dave") (VStr "dave@example.com") (VStr "pa55word").

Definition alice_again : AuthBody.t :=
  AuthBody.mk (VStr "alice2") (VStr "alice@example.com") (VStr "other").

(** The collaborators of [demo_ext] with a bcrypt stand-in whose [compare]
    accepts every hash of the password, whatever the salt. *)
Definition salted_ext : Externals :=
  mkExternals
    (validateRegistration demo_ext) (validateLogin demo_ext)
    (validateTask demo_ext) (validateTaskId demo_ext)
    (validateFamily demo_ext) (getCurrentWeekStart demo_ext)
    (int4in demo_ext)
    (fun password salt => password ++ "$" ++ salt)
    (fun password hash => prefix (password ++ "$") hash)
    (generateToken demo_ext) (sendEmail demo_ext) (toUpperCase demo_ext).

Definition blank_title_task : FamilyTaskBody.t :=
  FamilyTaskBody.mk (VStr "  ") VUndefined VUndefined VUndefined (VNum 2).

Definition unassigned_task : FamilyTaskBody.t :=
  FamilyTaskBody.mk (VStr "Mow") VUndefined VUndefined VUndefined (VNum 0).

Definition blank_description : TaskBody.t :=
  TaskBody.mk (VStr "Water plants") (VStr "   ") (VNum 2) (VStr "pending").

Definition edit_to_alice : FamilyTaskBody.t :=
  FamilyTaskBody.mk (VStr "Dishes") VNull (VNum 1) (VStr "pending") (VNum 1).

(** * Properties *)

Ltac split_compares :=
  repeat match goal with
         | H : context [?x ?= ?y] |- _ => destruct (Z.compare_spec x y); subst
         | |- context [?x ?= ?y] => destruct (Z.compare_spec x y); subst
         end.

Ltac split_matches :=
  repeat match goal with
         | |- context [match ?x with _ => _ end] => destruct x eqn:?
         end.

(** ** ORDER BY *)

Section OrderByFacts.
Context {A : Type} (le : A -> A -> bool).
Hypothesis le_total : forall a b, le a b = true \/ le b a = true.
Hypothesis le_trans :
  forall a b c, le a b = true -> le b c = true -> le a c = true.

Let R (a b : A) : Prop := le a b = true.

Lemma insert_row_perm x l : Permutation (insert_row le x l) (x :: l).
Proof.
  induction l as [|y l IH]; simpl.
  - reflexivity.
  - destruct (le x y).
    + reflexivity.
    + rewrite IH. apply perm_swap.
Qed.

Lemma order_by_perm l : Permutation (order_by le l) l.
Proof.
  induction l as [|x l IH]; simpl.
  - constructor.
  - rewrite insert_row_perm. now constructor.
Qed.

Lemma insert_row_sorted x l :
  StronglySorted R l -> StronglySorted R (insert_row le x l).
Proof.
  induction 1 as [|y l Hl IH Hy]; simpl.
  - repeat constructor.
  - destruct (le x y) eqn:Hxy.
    + constructor.
      * now constructor.
      * constructor; [exact Hxy|].
        eapply Forall_impl; [|exact Hy].
        intros z Hz. exact (le_trans _ _ _ Hxy Hz).
    + constructor; [exact IH|].
      assert (Hyx : R y x).
      { destruct (le_total x y) as [H|H]; [congruence|exact H]. }
      eapply Permutation_Forall.
      * symmetry. apply insert_row_perm.
      * now constructor.
Qed.

Lemma order_by_sorted l : StronglySorted R (order_by le l).
Proof.
  induction l as [|x l IH]; simpl.
  - constructor.
  - now apply insert_row_sorted.
Qed.
End OrderByFacts.

Lemma StronglySorted_nth {A} (R : A -> A -> Prop) (l : list A) :
  StronglySorted R l ->
  forall i j a b, (i < j)%nat ->
    nth_error l i = Some a -> nth_error l j = Some b -> R a b.
Proof.
  induction 1 as [|x l Hl IH Hx]; intros i j a b Hij Hi Hj.
  - destruct i; discriminate.
  - destruct j as [|j]; [lia|].
    simpl in Hj. destruct i as [|i]; simpl in Hi.
    + injection Hi as <-.
      rewrite Forall_forall in Hx. apply Hx.
      eapply nth_error_In; eassumption.
    + apply (IH i j); [lia|assumption..].
Qed.

Lemma compare_desc_eq a b : compare_desc a b = Eq <-> a = b.
Proof.
  destruct a as [x|], b as [y|]; simpl; try (split; congruence).
  rewrite Z.compare_eq_iff. split; congruence.
Qed.

Lemma listing_le_total a b : listing_le a b = true \/ listing_le b a = true.
Proof.
  destruct a as [[ra pa] ca], b as [[rb pb] cb].
  unfold listing_le, compare_desc.
  destruct pa, pb; split_compares;
    rewrite ?Z.leb_le; try lia; auto.
Qed.

Lemma listing_le_trans a b c :
  listing_le a b = true -> listing_le b c = true -> listing_le a c = true.
Proof.
  destruct a as [[ra pa] ca], b as [[rb pb] cb], c as [[rc pc] cc].
  unfold listing_le, compare_desc.
  destruct pa, pb, pc; intros H1 H2; split_compares;
    rewrite ?Z.leb_le in *; try discriminate; try lia; auto.
Qed.

Lemma compare_desc_order pa pb ca cb :
  match compare_desc pa pb with
  | Lt => true
  | Gt => false
  | Eq => cb <=? ca
  end = true ->
  priority_desc pa pb /\ (pa = pb -> cb <= ca).
Proof.
  destruct (compare_desc pa pb) eqn:Hc; intros H; try discriminate.
  - apply compare_desc_eq in Hc. subst pb. apply Z.leb_le in H.
    split; [destruct pa; cbn [priority_desc]; lia | auto].
  - split.
    + destruct pa as [x|], pb as [y|];
        cbn [compare_desc priority_desc] in *; try discriminate; auto.
      rewrite Z.compare_lt_iff in Hc. lia.
    + intros ->.
      assert (Heq : compare_desc pb pb = Eq) by now apply compare_desc_eq.
      congruence.
Qed.

Lemma listing_le_order sa sb pa pb ca cb :
  listing_le (pending_rank sa, pa, ca) (pending_rank sb, pb, cb) = true ->
  in_listing_order sa sb pa pb ca cb.
Proof.
  unfold listing_le, pending_rank, in_listing_order.
  destruct (text_is "pending" sa), (text_is "pending" sb); simpl; intros H.
  - split; [auto|]. intros _. now apply compare_desc_order.
  - split; [discriminate|discriminate].
  - discriminate.
  - split; [auto|]. intros _. now apply compare_desc_order.
Qed.

(** ** Listings *)

Lemma in_with_assignee db fts ft name :
  In (ft, name) (with_assignee db fts) <->
  In ft fts /\
  exists u, In u (users db)
            /\ FamilyTask.assigned_to ft = Some (User.id u)
            /\ User.username u = name.
Proof.
  unfold with_assignee. rewrite in_flat_map. split.
  - intros (ft' & Hft & Hin). apply in_map_iff in Hin.
    destruct Hin as (u & Heq & Hu). apply filter_In in Hu.
    destruct Hu as [Hu Hid]. injection Heq as -> <-.
    split; [assumption|]. exists u. repeat split; try assumption.
    unfold int_is in Hid. destruct (FamilyTask.assigned_to ft); [|discriminate].
    apply Z.eqb_eq in Hid. now subst.
  - intros (Hft & u & Hu & Ha & Hn). exists ft. split; [assumption|].
    apply in_map_iff. exists u. split; [now subst|].
    apply filter_In. split; [assumption|].
    unfold int_is. rewrite Ha. apply Z.eqb_refl.
Qed.

Lemma in_visible_to uid db r r' :
  In r' (visible_to uid db r) <->
  r' = r /\
  exists fm, In fm (family_members db)
             /\ Member.family_id fm = FamilyTask.family_id (fst r)
             /\ Member.user_id fm = uid.
Proof.
  unfold visible_to. rewrite in_map_iff. split.
  - intros (fm & <- & Hfm). apply filter_In in Hfm.
    destruct Hfm as [Hfm Hc]. apply andb_true_iff in Hc.
    destruct Hc as [H1 H2]. apply Z.eqb_eq in H1, H2.
    split; [reflexivity|]. exists fm. auto.
  - intros (-> & fm & Hfm & H1 & H2). exists fm. split; [reflexivity|].
    apply filter_In. split; [assumption|].
    rewrite <- H1, H2, !Z.eqb_refl. reflexivity.
Qed.

(** C3.  GET /api/tasks answers 200 with exactly the requester's
    non-archived tasks (a rearrangement of them), and GET /api/family/tasks
    with exactly the tasks of a family the requester is a member of (joined
    with the assignee's user name).  In both listings, whenever a row stands
    before another, a pending row never follows a non-pending one, and
    inside each of the two groups priorities descend (NULL first, as the
    database orders DESC) and, for equal priorities, creation times descend.
    Neither request changes the store. *)
Theorem listings_filtered_and_ordered (uid : Z) (db : DB) :
  (exists rows,
      get_tasks uid db = (Respond 200 (TaskRows rows), db)
      /\ Permutation rows (filter (owned_active uid) (tasks db))
      /\ (forall t, In t rows <->
                    In t (tasks db) /\ Task.user_id t = uid
                    /\ Task.archived t = false)
      /\ (forall i j a b, (i < j)%nat ->
            nth_error rows i = Some a -> nth_error rows j = Some b ->
            in_listing_order (Task.status a) (Task.status b)
                             (Task.priority a) (Task.priority b)
                             (Task.created_at a) (Task.created_at b)))
  /\ (exists rows,
      get_family_tasks uid db = (Respond 200 (FamilyTaskRows rows), db)
      /\ (forall ft name, In (ft, name) rows <->
            In ft (family_tasks db)
            /\ (exists u, In u (users db)
                          /\ FamilyTask.assigned_to ft = Some (User.id u)
                          /\ User.username u = name)
            /\ (exists fm, In fm (family_members db)
                           /\ Member.family_id fm = FamilyTask.family_id ft
                           /\ Member.user_id fm = uid))
      /\ (forall i j a b, (i < j)%nat ->
            nth_error rows i = Some a -> nth_error rows j = Some b ->
            in_listing_order
              (FamilyTask.status (fst a)) (FamilyTask.status (fst b))
              (FamilyTask.priority (fst a)) (FamilyTask.priority (fst b))
              (FamilyTask.created_at (fst a)) (FamilyTask.created_at (fst b)))).
Proof.
  split.
  - eexists. split; [reflexivity|].
    set (le := fun a b => listing_le (task_key a) (task_key b)).
    assert (Hperm := order_by_perm le (filter (owned_active uid) (tasks db))).
    split; [exact Hperm|]. split.
    + intros t. rewrite (Permutation_in' (eq_refl t) Hperm), filter_In.
      unfold owned_active. rewrite andb_true_iff, Z.eqb_eq, negb_true_iff.
      tauto.
    + intros i j a b Hij Hi Hj. apply listing_le_order.
      assert (Hs : StronglySorted (fun x y => le x y = true)
                     (order_by le (filter (owned_active uid) (tasks db)))).
      { apply order_by_sorted; unfold le; intros.
        - apply listing_le_total.
        - eapply listing_le_trans; eassumption. }
      exact (StronglySorted_nth _ _ Hs i j a b Hij Hi Hj).
  - eexists. split; [reflexivity|].
    set (le := fun a b => listing_le (family_task_key a) (family_task_key b)).
    set (src := flat_map (visible_to uid db) (with_assignee db (family_tasks db))).
    assert (Hperm := order_by_perm le src).
    split.
    + intros ft name. rewrite (Permutation_in' (eq_refl (ft, name)) Hperm).
      unfold src. rewrite in_flat_map. split.
      * intros (r & Hr & Hv). apply in_visible_to in Hv.
        destruct Hv as [<- Hfm]. apply in_with_assignee in Hr. tauto.
      * intros (Hft & Hu & Hfm). exists (ft, name). split.
        -- apply in_with_assignee. tauto.
        -- apply in_visible_to. tauto.
    + intros i j a b Hij Hi Hj. apply listing_le_order.
      assert (Hs : StronglySorted (fun x y => le x y = true) (order_by le src)).
      { apply order_by_sorted; unfold le; intros.
        - apply listing_le_total.
        - eapply listing_le_trans; eassumption. }
      exact (StronglySorted_nth _ _ Hs i j a b Hij Hi Hj).
Qed.

(** ** Generic list facts *)

Lemma filter_none {A} (f : A -> bool) (l : list A) :
  (forall x, In x l -> f x = false) -> filter f l = [].
Proof.
  induction l as [|x l IH]; intros H; simpl; [reflexivity|].
  rewrite (H x (or_introl eq_refl)). apply IH. intros y Hy. apply H. now right.
Qed.

Lemma filter_some {A} (f : A -> bool) (l : list A) x :
  In x l -> f x = true -> exists y rest, filter f l = y :: rest.
Proof.
  intros Hin Hf. destruct (filter f l) as [|y rest] eqn:E.
  - assert (Hx : In x (filter f l)) by (apply filter_In; auto).
    rewrite E in Hx. destruct Hx.
  - eauto.
Qed.

Lemma filter_head_In {A} (f : A -> bool) (l : list A) y rest :
  filter f l = y :: rest -> In y l /\ f y = true.
Proof.
  intros E. apply filter_In. rewrite E. now left.
Qed.

(** ** Login *)




(** ** Creating and updating tasks *)

Lemma decimal_not_completed n :
  NilZero.string_of_int (Z.to_int n) <> "completed".
Proof.
  destruct (Z.to_int n) as [d|d]; simpl; [destruct d|]; discriminate.
Qed.

(** A status parameter is stored as the text [completed] exactly when the
    handler's test [status === "completed"] succeeds. *)
Lemma sql_text_completed v :
  sql_text v = Some "completed" <-> strict_eq_str v "completed" = true.
Proof.
  destruct v as [| |b|n|s]; simpl; try (split; discriminate).
  - destruct b; split; discriminate.
  - split; [|discriminate]. intros H. injection H as H.
    now apply decimal_not_completed in H.
  - rewrite String.eqb_eq. split; congruence.
Qed.

Lemma defaulted_status_completed v :
  sql_text (js_or v (VStr "pending")) = Some "completed"
  <-> strict_eq_str v "completed" = true.
Proof.
  unfold js_or. destruct (truthy v) eqn:Ht.
  - apply sql_text_completed.
  - destruct v as [| |b|n|s]; simpl in *; try (split; discriminate).
    apply negb_false_iff, String.eqb_eq in Ht. subst s.
    split; discriminate.
Qed.

Lemma completion_from_test (v : value) (stored : option string) (now : Z) :
  (stored = Some "completed" <-> strict_eq_str v "completed" = true) ->
  completion_consistent
    stored (if strict_eq_str v "completed" then Some now else None).
Proof.
  unfold completion_consistent. intros H.
  destruct (strict_eq_str v "completed").
  - split; [intros _; now apply H | discriminate].
  - split; [congruence|]. intros Hs. apply H in Hs. discriminate.
Qed.

Lemma post_task_cases ext now uid b db :
  validateTask ext b = None ->
  (exists title d priority,
      call_trim (TaskBody.title b) = Some title
      /\ optional_trim (TaskBody.description b) = Some d
      /\ sql_int (int4in ext) (js_or (TaskBody.priority b) (VNum 1))
         = Some priority
      /\ post_task ext now uid b db
         = (Respond 201
              (TaskRow (Some (created_task ext now uid b db title d priority))),
            set_tasks
              (tasks db ++ [created_task ext now uid b db title d priority])
              (tasks_id_seq db + 1) db))
  \/ (exists e, post_task ext now uid b db = (Threw e, db)).
Proof.
  intros Hv. unfold post_task. rewrite Hv.
  destruct (call_trim (TaskBody.title b)) as [title|]; [|right; eauto].
  destruct (optional_trim (TaskBody.description b)) as [d|]; [|right; eauto].
  destruct (sql_int (int4in ext) (js_or (TaskBody.priority b) (VNum 1)))
    as [priority|]; [|right; eauto].
  left. exists title, d, priority. auto.
Qed.

(** C10.  A create request that passes validation, whose title is a string,
    whose description is absent or a string and whose priority is falsy or
    acceptable to the integer column, is answered 201 and stores one new
    row.  When the priority field is falsy (0 included) the stored priority
    is 1, never the falsy value; when the status field is falsy the stored
    status is [pending]. *)
Theorem create_defaults_by_falsy_coercion (ext : Externals) (now uid : Z)
        (b : TaskBody.t) (db : DB) :
  validateTask ext b = None ->
  call_trim (TaskBody.title b) <> None ->
  optional_trim (TaskBody.description b) <> None ->
  truthy (TaskBody.priority b) = false
  \/ sql_int (int4in ext) (TaskBody.priority b) <> None ->
  exists row,
    post_task ext now uid b db
    = (Respond 201 (TaskRow (Some row)),
       set_tasks (tasks db ++ [row]) (tasks_id_seq db + 1) db)
    /\ (truthy (TaskBody.priority b) = false -> Task.priority row = Some 1)
    /\ (TaskBody.priority b = VNum 0 -> Task.priority row = Some 1)
    /\ (truthy (TaskBody.status b) = false -> Task.status row = Some "pending").
Proof.
  intros Hv Ht Hd Hp.
  destruct (post_task_cases ext now uid b db Hv)
    as [(title & d & p & H1 & H2 & H3 & ->)|(e & He)].
  - eexists. split; [reflexivity|].
    assert (Hfalsy : truthy (TaskBody.priority b) = false ->
                     Task.priority (created_task ext now uid b db title d p)
                     = Some 1).
    { intros Hf. unfold js_or in H3. rewrite Hf in H3. simpl in H3.
      injection H3 as <-. reflexivity. }
    split; [exact Hfalsy|]. split.
    + intros E. apply Hfalsy. rewrite E. reflexivity.
    + intros Hf. simpl. unfold js_or. rewrite Hf. reflexivity.
  - exfalso. unfold post_task in He. rewrite Hv in He.
    destruct (call_trim (TaskBody.title b)); [|congruence].
    destruct (optional_trim (TaskBody.description b)); [|congruence].
    destruct Hp as [Hf|Hok].
    + unfold js_or in He. rewrite Hf in He. simpl in He. discriminate.
    + unfold js_or in He.
      destruct (truthy (TaskBody.priority b)).
      * destruct (sql_int (int4in ext) (TaskBody.priority b));
          [discriminate|congruence].
      * simpl in He. discriminate.
Qed.

Lemma create_defaults_by_falsy_coercion_witness :
  exists row,
    post_task demo_ext 1000 1 falsy_create demo_db
    = (Respond 201 (TaskRow (Some row)),
       set_tasks (tasks demo_db ++ [row]) (tasks_id_seq demo_db + 1) demo_db)
    /\ (truthy (TaskBody.priority falsy_create) = false ->
        Task.priority row = Some 1)
    /\ (TaskBody.priority falsy_create = VNum 0 -> Task.priority row = Some 1)
    /\ (truthy (TaskBody.status falsy_create) = false ->
        Task.status row = Some "pending").
Proof.
  apply (create_defaults_by_falsy_coercion demo_ext 1000 1 falsy_create demo_db).
  - reflexivity.
  - discriminate.
  - discriminate.
  - left. reflexivity.
Defined.

Lemma put_task_out_of_range ext now uid id b db :
  validateTaskId ext id = None ->
  validateTask ext b = None ->
  in_int4 id = false ->
  put_task ext now uid id b db = (Threw DatabaseError, db).
Proof.
  intros Hv1 Hv2 Hr. unfold put_task. rewrite Hv1, Hv2, Hr. reflexivity.
Qed.

Lemma delete_task_out_of_range ext uid id db :
  validateTaskId ext id = None ->
  in_int4 id = false ->
  delete_task ext uid id db = (Threw DatabaseError, db).
Proof.
  intros Hv Hr. unfold delete_task. rewrite Hv, Hr. reflexivity.
Qed.

Lemma put_family_task_out_of_range ext now uid taskId b db :
  validateTaskId ext taskId = None ->
  in_int4 taskId = false ->
  put_family_task ext now uid taskId b db = (Threw DatabaseError, db).
Proof.
  intros Hv Hr. unfold put_family_task. rewrite Hv, Hr. reflexivity.
Qed.


Lemma put_task_cases ext now uid id b db :
  validateTaskId ext id = None ->
  validateTask ext b = None ->
  in_int4 id = true ->
  (filter (fun t => (Task.id t =? id) && (Task.user_id t =? uid)) (tasks db) = []
   /\ put_task ext now uid id b db
      = (Respond 404 (ErrorBody "Task not found"), db))
  \/ (exists e, put_task ext now uid id b db = (Threw e, db))
  \/ (exists title d priority payload,
        filter (fun t => (Task.id t =? id) && (Task.user_id t =? uid)) (tasks db)
        <> []
        /\ call_trim (TaskBody.title b) = Some title
        /\ optional_trim (TaskBody.description b) = Some d
        /\ sql_int (int4in ext) (TaskBody.priority b) = Some priority
        /\ put_task ext now uid id b db
           = (Respond 200 payload,
              set_tasks (map (updated_task now uid id b title d priority) (tasks db))
                        (tasks_id_seq db) db)).
Proof.
  intros Hv1 Hv2 Hr. unfold put_task. rewrite Hv1, Hv2, Hr. cbn [negb].
  destruct (filter _ (tasks db)) as [|t0 rest] eqn:E; [left; auto|].
  right.
  destruct (call_trim (TaskBody.title b)) as [title|]; [|left; eauto].
  destruct (optional_trim (TaskBody.description b)) as [d|]; [|left; eauto].
  destruct (sql_int (int4in ext) (TaskBody.priority b)) as [priority|];
    [|left; eauto].
  right. exists title, d, priority. eexists.
  repeat split; try reflexivity. discriminate.
Qed.

Lemma put_family_task_cases ext now uid taskId b db :
  validateTaskId ext taskId = None ->
  in_int4 taskId = true ->
  (task_with_leader taskId uid db = []
   /\ put_family_task ext now uid taskId b db
      = (Respond 404 (ErrorBody "Task not found"), db))
  \/ (exists task leader rest,
        task_with_leader taskId uid db = (task, leader) :: rest
        /\ leader <> uid /\ FamilyTask.assigned_to task <> Some uid
        /\ put_family_task ext now uid taskId b db
           = (Respond 403
                (ErrorBody "You don't have permission to update this task"),
              db))
  \/ (exists task leader rest,
        task_with_leader taskId uid db = (task, leader) :: rest
        /\ (leader = uid \/ FamilyTask.assigned_to task = Some uid)
        /\ ((put_family_task ext now uid taskId b db = (Threw DatabaseError, db)
             /\ (sql_int (int4in ext) (FamilyTaskBody.priority b) = None
                 \/ sql_int (int4in ext) (FamilyTaskBody.assigned_to b) = None))
            \/ exists priority assigned_to payload,
                sql_int (int4in ext) (FamilyTaskBody.priority b) = Some priority
                /\ sql_int (int4in ext) (FamilyTaskBody.assigned_to b)
                   = Some assigned_to
                /\ put_family_task ext now uid taskId b db
                   = (Respond 200 payload,
                      set_family_tasks
                        (map (updated_family_task now taskId b priority assigned_to)
                             (family_tasks db))
                        (family_tasks_id_seq db) db))).
Proof.
  intros Hv Hr. unfold put_family_task. rewrite Hv, Hr. cbn [negb].
  destruct (task_with_leader taskId uid db) as [|[task leader] rest];
    [left; auto|].
  right.
  destruct (Z.eqb_spec leader uid) as [El|El]; simpl.
  - right. exists task, leader, rest. split; [reflexivity|]. split; [auto|].
    destruct (sql_int (int4in ext) (FamilyTaskBody.priority b)) as [p|];
      [|left; auto].
    destruct (sql_int (int4in ext) (FamilyTaskBody.assigned_to b)) as [a|];
      [|left; auto].
    right. exists p, a. eexists. repeat split; reflexivity.
  - destruct (int_is uid (FamilyTask.assigned_to task)) eqn:Ea; simpl.
    + right. exists task, leader, rest. split; [reflexivity|]. split.
      { right. unfold int_is in Ea.
        destruct (FamilyTask.assigned_to task); [|discriminate].
        apply Z.eqb_eq in Ea. now subst. }
      destruct (sql_int (int4in ext) (FamilyTaskBody.priority b)) as [p|];
        [|left; auto].
      destruct (sql_int (int4in ext) (FamilyTaskBody.assigned_to b)) as [a|];
        [|left; auto].
      right. exists p, a. eexists. repeat split; reflexivity.
    + left. exists task, leader, rest. repeat split; auto.
      intros Hs. unfold int_is in Ea. rewrite Hs, Z.eqb_refl in Ea.
      discriminate.
Qed.

Lemma completed_literal (v : value) :
  v = VStr "completed" -> strict_eq_str v "completed" = true.
Proof. intros ->. reflexivity. Qed.

Lemma other_literal (v : value) :
  v <> VStr "completed" -> strict_eq_str v "completed" = false.
Proof.
  intros Hv. destruct v as [| | | |s]; try reflexivity. simpl.
  destruct (String.eqb_spec s "completed") as [->|]; [now elim Hv|reflexivity].
Qed.

(** C2.  For requests that pass their validators:
    - a personal task stored by POST /api/tasks, whose status is the one of
      the request, or [pending] when that is falsy,
    - every row rewritten by PUT /api/tasks/:id, and
    - every row rewritten by PUT /api/family/tasks/:taskId, whose status is
      the one of the request,
    has [completed_at] non-null if and only if its (new) status is
    [completed]; when the request says [completed] the timestamp is the
    time of the request, and when it says anything else the timestamp is
    null.  The three requests do succeed on well-formed input (last three
    parts): a string title, an absent or string description and integer
    parameters the database accepts, on an existing task the requester may
    edit, named by an id within the range of the id column. *)
Theorem completed_at_tracks_status (ext : Externals) (now uid id taskId : Z)
        (b : TaskBody.t) (fb : FamilyTaskBody.t) (db : DB) :
  validateTask ext b = None ->
  validateTaskId ext id = None ->
  validateTaskId ext taskId = None ->
  (forall row db',
      post_task ext now uid b db = (Respond 201 (TaskRow (Some row)), db') ->
      tasks db' = (tasks db ++ [row])%list
      /\ Task.status row
         = sql_text (js_or (TaskBody.status b) (VStr "pending"))
      /\ completion_consistent (Task.status row) (Task.completed_at row)
      /\ (TaskBody.status b = VStr "completed" ->
          Task.completed_at row = Some now)
      /\ (TaskBody.status b <> VStr "completed" ->
          Task.completed_at row = None))
  /\ (forall payload db',
      put_task ext now uid id b db = (Respond 200 payload, db') ->
      (exists t, In t (tasks db') /\ Task.id t = id /\ Task.user_id t = uid)
      /\ forall t, In t (tasks db') -> Task.id t = id -> Task.user_id t = uid ->
           Task.status t = sql_text (TaskBody.status b)
           /\ completion_consistent (Task.status t) (Task.completed_at t)
           /\ (TaskBody.status b = VStr "completed" ->
               Task.completed_at t = Some now)
           /\ (TaskBody.status b <> VStr "completed" ->
               Task.completed_at t = None))
  /\ (forall payload db',
      put_family_task ext now uid taskId fb db = (Respond 200 payload, db') ->
      (exists t, In t (family_tasks db') /\ FamilyTask.id t = taskId)
      /\ forall t, In t (family_tasks db') -> FamilyTask.id t = taskId ->
           FamilyTask.status t = sql_text (FamilyTaskBody.status fb)
           /\ completion_consistent (FamilyTask.status t)
                                    (FamilyTask.completed_at t)
           /\ (FamilyTaskBody.status fb = VStr "completed" ->
               FamilyTask.completed_at t = Some now)
           /\ (FamilyTaskBody.status fb <> VStr "completed" ->
               FamilyTask.completed_at t = None))
  /\ (call_trim (TaskBody.title b) <> None ->
      optional_trim (TaskBody.description b) <> None ->
      sql_int (int4in ext) (js_or (TaskBody.priority b) (VNum 1)) <> None ->
      exists row db',
        post_task ext now uid b db = (Respond 201 (TaskRow (Some row)), db'))
  /\ (in_int4 id = true ->
      (exists t, In t (tasks db) /\ Task.id t = id /\ Task.user_id t = uid) ->
      call_trim (TaskBody.title b) <> None ->
      optional_trim (TaskBody.description b) <> None ->
      sql_int (int4in ext) (TaskBody.priority b) <> None ->
      exists payload db',
        put_task ext now uid id b db = (Respond 200 payload, db'))
  /\ (in_int4 taskId = true ->
      (exists task leader rest,
          task_with_leader taskId uid db = (task, leader) :: rest
          /\ (leader = uid \/ FamilyTask.assigned_to task = Some uid)) ->
      sql_int (int4in ext) (FamilyTaskBody.priority fb) <> None ->
      sql_int (int4in ext) (FamilyTaskBody.assigned_to fb) <> None ->
      exists payload db',
        put_family_task ext now uid taskId fb db = (Respond 200 payload, db')).
Proof.
  intros Hv Hid HtaskId.
  pose proof (post_task_cases ext now uid b db Hv) as Hpost.
  pose proof (put_task_cases ext now uid id b db Hid Hv) as Hput.
  pose proof (put_family_task_cases ext now uid taskId fb db HtaskId) as Hfam.
  repeat apply conj.
  - (* create *)
    intros row db' E.
    destruct Hpost as [(title & d & p & _ & _ & _ & E')|(e & E')];
      rewrite E' in E; [|discriminate].
    injection E as <- <-. split; [reflexivity|]. split; [reflexivity|].
    split; [|split].
    + apply completion_from_test, defaulted_status_completed.
    + intros Hs. simpl. now rewrite (completed_literal _ Hs).
    + intros Hs. simpl. now rewrite (other_literal _ Hs).
  - (* personal update *)
    intros payload db' E.
    destruct (in_int4 id) eqn:Hr;
      [|rewrite (put_task_out_of_range _ _ _ _ _ _ Hid Hv Hr) in E;
        discriminate].
    destruct (Hput eq_refl)
      as [[_ E']|[(e & E')|(title & d & p & pl & Hne & _ & _ & _ & E')]];
      rewrite E' in E; try discriminate.
    injection E as _ <-. simpl. split.
    + destruct (filter _ (tasks db)) as [|t0 rest] eqn:Ef; [congruence|].
      apply filter_head_In in Ef. destruct Ef as [Hin Hhit].
      exists (updated_task now uid id b title d p t0).
      split; [now apply in_map|].
      unfold updated_task. rewrite Hhit. simpl.
      apply andb_true_iff in Hhit. destruct Hhit as [H1 H2].
      apply Z.eqb_eq in H1, H2. auto.
    + intros t Hin Hi Hu. apply in_map_iff in Hin.
      destruct Hin as (t0 & <- & _). unfold updated_task in *.
      destruct ((Task.id t0 =? id) && (Task.user_id t0 =? uid)) eqn:Hhit.
      * simpl. split; [reflexivity|]. split; [|split].
        -- apply completion_from_test, sql_text_completed.
        -- intros Hs. now rewrite (completed_literal _ Hs).
        -- intros Hs. now rewrite (other_literal _ Hs).
      * rewrite Hi, Hu, !Z.eqb_refl in Hhit. discriminate.
  - (* family update *)
    intros payload db' E.
    destruct (in_int4 taskId) eqn:Hr;
      [|rewrite (put_family_task_out_of_range _ _ _ _ _ _ HtaskId Hr) in E;
        discriminate].
    destruct (Hfam eq_refl)
      as [[_ E']|[(t0 & l & r & _ & _ & _ & E')
                 |(t0 & l & r & Hrow & _ & [[E' _]|(p & a & pl & _ & _ & E')])]];
      rewrite E' in E; try discriminate.
    injection E as _ <-. simpl. split.
    + assert (Hin : In (t0, l) (task_with_leader taskId uid db))
        by (rewrite Hrow; now left).
      unfold task_with_leader in Hin. apply in_flat_map in Hin.
      destruct Hin as (ft & Hft & Hin). apply filter_In in Hft.
      destruct Hft as [Hft Hidft]. apply Z.eqb_eq in Hidft.
      exists (updated_family_task now taskId fb p a ft).
      split; [now apply in_map|].
      unfold updated_family_task. rewrite Hidft, Z.eqb_refl. reflexivity.
    + intros t Hin Hi. apply in_map_iff in Hin.
      destruct Hin as (ft & <- & _). unfold updated_family_task in *.
      destruct (FamilyTask.id ft =? taskId) eqn:Hhit.
      * simpl. split; [reflexivity|]. split; [|split].
        -- apply completion_from_test, sql_text_completed.
        -- intros Hs. now rewrite (completed_literal _ Hs).
        -- intros Hs. now rewrite (other_literal _ Hs).
      * rewrite Hi, Z.eqb_refl in Hhit. discriminate.
  - (* create succeeds *)
    intros Ht Hd Hp.
    destruct Hpost as [(title & d & p & _ & _ & _ & E')|(e & E')]; [eauto|].
    exfalso. unfold post_task in E'. rewrite Hv in E'.
    destruct (call_trim (TaskBody.title b)); [|congruence].
    destruct (optional_trim (TaskBody.description b)); [|congruence].
    destruct (sql_int (int4in ext) (js_or (TaskBody.priority b) (VNum 1)));
      [discriminate|congruence].
  - (* personal update succeeds *)
    intros Hr (t & Hin & Hi & Hu) Ht Hd Hp.
    destruct (Hput Hr)
      as [[Hnil _]|[(e & E')|(title & d & p & pl & _ & _ & _ & _ & E')]];
      [| |eauto].
    + exfalso.
      assert (Hf : In t (filter (fun t => (Task.id t =? id)
                                          && (Task.user_id t =? uid))
                                (tasks db))).
      { apply filter_In. split; [assumption|].
        rewrite Hi, Hu, !Z.eqb_refl. reflexivity. }
      rewrite Hnil in Hf. destruct Hf.
    + exfalso. unfold put_task in E'. rewrite Hid, Hv, Hr in E'.
      cbn [negb] in E'.
      destruct (filter _ (tasks db)); [discriminate|].
      destruct (call_trim (TaskBody.title b)); [|congruence].
      destruct (optional_trim (TaskBody.description b)); [|congruence].
      destruct (sql_int (int4in ext) (TaskBody.priority b));
        [discriminate|congruence].
  - (* family update succeeds *)
    intros Hr (task & leader & rest & Hrow & Hmay) Hp Ha.
    destruct (Hfam Hr)
      as [[Hnil _]|[(t0 & l & r & Hrow' & Hl & Has & _)
                   |(t0 & l & r & _ & _ & [[_ Hbad]|(p & a & pl & _ & _ & E')])]].
    + congruence.
    + rewrite Hrow in Hrow'. injection Hrow' as <- <- _.
      destruct Hmay; contradiction.
    + destruct Hbad; contradiction.
    + eauto.
Qed.

Lemma completed_at_tracks_status_witness :
  (exists row db',
      post_task demo_ext 5000 1 complete_task home_db
      = (Respond 201 (TaskRow (Some row)), db')
      /\ Task.status row = Some "completed"
      /\ Task.completed_at row = Some 5000)
  /\ (exists payload db' t,
      put_task demo_ext 5000 1 1 complete_task home_db
      = (Respond 200 payload, db')
      /\ In t (tasks db') /\ Task.id t = 1
      /\ Task.status t = Some "completed"
      /\ Task.completed_at t = Some 5000)
  /\ (exists payload db' t,
      put_family_task demo_ext 5000 2 1 complete_family_task home_db
      = (Respond 200 payload, db')
      /\ In t (family_tasks db') /\ FamilyTask.id t = 1
      /\ FamilyTask.status t = Some "completed"
      /\ FamilyTask.completed_at t = Some 5000).
Proof.
  destruct (completed_at_tracks_status
              demo_ext 5000 1 1 1 complete_task complete_family_task home_db
              eq_refl eq_refl eq_refl)
    as (_ & _ & _ & T1 & _ & _).
  destruct (completed_at_tracks_status
              demo_ext 5000 1 1 1 complete_task complete_family_task home_db
              eq_refl eq_refl eq_refl)
    as (C1 & C2 & _ & _ & T2 & _).
  destruct (completed_at_tracks_status
              demo_ext 5000 2 1 1 complete_task complete_family_task home_db
              eq_refl eq_refl eq_refl)
    as (_ & _ & C3 & _ & _ & T3).
  split; [|split].
  - destruct T1 as (row & db' & E); try discriminate.
    destruct (C1 row db' E) as (_ & Hs & _ & Hc & _).
    exists row, db'. split; [exact E|]. split; [exact Hs|now apply Hc].
  - destruct T2 as (payload & db' & E); try discriminate.
    { reflexivity. }
    { eexists. split; [left; reflexivity|]. split; reflexivity. }
    destruct (C2 payload db' E) as ((t & Hin & Hi & Hu) & Hall).
    destruct (Hall t Hin Hi Hu) as (Hs & _ & Hc & _).
    exists payload, db', t. repeat split; auto.
  - destruct T3 as (payload & db' & E); try discriminate.
    { reflexivity. }
    { do 3 eexists. split; [reflexivity|]. right. reflexivity. }
    destruct (C3 payload db' E) as ((t & Hin & Hi) & Hall).
    destruct (Hall t Hin Hi) as (Hs & _ & Hc & _).
    exists payload, db', t. repeat split; auto.
Defined.

(** ** Archiving *)

(** The cut-off date of POST /archive is the bucket of the current week
    moved back by seven days: the bucket of the previous week. *)
Lemma archive_cutoff_previous_week ext now :
  archive_cutoff ext now = iso_date (getCurrentWeekStart ext now) - 7.
Proof.
  unfold archive_cutoff, iso_date.
  replace (getCurrentWeekStart ext now - 7 * 24 * 60 * 60 * 1000)
    with (getCurrentWeekStart ext now + (-7) * ms_per_day)
    by (unfold ms_per_day; lia).
  rewrite Z.div_add by (unfold ms_per_day; lia). lia.
Qed.

Lemma archive_step_settled ext now uid t :
  archivable uid (archive_cutoff ext now) (archive_step ext now uid t) = false.
Proof.
  unfold archive_step.
  destruct (archivable uid (archive_cutoff ext now) t) eqn:E;
    [|exact E].
  unfold archivable, archive_row. simpl. apply andb_false_r.
Qed.

Lemma archive_step_count ext now uid l :
  Z.of_nat (List.length (filter Task.archived (map (archive_step ext now uid) l)))
  = Z.of_nat (List.length (filter Task.archived l))
    + Z.of_nat (List.length (filter (archivable uid (archive_cutoff ext now)) l)).
Proof.
  induction l as [|t l IH]; [reflexivity|].
  cbn [map filter]. unfold archive_step at 1.
  destruct (archivable uid (archive_cutoff ext now) t) eqn:E.
  - assert (Ha : Task.archived t = false).
    { unfold archivable in E. apply andb_true_iff in E.
      destruct E as [_ E]. now apply negb_true_iff in E. }
    rewrite Ha. cbn [archive_row Task.archived List.length].
    rewrite !Nat2Z.inj_succ, IH. lia.
  - destruct (Task.archived t); cbn [List.length];
      rewrite ?Nat2Z.inj_succ, IH; lia.
Qed.

(** ** The family transactions, statement by statement *)

Lemma create_family_run uid name code db :
  withTransaction (create_family_tx uid name code) db =
  match filter (fun m => Member.user_id m =? uid) (family_members db) with
  | _ :: _ => (inl (Error "You are already a member of a family"), db)
  | [] =>
      match call_trim name with
      | None => (inl TypeError, db)
      | Some trimmed =>
          if existsb (fun f => String.eqb (Family.invitation_code f) code)
                     (families db)
          then (inl DatabaseError, db)
          else
            let row := Family.mk (families_id_seq db) trimmed uid code in
            (inr row,
             set_family_members
               (family_members db
                ++ [Member.mk (family_members_id_seq db) (Family.id row) uid])
               (family_members_id_seq db + 1)
               (set_families (families db ++ [row]) (families_id_seq db + 1) db))
      end
  end.
Proof.
  unfold withTransaction, create_family_tx, tx_bind, select_memberships.
  destruct (filter _ (family_members db)); [|reflexivity].
  destruct (call_trim name); [|reflexivity].
  unfold insert_family, tx_bind.
  destruct (existsb _ (families db)); reflexivity.
Qed.

Lemma join_family_run ext uid code db :
  withTransaction (join_family_tx ext uid code) db =
  match filter (fun m => Member.user_id m =? uid) (family_members db) with
  | _ :: _ => (inl (Error "You are already a member of a family"), db)
  | [] =>
      match filter (fun f => String.eqb (Family.invitation_code f)
                                        (toUpperCase ext (trim code)))
                   (families db) with
      | [] => (inl (Error "Invalid invitation code"), db)
      | family :: _ =>
          (inr family,
           set_family_members
             (family_members db
              ++ [Member.mk (family_members_id_seq db) (Family.id family) uid])
             (family_members_id_seq db + 1) db)
      end
  end.
Proof.
  unfold withTransaction, join_family_tx, tx_bind, select_memberships,
    select_families_by_code.
  destruct (filter _ (family_members db)); [|reflexivity].
  destruct (filter _ (families db)); reflexivity.
Qed.

(** Whatever a transaction callback does, a thrown error leaves the store as
    it was before the transaction began. *)
Lemma withTransaction_rollback {A} (callback : Tx A) db e db' :
  withTransaction callback db = (inl e, db') -> db' = db.
Proof.
  unfold withTransaction. destruct (callback db) as [[e'|a] d]; intros H.
  - now injection H as _ <-.
  - discriminate.
Qed.

Lemma handle_tasks_step ext r db : tasks_step db (snd (handle ext r db)).
Proof.
  destruct r; cbn [handle].
  - unfold post_register. split_matches; now apply tasks_same.
  - unfold post_login. split_matches; now apply tasks_same.
  - unfold post_forgot_password. split_matches; now apply tasks_same.
  - now apply tasks_same.
  - unfold post_task. split_matches; try now apply tasks_same.
    all: eapply tasks_inserted; reflexivity.
  - unfold put_task. split_matches; try now apply tasks_same.
    all: eapply tasks_rewritten; [reflexivity|reflexivity|].
    all: intros row; cbv beta; destruct (_ && _); simpl; auto.
  - unfold delete_task. split_matches; try now apply tasks_same.
    all: eapply tasks_deleted; reflexivity.
  - eapply tasks_rewritten; [reflexivity|reflexivity|].
    intros row. cbv beta. destruct (archivable _ _ row); simpl; auto.
  - unfold get_family_info. split_matches; now apply tasks_same.
  - unfold post_family_create.
    destruct (validateFamily ext name); [now apply tasks_same|].
    rewrite create_family_run.
    destruct (filter _ (family_members db)); [|now apply tasks_same].
    destruct (call_trim name); [|now apply tasks_same].
    destruct (existsb _ (families db)); now apply tasks_same.
  - unfold post_family_join.
    destruct (negb (truthy invitationCode)); [now apply tasks_same|].
    destruct invitationCode as [| | | |code]; try now apply tasks_same.
    destruct (String.length (trim code) =? 0)%nat; [now apply tasks_same|].
    rewrite join_family_run.
    destruct (filter _ (family_members db)); [|now apply tasks_same].
    destruct (filter _ (families db)); now apply tasks_same.
  - now apply tasks_same.
  - now apply tasks_same.
  - unfold post_family_task. split_matches; now apply tasks_same.
  - unfold put_family_task. split_matches; now apply tasks_same.
  - unfold delete_family_task. split_matches; now apply tasks_same.
  - now apply tasks_same.
  - now apply tasks_same.
Qed.

Lemma NoDup_map_filter {A B} (g : A -> B) (keep : A -> bool) (l : list A) :
  NoDup (map g l) -> NoDup (map g (filter keep l)).
Proof.
  induction l as [|x l IH]; simpl; intros H; [constructor|].
  inversion H as [|? ? Hx Hl]; subst.
  destruct (keep x); simpl; [|now apply IH].
  constructor; [|now apply IH].
  intros Hin. apply Hx. apply in_map_iff in Hin.
  destruct Hin as (y & Hy & Hyin). apply filter_In in Hyin.
  apply in_map_iff. exists y. tauto.
Qed.

Lemma tasks_keyed_step db db' :
  tasks_step db db' -> tasks_keyed db -> tasks_keyed db'.
Proof.
  intros Hstep [Hnd Hlt]. unfold tasks_keyed.
  destruct Hstep as [Ht Hs|row Ht Hrow Hs|f Ht Hs Hf|keep Ht Hs];
    rewrite Ht, Hs.
  - auto.
  - split.
    + rewrite map_app. simpl. apply NoDup_app; auto.
      * repeat constructor. intros [].
      * intros i Hi [<-|[]]. apply in_map_iff in Hi.
        destruct Hi as (t & Heq & Hin).
        rewrite Forall_forall in Hlt. specialize (Hlt t Hin). lia.
    + apply Forall_app. split.
      * eapply Forall_impl; [|exact Hlt]. intros t Hlt'. simpl in Hlt'. lia.
      * repeat constructor. lia.
  - split.
    + rewrite map_map.
      rewrite (map_ext (fun t => Task.id (f t)) Task.id); [assumption|].
      intros t. apply Hf.
    + rewrite Forall_forall in *. intros t' Hin.
      apply in_map_iff in Hin. destruct Hin as (t & <- & Hin).
      destruct (Hf t) as [-> _]. auto.
  - split.
    + now apply NoDup_map_filter.
    + rewrite Forall_forall in *. intros t Hin. apply filter_In in Hin.
      apply Hlt, Hin.
Qed.

(** Every store reachable from the empty one respects the key. *)
Lemma tasks_keyed_reachable ext rs : tasks_keyed (serve ext rs empty_db).
Proof.
  assert (H : forall db, tasks_keyed db -> tasks_keyed (serve ext rs db)).
  { induction rs as [|r rs IH]; intros db Hk; simpl; [assumption|].
    apply IH. eapply tasks_keyed_step; [apply handle_tasks_step|assumption]. }
  apply H. split; constructor.
Qed.

Lemma archived_stays_step i db db' :
  tasks_step db db' ->
  i < tasks_id_seq db ->
  (forall t, In t (tasks db) -> Task.id t = i -> Task.archived t = true) ->
  i < tasks_id_seq db'
  /\ (forall t, In t (tasks db') -> Task.id t = i -> Task.archived t = true).
Proof.
  intros Hstep Hi Hall.
  destruct Hstep as [Ht Hs|row Ht Hrow Hs|f Ht Hs Hf|keep Ht Hs];
    rewrite Ht, Hs; (split; [lia|]).
  - assumption.
  - intros t Hin Hid. apply in_app_or in Hin. destruct Hin as [Hin|[<-|[]]].
    + now apply Hall.
    + lia.
  - intros t' Hin Hid. apply in_map_iff in Hin.
    destruct Hin as (t & <- & Hin). destruct (Hf t) as [Hsame Hkeep].
    apply Hkeep, Hall; [assumption|congruence].
  - intros t Hin Hid. apply filter_In in Hin. now apply Hall.
Qed.

Lemma archived_stays_serve ext rs :
  forall db i,
    i < tasks_id_seq db ->
    (forall t, In t (tasks db) -> Task.id t = i -> Task.archived t = true) ->
    forall t, In t (tasks (serve ext rs db)) -> Task.id t = i ->
              Task.archived t = true.
Proof.
  induction rs as [|r rs IH]; intros db i Hi Hall; simpl; [assumption|].
  destruct (archived_stays_step i db (snd (handle ext r db))
              (handle_tasks_step ext r db) Hi Hall) as [Hi' Hall'].
  now apply IH.
Qed.

Lemma NoDup_map_inj {A B} (g : A -> B) (l : list A) x y :
  NoDup (map g l) -> In x l -> In y l -> g x = g y -> x = y.
Proof.
  induction l as [|z l IH]; simpl; intros Hnd Hx Hy Hg; [destruct Hx|].
  inversion Hnd as [|? ? Hz Hl]; subst.
  destruct Hx as [->|Hx], Hy as [->|Hy]; auto.
  - exfalso. apply Hz. rewrite Hg. now apply in_map.
  - exfalso. apply Hz. rewrite <- Hg. now apply in_map.
Qed.

Lemma archive_step_twice ext now uid t :
  archive_step ext now uid (archive_step ext now uid t)
  = archive_step ext now uid t.
Proof.
  unfold archive_step at 1. now rewrite archive_step_settled.
Qed.

(** C5.  POST /api/tasks/archive, on a tasks table that respects its key:
    - rewrites exactly the requester's non-archived rows whose week bucket
      lies strictly before the previous week's bucket (the current bucket
      minus seven days), marking them archived and stamping [archived_at]
      with the time of the request; every other row is left as it was;
    - reports as [archived_count] the number of rows that became archived;
    - run again at once on the resulting store, reports 0 and changes
      nothing;
    and whatever requests are served afterwards, a row that is archived is
    still archived for as long as it exists. *)
Theorem archive_old_weeks (ext : Externals) (now uid : Z) (db : DB) :
  tasks_keyed db ->
  let bucket := iso_date (getCurrentWeekStart ext now) in
  let db' := snd (post_archive ext now uid db) in
  Forall2
    (fun t t' =>
       if (Task.user_id t =? uid) && negb (Task.archived t)
          && (Task.week_start t <? bucket - 7)
       then t' = archive_row now t /\ Task.archived t' = true
            /\ Task.archived_at t' = Some now
       else t' = t)
    (tasks db) (tasks db')
  /\ fst (post_archive ext now uid db)
     = Respond 200 (ArchiveBody "Tasks archived successfully"
                                (archived_total db' - archived_total db))
  /\ post_archive ext now uid db'
     = (Respond 200 (ArchiveBody "Tasks archived successfully" 0), db')
  /\ (forall rs t t',
        In t (tasks db) -> Task.archived t = true ->
        In t' (tasks (serve ext rs db)) -> Task.id t' = Task.id t ->
        Task.archived t' = true).
Proof.
  intros [Hnd Hlt] bucket db'.
  assert (Hdb' : db' = set_tasks (map (archive_step ext now uid) (tasks db))
                                 (tasks_id_seq db) db) by reflexivity.
  repeat apply conj.
  - rewrite Hdb'. cbn [tasks set_tasks]. clear.
    induction (tasks db) as [|t l IH]; [constructor|].
    cbn [map]. constructor; [|exact IH].
    unfold archive_step, archivable.
    rewrite archive_cutoff_previous_week. fold bucket.
    destruct (Task.user_id t =? uid), (Task.archived t),
      (Task.week_start t <? bucket - 7); simpl; auto.
  - unfold post_archive. cbn [fst]. do 2 f_equal.
    unfold archived_total. rewrite Hdb'. cbn [tasks set_tasks].
    rewrite archive_step_count. lia.
  - unfold post_archive. rewrite Hdb'. cbn [tasks set_tasks tasks_id_seq].
    f_equal.
    + do 3 f_equal.
      rewrite filter_none; [reflexivity|].
      intros t Hin. apply in_map_iff in Hin. destruct Hin as (t0 & <- & _).
      apply archive_step_settled.
    + unfold set_tasks. cbn. f_equal.
      rewrite map_map. apply map_ext. intros t.
      apply archive_step_twice.
  - intros rs t t' Hin Harch Hin' Hid.
    apply (archived_stays_serve ext rs db (Task.id t)); auto.
    + rewrite Forall_forall in Hlt. now apply Hlt.
    + intros t2 Hin2 Hid2.
      now rewrite (NoDup_map_inj Task.id (tasks db) t2 t Hnd Hin2 Hin Hid2).
Qed.

Lemma home_db_keyed : tasks_keyed home_db.
Proof.
  split.
  - repeat constructor. intros [].
  - repeat constructor.
Qed.

Lemma archive_old_weeks_witness :
  fst (post_archive demo_ext (20020 * ms_per_day) 1 home_db)
  = Respond 200 (ArchiveBody "Tasks archived successfully" 1)
  /\ fst (post_archive demo_ext (20020 * ms_per_day) 1
            (snd (post_archive demo_ext (20020 * ms_per_day) 1 home_db)))
     = Respond 200 (ArchiveBody "Tasks archived successfully" 0)
  /\ Forall (fun t => Task.archived t = true)
            (tasks (snd (post_archive demo_ext (20020 * ms_per_day) 1 home_db))).
Proof.
  destruct (archive_old_weeks demo_ext (20020 * ms_per_day) 1 home_db
                              home_db_keyed) as (_ & H2 & H3 & _).
  split; [|split].
  - rewrite H2. reflexivity.
  - rewrite H3. reflexivity.
  - repeat constructor.
Defined.

(** ** Family membership *)

Lemma post_family_create_members ext uid name code db :
  members_step db (snd (post_family_create ext uid name code db)).
Proof.
  unfold post_family_create.
  destruct (validateFamily ext name); [now apply members_same|].
  rewrite create_family_run.
  destruct (filter _ (family_members db)) eqn:E; [|now apply members_same].
  destruct (call_trim name); [|now apply members_same].
  destruct (existsb _ (families db)); [now apply members_same|].
  eapply members_joined; [reflexivity|exact E].
Qed.

Lemma post_family_join_members ext uid code db :
  members_step db (snd (post_family_join ext uid code db)).
Proof.
  unfold post_family_join.
  destruct (negb (truthy code)); [now apply members_same|].
  destruct code as [| | | |s]; try now apply members_same.
  destruct (String.length (trim s) =? 0)%nat; [now apply members_same|].
  rewrite join_family_run.
  destruct (filter _ (family_members db)) eqn:E; [|now apply members_same].
  destruct (filter _ (families db)); [now apply members_same|].
  eapply members_joined; [reflexivity|exact E].
Qed.

Lemma handle_members_step ext r db : members_step db (snd (handle ext r db)).
Proof.
  destruct r; cbn [handle];
    try apply post_family_create_members;
    try apply post_family_join_members.
  - unfold post_register. split_matches; now apply members_same.
  - unfold post_login. split_matches; now apply members_same.
  - unfold post_forgot_password. split_matches; now apply members_same.
  - now apply members_same.
  - unfold post_task. split_matches; now apply members_same.
  - unfold put_task. split_matches; now apply members_same.
  - unfold delete_task. split_matches; now apply members_same.
  - now apply members_same.
  - unfold get_family_info. split_matches; now apply members_same.
  - now apply members_same.
  - now apply members_same.
  - unfold post_family_task. split_matches; now apply members_same.
  - unfold put_family_task. split_matches; now apply members_same.
  - unfold delete_family_task. split_matches; now apply members_same.
  - now apply members_same.
  - now apply members_same.
Qed.

Lemma at_most_one_family_step db db' :
  members_step db db' -> at_most_one_family db -> at_most_one_family db'.
Proof.
  intros [Hsame|m Happ Hnone] Hinv uid; unfold memberships.
  - rewrite Hsame. apply Hinv.
  - rewrite Happ, filter_app, length_app. simpl.
    destruct (Z.eqb_spec (Member.user_id m) uid) as [<-|Hne]; simpl.
    + unfold memberships in Hnone. rewrite Hnone. simpl. lia.
    + specialize (Hinv uid). unfold memberships in Hinv. lia.
Qed.

Lemma at_most_one_family_serve ext rs :
  forall db, at_most_one_family db -> at_most_one_family (serve ext rs db).
Proof.
  induction rs as [|r rs IH]; intros db Hinv; simpl; [assumption|].
  apply IH. eapply at_most_one_family_step; [|exact Hinv].
  apply handle_members_step.
Qed.

(** Every store reachable from the empty one has at most one membership
    per user. *)
Lemma at_most_one_family_reachable ext rs :
  at_most_one_family (serve ext rs empty_db).
Proof.
  apply at_most_one_family_serve. intros uid. simpl. lia.
Qed.

Lemma nonblank_code s :
  trim s <> "" ->
  truthy (VStr s) = true /\ (String.length (trim s) =? 0)%nat = false.
Proof.
  intros H. split.
  - destruct s; [now elim H|reflexivity].
  - destruct (trim s); [now elim H|reflexivity].
Qed.

(** C1.  POST /api/family/create and POST /api/family/join run their check
    and their writes in one transaction.  For a request that passes
    validation (a join code that is not blank):
    - when the requester already has a membership row, both fail with the
      error "You are already a member of a family" and the store is left
      exactly as it was: no family row and no membership row is written;
    - whatever error either of them throws, the store is unchanged; a
      successful create adds the family row and the creator's membership
      row together;
    - if no user has more than one membership before, none has after
      create, after join, and after any sequence of requests. *)
Theorem one_family_per_user (ext : Externals) (uid : Z) (name : value)
        (invitationCode joinCode : string) (db : DB) :
  validateFamily ext name = None ->
  trim joinCode <> "" ->
  at_most_one_family db ->
  ((exists m, In m (family_members db) /\ Member.user_id m = uid) ->
   post_family_create ext uid name invitationCode db
   = (Threw (Error "You are already a member of a family"), db)
   /\ post_family_join ext uid (VStr joinCode) db
      = (Threw (Error "You are already a member of a family"), db))
  /\ (forall e db',
        post_family_create ext uid name invitationCode db = (Threw e, db') ->
        db' = db)
  /\ (forall e db',
        post_family_join ext uid (VStr joinCode) db = (Threw e, db') -> db' = db)
  /\ (forall payload db',
        post_family_create ext uid name invitationCode db
        = (Respond 201 payload, db') ->
        memberships uid db = []
        /\ exists f m,
            families db' = (families db ++ [f])%list
            /\ family_members db' = (family_members db ++ [m])%list
            /\ Family.created_by f = uid
            /\ Member.family_id m = Family.id f
            /\ Member.user_id m = uid)
  /\ at_most_one_family (snd (post_family_create ext uid name invitationCode db))
  /\ at_most_one_family (snd (post_family_join ext uid (VStr joinCode) db))
  /\ (forall rs, at_most_one_family (serve ext rs db)).
Proof.
  intros Hv Hcode Hinv.
  destruct (nonblank_code joinCode Hcode) as [Htruthy Hlen].
  assert (Hjoin : post_family_join ext uid (VStr joinCode) db
                  = match withTransaction (join_family_tx ext uid joinCode) db with
                    | (inl e, db') => (Threw e, db')
                    | (inr result, db') =>
                        (Respond 200 (FamilyJoined "Successfully joined family"
                                                   (Family.id result)
                                                   (Family.name result)), db')
                    end).
  { unfold post_family_join. rewrite Htruthy, Hlen. reflexivity. }
  assert (Hcreate : post_family_create ext uid name invitationCode db
                    = match withTransaction
                              (create_family_tx uid name invitationCode) db with
                      | (inl e, db') => (Threw e, db')
                      | (inr result, db') =>
                          (Respond 201
                             (FamilyCreated "Family created successfully"
                                            (Family.id result)
                                            (Family.name result)
                                            (Family.invitation_code result)),
                           db')
                      end).
  { unfold post_family_create. rewrite Hv. reflexivity. }
  repeat apply conj.
  - intros (m & Hin & Hm).
    assert (Hsome : exists y rest,
               filter (fun m => Member.user_id m =? uid) (family_members db)
               = y :: rest).
    { apply (filter_some _ _ m Hin). now apply Z.eqb_eq. }
    destruct Hsome as (y & rest & E).
    rewrite Hcreate, Hjoin, create_family_run, join_family_run, E. auto.
  - intros e db' H. rewrite Hcreate in H.
    destruct (withTransaction (create_family_tx uid name invitationCode) db)
      as [[e'|f] d] eqn:E; [|discriminate].
    injection H as _ <-. eapply withTransaction_rollback; exact E.
  - intros e db' H. rewrite Hjoin in H.
    destruct (withTransaction (join_family_tx ext uid joinCode) db)
      as [[e'|f] d] eqn:E; [|discriminate].
    injection H as _ <-. eapply withTransaction_rollback; exact E.
  - intros payload db' H. rewrite Hcreate, create_family_run in H.
    unfold memberships.
    destruct (filter _ (family_members db)); [|discriminate].
    destruct (call_trim name); [|discriminate].
    destruct (existsb _ (families db)); [discriminate|].
    injection H as _ <-. split; [reflexivity|].
    do 2 eexists. repeat split; reflexivity.
  - eapply at_most_one_family_step; [|exact Hinv].
    apply post_family_create_members.
  - eapply at_most_one_family_step; [|exact Hinv].
    apply post_family_join_members.
  - intros rs. now apply at_most_one_family_serve.
Qed.

Lemma home_db_one_family : at_most_one_family home_db.
Proof.
  intros uid. unfold memberships, home_db.
  cbn [family_members filter Member.user_id].
  destruct (Z.eqb_spec 1 uid), (Z.eqb_spec 2 uid); cbn [List.length]; lia.
Qed.

Lemma one_family_per_user_witness :
  post_family_create demo_ext 2 (VStr "Second home") "XYZ789" home_db
  = (Threw (Error "You are already a member of a family"), home_db)
  /\ post_family_join demo_ext 2 (VStr " abc123 ") home_db
     = (Threw (Error "You are already a member of a family"), home_db)
  /\ at_most_one_family
       (snd (post_family_join demo_ext 3 (VStr " abc123 ") home_db)).
Proof.
  destruct (one_family_per_user demo_ext 2 (VStr "Second home") "XYZ789"
                                " abc123 " home_db eq_refl)
    as (Hconflict & _);
    [vm_compute; discriminate | exact home_db_one_family |].
  destruct (one_family_per_user demo_ext 3 (VStr "Second home") "XYZ789"
                                " abc123 " home_db eq_refl)
    as (_ & _ & _ & _ & _ & Hjoin & _);
    [vm_compute; discriminate | exact home_db_one_family |].
  destruct Hconflict as [H1 H2].
  { exists (Member.mk 2 1 2). split; [right; now left | reflexivity]. }
  auto.
Defined.

(** ** Joining by invitation code *)

(** C9.  POST /api/family/join, whatever [toUpperCase] is:
    - a blank invitation code (falsy, or a string that [trim] empties) is
      answered 400 "Invitation code is required", the store untouched;
    - for a requester without a membership row and a code that is not
      blank: when no family carries the trimmed, upper-cased code the
      request fails with the error "Invalid invitation code" and writes
      nothing; when the code equals, up to letter case and surrounding
      white space, the (upper-case) invitation code of a family, the request
      is answered 200 with that family and the store gains exactly one
      membership row, linking the requester to the family (invitation codes
      being unique, the family is the one named);
    - a requester who has a membership row gets, for every code that is not
      blank, the error "You are already a member of a family", and nothing
      is written. *)
Theorem join_by_invitation_code (ext : Externals) (uid : Z) (code : value)
        (db : DB) :
  (blank_code code ->
   post_family_join ext uid code db
   = (Respond 400 (ErrorBody "Invitation code is required"), db))
  /\ (forall s,
        code = VStr s -> trim s <> "" -> memberships uid db = [] ->
        ((forall f, In f (families db) ->
                    Family.invitation_code f <> toUpperCase ext (trim s)) ->
         post_family_join ext uid code db
         = (Threw (Error "Invalid invitation code"), db))
        /\ (forall f,
              In f (families db) ->
              toUpperCase ext (Family.invitation_code f)
              = Family.invitation_code f ->
              same_ignoring_case ext (trim s) (Family.invitation_code f) ->
              exists f',
                In f' (families db)
                /\ Family.invitation_code f' = Family.invitation_code f
                /\ (NoDup (map Family.invitation_code (families db)) -> f' = f)
                /\ post_family_join ext uid code db
                   = (Respond 200 (FamilyJoined "Successfully joined family"
                                                (Family.id f') (Family.name f')),
                      joined uid f' db)
                /\ family_members (joined uid f' db)
                   = (family_members db
                      ++ [Member.mk (family_members_id_seq db) (Family.id f') uid])%list))
  /\ (forall s,
        code = VStr s -> trim s <> "" -> memberships uid db <> [] ->
        post_family_join ext uid code db
        = (Threw (Error "You are already a member of a family"), db)).
Proof.
  split; [|split].
  - intros [Hfalsy|(s & -> & Hblank)]; unfold post_family_join.
    + now rewrite Hfalsy.
    + destruct (truthy (VStr s)); [|reflexivity]. simpl.
      now rewrite Hblank.
  - intros s -> Hcode Hnone.
    destruct (nonblank_code s Hcode) as [Htruthy Hlen].
    assert (Hjoin : post_family_join ext uid (VStr s) db
                    = match withTransaction (join_family_tx ext uid s) db with
                      | (inl e, db') => (Threw e, db')
                      | (inr result, db') =>
                          (Respond 200
                             (FamilyJoined "Successfully joined family"
                                           (Family.id result)
                                           (Family.name result)), db')
                      end).
    { unfold post_family_join. rewrite Htruthy, Hlen. reflexivity. }
    unfold memberships in Hnone.
    rewrite Hjoin, join_family_run, Hnone. split.
    + intros Hnomatch. rewrite filter_none; [reflexivity|].
      intros f Hin. apply String.eqb_neq. now apply Hnomatch.
    + intros f Hin Hcanon Hsame.
      assert (Hmatch : String.eqb (Family.invitation_code f)
                                  (toUpperCase ext (trim s)) = true).
      { apply String.eqb_eq. unfold same_ignoring_case in Hsame. congruence. }
      destruct (filter_some
                  (fun f => String.eqb (Family.invitation_code f)
                                       (toUpperCase ext (trim s)))
                  _ f Hin Hmatch) as (f' & rest & E).
      rewrite E. apply filter_head_In in E. destruct E as [Hin' Hcode'].
      apply String.eqb_eq in Hcode', Hmatch.
      exists f'. repeat split; try assumption; try congruence.
      intros Hnd. apply (NoDup_map_inj Family.invitation_code (families db));
        auto; congruence.
  - intros s -> Hcode Hmember.
    destruct (nonblank_code s Hcode) as [Htruthy Hlen].
    unfold post_family_join. rewrite Htruthy, Hlen. cbn [negb].
    rewrite join_family_run. unfold memberships in Hmember.
    destruct (filter _ (family_members db)); [now elim Hmember|reflexivity].
Qed.

Lemma join_by_invitation_code_witness :
  post_family_join demo_ext 3 (VStr "   ") home_db
  = (Respond 400 (ErrorBody "Invitation code is required"), home_db)
  /\ post_family_join demo_ext 3 (VStr "nosuch1") home_db
     = (Threw (Error "Invalid invitation code"), home_db)
  /\ (exists f',
      post_family_join demo_ext 3 (VStr " aBc123 ") home_db
      = (Respond 200 (FamilyJoined "Successfully joined family"
                                   (Family.id f') (Family.name f')),
         joined 3 f' home_db)
      /\ f' = Family.mk 1 "Home" 1 "ABC123")
  /\ post_family_join demo_ext 2 (VStr "nosuch1") home_db
     = (Threw (Error "You are already a member of a family"), home_db).
Proof.
  split; [|split; [|split]].
  - apply (join_by_invitation_code demo_ext 3 (VStr "   ") home_db).
    right. exists "   ". split; reflexivity.
  - destruct (join_by_invitation_code demo_ext 3 (VStr "nosuch1") home_db)
      as (_ & H & _).
    destruct (H "nosuch1" eq_refl) as (Hnot & _);
      [vm_compute; discriminate | reflexivity |].
    apply Hnot. intros f [<-|[]]. vm_compute. discriminate.
  - destruct (join_by_invitation_code demo_ext 3 (VStr " aBc123 ") home_db)
      as (_ & H & _).
    destruct (H " aBc123 " eq_refl) as (_ & Hok);
      [vm_compute; discriminate | reflexivity |].
    destruct (Hok (Family.mk 1 "Home" 1 "ABC123"))
      as (f' & _ & _ & Huniq & Hjoin & _);
      [now left | reflexivity | reflexivity |].
    exists f'. split; [exact Hjoin|].
    apply Huniq. repeat constructor. intros [].
  - destruct (join_by_invitation_code demo_ext 2 (VStr "nosuch1") home_db)
      as (_ & _ & H).
    apply (H "nosuch1" eq_refl); vm_compute; discriminate.
Defined.

(** ** Rights on family tasks *)

Lemma in_task_with_leader taskId uid db ft leader :
  In (ft, leader) (task_with_leader taskId uid db) <->
  exists f, task_in_own_family taskId uid db ft f
            /\ Family.created_by f = leader.
Proof.
  unfold task_with_leader, task_in_own_family.
  rewrite in_flat_map. split.
  - intros (ft' & Hft & Hin). apply filter_In in Hft.
    destruct Hft as [Hft Hid]. apply Z.eqb_eq in Hid.
    apply in_flat_map in Hin. destruct Hin as (f & Hf & Hin).
    apply filter_In in Hf. destruct Hf as [Hf Hfam]. apply Z.eqb_eq in Hfam.
    apply in_map_iff in Hin. destruct Hin as (m & Heq & Hm).
    apply filter_In in Hm. destruct Hm as [Hm Hc].
    apply andb_true_iff in Hc. destruct Hc as [H1 H2].
    apply Z.eqb_eq in H1, H2. injection Heq as -> <-.
    exists f. repeat split; auto. exists m. auto.
  - intros (f & (Hft & Hid & Hf & Hfam & m & Hm & H1 & H2) & Hl).
    exists ft. split.
    + apply filter_In. split; [assumption|]. now apply Z.eqb_eq.
    + apply in_flat_map. exists f. split.
      * apply filter_In. split; [assumption|]. apply Z.eqb_eq. auto.
      * apply in_map_iff. exists m. split; [now rewrite Hl|].
        apply filter_In. split; [assumption|].
        rewrite <- H1, H2, !Z.eqb_refl. reflexivity.
Qed.

Lemma task_led_by_nil taskId uid db :
  (forall ft f,
      In ft (family_tasks db) -> FamilyTask.id ft = taskId ->
      In f (families db) -> Family.id f = FamilyTask.family_id ft ->
      Family.created_by f <> uid) ->
  task_led_by taskId uid db = [].
Proof.
  intros H. unfold task_led_by.
  destruct (flat_map _ _) as [|i rest] eqn:E; [reflexivity|].
  exfalso.
  assert (Hin : In i (i :: rest)) by now left.
  rewrite <- E in Hin. apply in_flat_map in Hin.
  destruct Hin as (ft & Hft & Hin). apply filter_In in Hft.
  destruct Hft as [Hft Hid]. apply Z.eqb_eq in Hid.
  apply in_map_iff in Hin. destruct Hin as (f & _ & Hf).
  apply filter_In in Hf. destruct Hf as [Hf Hc].
  apply andb_true_iff in Hc. destruct Hc as [H1 H2].
  apply Z.eqb_eq in H1, H2.
  apply (H ft f); auto.
Qed.




(** Against C7 as stated: the leader of Home assigns a task to Carol, who
    is a registered user but belongs to no family; the task is accepted and
    stored with her as assignee. *)
Lemma outside_assignee_accepted :
  exists row db',
    post_family_task demo_ext 7000 1 assign_to_carol home_db
    = (Respond 201 (FamilyTaskRow (Some (row, "carol"))), db')
    /\ In row (family_tasks db')
    /\ FamilyTask.family_id row = 1
    /\ FamilyTask.assigned_to row = Some 3
    /\ ~ assignee_is_member db' row.
Proof.
  do 2 eexists. split; [vm_compute; reflexivity|].
  split; [right; right; now left|].
  split; [reflexivity|]. split; [reflexivity|].
  intros (m & Hm & _ & Ha).
  destruct Hm as [<-|[<-|[]]]; discriminate Ha.
Qed.

Lemma families_of_member uid db f :
  In f (families_of uid db) ->
  In f (families db)
  /\ exists m, In m (family_members db)
               /\ Member.family_id m = Family.id f
               /\ Member.user_id m = uid.
Proof.
  unfold families_of. rewrite in_flat_map.
  intros (f' & Hf & Hin). apply in_map_iff in Hin.
  destruct Hin as (m & <- & Hm). apply filter_In in Hm.
  destruct Hm as [Hm Hc]. apply andb_true_iff in Hc.
  destruct Hc as [H1 H2]. apply Z.eqb_eq in H1, H2.
  split; [assumption|]. exists m. auto.
Qed.

(** C7, as the code has it.  A family task accepted by
    POST /api/family/tasks (201) is appended for a family of which the
    requester is a member and the leader; its [assigned_to] is the request's
    [assigned_to], which is only required to be truthy: it is not compared
    with the family's members.  PUT /api/family/tasks/:taskId (past
    [validateTaskId]) succeeds only for a member of the task's family who is
    its leader or the task's current assignee; for any other requester it
    leaves the store unchanged. *)
Theorem family_task_rights (ext : Externals) (now uid taskId : Z)
        (b : FamilyTaskBody.t) (db : DB) :
  validateTaskId ext taskId = None ->
  (forall payload db',
      post_family_task ext now uid b db = (Respond 201 payload, db') ->
      exists row f,
        family_tasks db' = (family_tasks db ++ [row])%list
        /\ In f (families db)
        /\ FamilyTask.family_id row = Family.id f
        /\ Family.created_by f = uid
        /\ (exists m, In m (family_members db)
                      /\ Member.family_id m = Family.id f
                      /\ Member.user_id m = uid)
        /\ truthy (FamilyTaskBody.assigned_to b) = true
        /\ sql_int (int4in ext) (FamilyTaskBody.assigned_to b)
           = Some (FamilyTask.assigned_to row))
  /\ (forall payload db',
      put_family_task ext now uid taskId b db = (Respond 200 payload, db') ->
      exists ft f,
        task_in_own_family taskId uid db ft f
        /\ (Family.created_by f = uid \/ FamilyTask.assigned_to ft = Some uid))
  /\ ((forall ft f, task_in_own_family taskId uid db ft f ->
                    Family.created_by f <> uid
                    /\ FamilyTask.assigned_to ft <> Some uid) ->
      snd (put_family_task ext now uid taskId b db) = db
      /\ forall payload,
          fst (put_family_task ext now uid taskId b db) <> Respond 200 payload).
Proof.
  intros Hv.
  pose proof (put_family_task_cases ext now uid taskId b db Hv) as Hput.
  repeat apply conj.
  - intros payload db'. unfold post_family_task.
    destruct (negb (truthy (FamilyTaskBody.title b))); [discriminate|].
    destruct (call_trim (FamilyTaskBody.title b)) as [title|]; [|discriminate].
    destruct (String.length title =? 0)%nat; [discriminate|].
    destruct (truthy (FamilyTaskBody.assigned_to b)) eqn:Ha;
      cbn [negb]; [|discriminate].
    destruct (families_of uid db) as [|f rest] eqn:Ef; [discriminate|].
    destruct (Z.eqb_spec (Family.created_by f) uid) as [Hl|Hl];
      cbn [negb]; [|discriminate].
    destruct (optional_trim (FamilyTaskBody.description b)); [|discriminate].
    destruct (sql_int (int4in ext) (js_or (FamilyTaskBody.priority b) (VNum 1)));
      [|discriminate].
    destruct (sql_int (int4in ext) (FamilyTaskBody.assigned_to b)) as [a|];
      [|discriminate].
    intros H. injection H as _ <-.
    assert (Hf : In f (families_of uid db)) by (rewrite Ef; now left).
    apply families_of_member in Hf. destruct Hf as [Hf Hm].
    do 2 eexists. repeat split; try reflexivity; eassumption.
  - intros payload db' E.
    destruct (in_int4 taskId) eqn:Hr;
      [|rewrite (put_family_task_out_of_range _ _ _ _ _ _ Hv Hr) in E;
        discriminate].
    destruct (Hput eq_refl)
      as [[_ E']|[(ft & l & r & _ & _ & _ & E')|(ft & l & r & Hrow & Hmay & _)]];
      try (rewrite E' in E; discriminate).
    assert (Hin : In (ft, l) (task_with_leader taskId uid db))
      by (rewrite Hrow; now left).
    apply in_task_with_leader in Hin. destruct Hin as (f & Hf & Hl).
    exists ft, f. split; [assumption|]. rewrite Hl. exact Hmay.
  - intros Hall.
    destruct (in_int4 taskId) eqn:Hr;
      [|rewrite (put_family_task_out_of_range _ _ _ _ _ _ Hv Hr);
        split; [reflexivity|discriminate]].
    destruct (Hput eq_refl)
      as [[_ E']|[(ft & l & r & _ & _ & _ & E')|(ft & l & r & Hrow & Hmay & _)]];
      try (rewrite E'; split; [reflexivity|discriminate]).
    exfalso.
    assert (Hin : In (ft, l) (task_with_leader taskId uid db))
      by (rewrite Hrow; now left).
    apply in_task_with_leader in Hin. destruct Hin as (f & Hf & Hl).
    destruct (Hall ft f Hf) as [Hnl Hna].
    destruct Hmay; [congruence|contradiction].
Qed.

Lemma family_task_rights_witness :
  (exists row f,
      family_tasks (snd (post_family_task demo_ext 7000 1 assign_to_carol home_db))
      = (family_tasks home_db ++ [row])%list
      /\ FamilyTask.family_id row = Family.id f
      /\ Family.created_by f = 1)
  /\ (exists ft f,
        task_in_own_family 1 2 home_db ft f
        /\ (Family.created_by f = 2 \/ FamilyTask.assigned_to ft = Some 2))
  /\ snd (put_family_task demo_ext 7000 2 2 edit_dishes home_db) = home_db.
Proof.
  destruct (family_task_rights demo_ext 7000 1 1 assign_to_carol home_db eq_refl)
    as (Hcreate & _).
  destruct (family_task_rights demo_ext 7000 2 1 edit_dishes home_db eq_refl)
    as (_ & Hedit & _).
  destruct (family_task_rights demo_ext 7000 2 2 edit_dishes home_db eq_refl)
    as (_ & _ & Hdenied).
  split; [|split].
  - destruct (Hcreate _ _ (surjective_pairing _))
      as (row & f & H1 & _ & H3 & H4 & _).
    exists row, f. auto.
  - exact (Hedit _ _ (surjective_pairing _)).
  - apply Hdenied.
    intros ft f (Hft & Hid & Hf & _).
    destruct Hf as [<-|[]].
    destruct Hft as [<-|[<-|[]]]; [discriminate Hid|].
    split; discriminate.
Defined.

(** ** Dashboard statistics *)

(** C4, at a store the routes produce as soon as a task outlives its week:
    the [currentWeek] counts of GET /api/dashboard/stats cover every
    non-archived task of the requester, of whatever week, where the current
    bucket holds one task only; archiving beforehand changes nothing, since
    the previous week is never archived.  The weekly breakdown lists the
    two buckets, the more recent first. *)
Theorem stats_current_week_counts_every_week :
  let now := 20020 * ms_per_day + 1000 in
  iso_date (getCurrentWeekStart demo_ext now) = 20020
  /\ post_archive demo_ext now 1 two_weeks_db
     = (Respond 200 (ArchiveBody "Tasks archived successfully" 0), two_weeks_db)
  /\ get_stats 1 two_weeks_db
     = (Respond 200
          (StatsBody (mkCounts 2 1 1)
                     [(20020, mkCounts 1 0 1); (20013, mkCounts 1 1 0)]),
        two_weeks_db)
  /\ current_week_tally demo_ext now 1 two_weeks_db = mkCounts 1 0 1.
Proof.
  repeat split; vm_compute; reflexivity.
Qed.

Lemma In_firstn {A} n (l : list A) x : In x (firstn n l) -> In x l.
Proof.
  intros H. rewrite <- (firstn_skipn n l). apply in_or_app. now left.
Qed.

Lemma StronglySorted_firstn {A} (R : A -> A -> Prop) n (l : list A) :
  StronglySorted R l -> StronglySorted R (firstn n l).
Proof.
  intros H. revert n. induction H as [|x l Hl IH Hx]; intros n.
  - destruct n; constructor.
  - destruct n; simpl; constructor; [apply IH|].
    rewrite Forall_forall in *. intros y Hy. apply Hx.
    eapply In_firstn; exact Hy.
Qed.

Lemma StronglySorted_strict (l : list Z) :
  NoDup l ->
  StronglySorted (fun a b => (b <=? a) = true) l ->
  StronglySorted (fun a b => b < a) l.
Proof.
  induction 2 as [|x l Hl IH Hx]; [constructor|].
  inversion H as [|? ? Hnotin Hnd]; subst.
  constructor; [now apply IH|].
  rewrite Forall_forall in *. intros y Hy.
  specialize (Hx y Hy). apply Z.leb_le in Hx.
  assert (y <> x) by (intros ->; contradiction). lia.
Qed.

(** The weekly breakdown of the dashboard: at most four weeks, most recent
    first, each one a week in which the rows have a task, with the counts
    of that week's rows; a week left out is older than every week listed. *)
Lemma weekly_groups_recent_first (rows : list Task.t) :
  (List.length (weekly_groups rows) <= 4)%nat
  /\ (forall i j a b, (i < j)%nat ->
        nth_error (weekly_groups rows) i = Some a ->
        nth_error (weekly_groups rows) j = Some b ->
        fst b < fst a)
  /\ (forall w c, In (w, c) (weekly_groups rows) ->
        c = tally (filter (fun t => Task.week_start t =? w) rows)
        /\ exists t, In t rows /\ Task.week_start t = w).
Proof.
  unfold weekly_groups.
  set (le := fun a b : Z => b <=? a).
  set (weeks := order_by le (nodup Z.eq_dec (map Task.week_start rows))).
  assert (Hperm : Permutation weeks (nodup Z.eq_dec (map Task.week_start rows)))
    by apply order_by_perm.
  assert (Hsorted : StronglySorted (fun a b => b < a) weeks).
  { apply StronglySorted_strict.
    - eapply Permutation_NoDup; [symmetry; exact Hperm|]. apply NoDup_nodup.
    - apply (order_by_sorted le); unfold le; intros.
      + destruct (Z.leb_spec b a); [auto|]. right. apply Z.leb_le. lia.
      + rewrite Z.leb_le in *. lia. }
  repeat apply conj.
  - rewrite length_map. apply firstn_le_length.
  - intros i j a b Hij Hi Hj.
    rewrite nth_error_map in Hi, Hj.
    destruct (nth_error (firstn 4 weeks) i) as [wa|] eqn:Ea; [|discriminate].
    destruct (nth_error (firstn 4 weeks) j) as [wb|] eqn:Eb; [|discriminate].
    injection Hi as <-. injection Hj as <-. simpl.
    exact (StronglySorted_nth _ _ (StronglySorted_firstn _ 4 _ Hsorted)
                              i j wa wb Hij Ea Eb).
  - intros w c Hin. apply in_map_iff in Hin.
    destruct Hin as (w' & Heq & Hw). injection Heq as -> <-.
    split; [reflexivity|].
    apply In_firstn in Hw.
    apply (Permutation_in _ Hperm) in Hw.
    apply nodup_In, in_map_iff in Hw.
    destruct Hw as (t & Ht & Hin). eauto.
Qed.

(** ** Invitation codes stay unique *)

Lemma handle_families_step ext r db :
  families_step db (snd (handle ext r db)).
Proof.
  destruct r; cbn [handle].
  - unfold post_register. split_matches; now apply families_same.
  - unfold post_login. split_matches; now apply families_same.
  - unfold post_forgot_password. split_matches; now apply families_same.
  - now apply families_same.
  - unfold post_task. split_matches; now apply families_same.
  - unfold put_task. split_matches; now apply families_same.
  - unfold delete_task. split_matches; now apply families_same.
  - now apply families_same.
  - unfold get_family_info. split_matches; now apply families_same.
  - unfold post_family_create.
    destruct (validateFamily ext name); [now apply families_same|].
    rewrite create_family_run.
    destruct (filter _ (family_members db)); [|now apply families_same].
    destruct (call_trim name); [|now apply families_same].
    destruct (existsb _ (families db)) eqn:E; [now apply families_same|].
    eapply families_added; [reflexivity|exact E].
  - unfold post_family_join.
    destruct (negb (truthy invitationCode)); [now apply families_same|].
    destruct invitationCode as [| | | |code]; try now apply families_same.
    destruct (String.length (trim code) =? 0)%nat; [now apply families_same|].
    rewrite join_family_run.
    destruct (filter _ (family_members db)); [|now apply families_same].
    destruct (filter _ (families db)); now apply families_same.
  - now apply families_same.
  - now apply families_same.
  - unfold post_family_task. split_matches; now apply families_same.
  - unfold put_family_task. split_matches; now apply families_same.
  - unfold delete_family_task. split_matches; now apply families_same.
  - now apply families_same.
  - now apply families_same.
Qed.

Lemma codes_unique_step db db' :
  families_step db db' -> codes_unique db -> codes_unique db'.
Proof.
  unfold codes_unique. intros [Hsame|f Happ Hnew] Hnd.
  - now rewrite Hsame.
  - rewrite Happ, map_app. simpl. apply NoDup_app; auto.
    + repeat constructor. intros [].
    + intros c Hc [<-|[]]. apply in_map_iff in Hc.
      destruct Hc as (g & Hg & Hin).
      assert (Hex : existsb (fun g => String.eqb (Family.invitation_code g)
                                                 (Family.invitation_code f))
                            (families db) = true).
      { apply existsb_exists. exists g. split; [assumption|].
        now apply String.eqb_eq. }
      congruence.
Qed.

Lemma codes_unique_reachable ext rs : codes_unique (serve ext rs empty_db).
Proof.
  assert (H : forall db, codes_unique db -> codes_unique (serve ext rs db)).
  { induction rs as [|r rs IH]; intros db Hu; simpl; [assumption|].
    apply IH. eapply codes_unique_step; [apply handle_families_step|assumption]. }
  apply H. constructor.
Qed.

(** ** The routes at work *)

Example story_memberships :
  family_members (serve demo_ext story demo_db)
  = [ Member.mk 1 1 1; Member.mk 2 1 2 ].
Proof. vm_compute. reflexivity. Qed.

Example story_listing :
  exists rows,
    get_tasks 1 (serve demo_ext story demo_db) = (Respond 200 (TaskRows rows), serve demo_ext story demo_db)
    /\ map Task.title rows = ["High"; "Low"; "Done"].
Proof. eexists. split; vm_compute; reflexivity. Qed.

(** ** Registration, login and password reset *)

Lemma text_matches_eq param col :
  text_matches param col = true <-> param = Some col.
Proof.
  unfold text_matches. destruct param as [s|]; [|split; discriminate].
  rewrite String.eqb_eq. split; congruence.
Qed.

Lemma post_register_cases ext now salt b db :
  validateRegistration ext b = None ->
  (exists u, In u (users db)
             /\ (sql_text (AuthBody.email b) = Some (User.email u)
                 \/ sql_text (AuthBody.username b) = Some (User.username u))
             /\ post_register ext now salt b db
                = (Respond 400
                     (ErrorBody "User already exists with this email or username"),
                   db))
  \/ ((forall u, In u (users db) ->
                 sql_text (AuthBody.email b) <> Some (User.email u)
                 /\ sql_text (AuthBody.username b) <> Some (User.username u))
      /\ ((exists e, e <> MailError
                     /\ post_register ext now salt b db = (Threw e, db))
          \/ exists username email password,
              sql_text (AuthBody.username b) = Some username
              /\ sql_text (AuthBody.email b) = Some email
              /\ AuthBody.password b = VStr password
              /\ (sendEmail ext email "Welcome to TaskFlow!" = true
                  /\ post_register ext now salt b db
                     = (Respond 201
                          (session ext "User created successfully"
                             (registered_user ext now salt db username email
                                              password)),
                        with_user (registered_user ext now salt db username
                                                   email password) db)
                  \/ sendEmail ext email "Welcome to TaskFlow!" = false
                     /\ post_register ext now salt b db
                        = (Threw MailError,
                           with_user (registered_user ext now salt db username
                                                      email password) db)))).
Proof.
  intros Hv. unfold post_register. rewrite Hv.
  destruct (filter _ (users db)) as [|u rest] eqn:E.
  - right. split.
    + intros u Hu.
      assert (Hf : (text_matches (sql_text (AuthBody.email b)) (User.email u)
                    || text_matches (sql_text (AuthBody.username b))
                                    (User.username u)) = false).
      { destruct (_ || _) eqn:Hm; [|reflexivity].
        assert (Hin : In u (filter
                              (fun u => text_matches (sql_text (AuthBody.email b))
                                                     (User.email u)
                                        || text_matches
                                             (sql_text (AuthBody.username b))
                                             (User.username u))
                              (users db)))
          by (apply filter_In; auto).
        rewrite E in Hin. destruct Hin. }
      apply orb_false_iff in Hf. destruct Hf as [H1 H2].
      split; intros H; apply text_matches_eq in H; congruence.
    + destruct (AuthBody.password b) as [| | | |password];
        try (left; exists BcryptError; split; [discriminate|reflexivity]).
      destruct (sql_text (AuthBody.username b)) as [username|];
        [|left; exists DatabaseError; split; [discriminate|reflexivity]].
      destruct (sql_text (AuthBody.email b)) as [email|];
        [|left; exists DatabaseError; split; [discriminate|reflexivity]].
      right. exists username, email, password.
      repeat split. cbn [User.email].
      destruct (sendEmail ext email "Welcome to TaskFlow!"); [left|right];
        split; reflexivity.
  - left. apply filter_head_In in E. destruct E as [Hin Hm].
    exists u. split; [assumption|]. split; [|reflexivity].
    apply orb_true_iff in Hm.
    destruct Hm as [Hm|Hm]; apply text_matches_eq in Hm; auto.
Qed.

(** X1.  POST /api/auth/register, past [validateRegistration]: when a user
    row already carries the given email or the given user name, the answer
    is 400 "User already exists with this email or username" and nothing is
    stored.  A 201 answer means that no row carried either, and that the
    store gained exactly one user row: the given user name and email, the
    bcrypt hash of the password (not the password), the next id of the
    sequence; the response names that user and carries a token made for
    it. *)
Theorem register_rejects_duplicates (ext : Externals) (now : Z) (salt : string)
        (b : AuthBody.t) (db : DB) :
  validateRegistration ext b = None ->
  ((exists u, In u (users db)
              /\ (sql_text (AuthBody.email b) = Some (User.email u)
                  \/ sql_text (AuthBody.username b) = Some (User.username u))) ->
   post_register ext now salt b db
   = (Respond 400
        (ErrorBody "User already exists with this email or username"), db))
  /\ (forall payload db',
        post_register ext now salt b db = (Respond 201 payload, db') ->
        exists username email password,
          AuthBody.password b = VStr password
          /\ sql_text (AuthBody.username b) = Some username
          /\ sql_text (AuthBody.email b) = Some email
          /\ (forall u, In u (users db) ->
                        User.email u <> email /\ User.username u <> username)
          /\ users db'
             = (users db
                ++ [User.mk (users_id_seq db) username email
                            (bcrypt_hash ext password salt) now])%list
          /\ payload
             = SessionBody "User created successfully" (users_id_seq db)
                 username email
                 (generateToken ext
                    (User.mk (users_id_seq db) username email
                             (bcrypt_hash ext password salt) now))).
Proof.
  intros Hv.
  destruct (post_register_cases ext now salt b db Hv)
    as [(u & Hu & Hm & E)
       |(Hnone & [(e & _ & E)
                 |(un & em & pw & Hun & Hem & Hpw & [[_ E]|[_ E]])])].
  - split; [intros _; exact E|]. intros payload db' H.
    rewrite E in H. discriminate.
  - split.
    + intros (u & Hu & Hm). destruct (Hnone u Hu). tauto.
    + intros payload db' H. rewrite E in H. discriminate.
  - split.
    + intros (u & Hu & Hm). destruct (Hnone u Hu). tauto.
    + intros payload db' H. rewrite E in H. injection H as <- <-.
      exists un, em, pw. repeat split; auto.
      * destruct (Hnone u H) as [H1 _]. congruence.
      * destruct (Hnone u H) as [_ H2]. congruence.
  - split.
    + intros (u & Hu & Hm). destruct (Hnone u Hu). tauto.
    + intros payload db' H. rewrite E in H. discriminate.
Qed.

Lemma register_rejects_duplicates_witness :
  post_register demo_ext 9000 "salt" alice_again demo_db
  = (Respond 400
       (ErrorBody "User already exists with this email or username"), demo_db)
  /\ exists username email password,
      AuthBody.password dave_signup = VStr password
      /\ users (snd (post_register demo_ext 9000 "salt" dave_signup demo_db))
         = (users demo_db
            ++ [User.mk 4 username email
                        (bcrypt_hash demo_ext password "salt") 9000])%list.
Proof.
  destruct (register_rejects_duplicates demo_ext 9000 "salt" alice_again demo_db
                                        eq_refl) as (Hdup & _).
  destruct (register_rejects_duplicates demo_ext 9000 "salt" dave_signup demo_db
                                        eq_refl) as (_ & Hok).
  split.
  - apply Hdup. exists (User.mk 1 "alice" "alice@example.com" "salt$secret" 0).
    split; [now left|]. left. reflexivity.
  - destruct (Hok _ _ (surjective_pairing _))
      as (un & em & pw & Hpw & _ & _ & _ & Husers & _).
    exists un, em, pw. split; [exact Hpw|exact Husers].
Defined.

Lemma post_register_users ext now salt b db :
  users_step db (snd (post_register ext now salt b db)).
Proof.
  destruct (validateRegistration ext b) as [r|] eqn:Hv.
  - unfold post_register. rewrite Hv. now apply users_same.
  - destruct (post_register_cases ext now salt b db Hv)
      as [(u & _ & _ & E)
         |(Hnone & [(e & _ & E)
                   |(un & em & pw & Hun & Hem & _ & [[_ E]|[_ E]])])];
      rewrite E; try now apply users_same.
    all: eapply users_added; [reflexivity|];
      intros v Hv'; destruct (Hnone v Hv') as [H1 H2];
      cbn [registered_user User.email User.username];
      split; congruence.
Qed.

Lemma handle_users_step ext r db : users_step db (snd (handle ext r db)).
Proof.
  destruct r; cbn [handle]; try apply post_register_users.
  - unfold post_login. split_matches; now apply users_same.
  - unfold post_forgot_password. split_matches; now apply users_same.
  - now apply users_same.
  - unfold post_task. split_matches; now apply users_same.
  - unfold put_task. split_matches; now apply users_same.
  - unfold delete_task. split_matches; now apply users_same.
  - now apply users_same.
  - unfold get_family_info. split_matches; now apply users_same.
  - unfold post_family_create.
    destruct (validateFamily ext name); [now apply users_same|].
    rewrite create_family_run.
    destruct (filter _ (family_members db)); [|now apply users_same].
    destruct (call_trim name); [|now apply users_same].
    destruct (existsb _ (families db)); now apply users_same.
  - unfold post_family_join.
    destruct (negb (truthy invitationCode)); [now apply users_same|].
    destruct invitationCode as [| | | |code]; try now apply users_same.
    destruct (String.length (trim code) =? 0)%nat; [now apply users_same|].
    rewrite join_family_run.
    destruct (filter _ (family_members db)); [|now apply users_same].
    destruct (filter _ (families db)); now apply users_same.
  - now apply users_same.
  - now apply users_same.
  - unfold post_family_task. split_matches; now apply users_same.
  - unfold put_family_task. split_matches; now apply users_same.
  - unfold delete_family_task. split_matches; now apply users_same.
  - now apply users_same.
  - now apply users_same.
Qed.

Lemma NoDup_map_snoc {A B} (g : A -> B) (l : list A) (x : A) :
  NoDup (map g l) -> (forall y, In y l -> g y <> g x) ->
  NoDup (map g (l ++ [x])).
Proof.
  intros Hnd Hnew. rewrite map_app. simpl. apply NoDup_app; auto.
  - repeat constructor. intros [].
  - intros c Hc [<-|[]]. apply in_map_iff in Hc.
    destruct Hc as (y & Hy & Hin). exact (Hnew y Hin Hy).
Qed.

Lemma users_unique_step db db' :
  users_step db db' -> users_unique db -> users_unique db'.
Proof.
  unfold users_unique. intros [Hsame|u Happ Hnew] [He Hn].
  - now rewrite Hsame.
  - rewrite Happ. split; apply NoDup_map_snoc; auto; intros y Hy;
      apply (Hnew y Hy).
Qed.

(** X2.  Registration is the only request that writes the users table, and
    it inserts only after finding no row with the email or the user name:
    in a store where emails and user names are unique they remain unique
    after any sequence of requests, and user rows are never removed or
    rewritten. *)
Theorem users_stay_unique (ext : Externals) (rs : list request) (db : DB) :
  users_unique db ->
  users_unique (serve ext rs db)
  /\ exists added, users (serve ext rs db) = (users db ++ added)%list.
Proof.
  revert db. induction rs as [|r rs IH]; intros db Hu; simpl.
  - split; [assumption|]. exists []. now rewrite app_nil_r.
  - pose proof (handle_users_step ext r db) as Hstep.
    destruct (IH _ (users_unique_step _ _ Hstep Hu)) as [Hu' (added & Hadd)].
    split; [assumption|].
    destruct Hstep as [Hsame|u Happ _].
    + exists added. now rewrite Hadd, Hsame.
    + exists (u :: added). rewrite Hadd, Happ, <- app_assoc. reflexivity.
Qed.

Lemma demo_db_users_unique : users_unique demo_db.
Proof.
  split; repeat constructor; simpl; intuition discriminate.
Qed.

Lemma users_stay_unique_witness :
  users_unique
    (serve demo_ext
           [Register 9000 "salt" dave_signup; Register 9100 "salt" alice_again;
            Register 9200 "pepper" dave_signup] demo_db)
  /\ List.length
       (users (serve demo_ext
                     [Register 9000 "salt" dave_signup;
                      Register 9100 "salt" alice_again;
                      Register 9200 "pepper" dave_signup] demo_db)) = 4%nat.
Proof.
  split.
  - apply (users_stay_unique demo_ext _ demo_db demo_db_users_unique).
  - reflexivity.
Defined.

(** X3.  The welcome mail is sent after the insert and outside any
    transaction: when the mailer fails, the request ends in that error, yet
    the user row has been stored, and sending the same registration again
    is answered 400 "User already exists with this email or username". *)
Theorem register_mail_failure_keeps_user (ext : Externals) (now : Z)
        (salt : string) (b : AuthBody.t) (db db' : DB) :
  validateRegistration ext b = None ->
  post_register ext now salt b db = (Threw MailError, db') ->
  (exists u, users db' = (users db ++ [u])%list
             /\ sql_text (AuthBody.email b) = Some (User.email u)
             /\ sql_text (AuthBody.username b) = Some (User.username u))
  /\ forall now' salt',
      post_register ext now' salt' b db'
      = (Respond 400
           (ErrorBody "User already exists with this email or username"), db').
Proof.
  intros Hv H.
  destruct (post_register_cases ext now salt b db Hv)
    as [(u & _ & _ & E)
       |(Hnone & [(e & He & E)
                 |(un & em & pw & Hun & Hem & _ & [[_ E]|[_ E]])])];
    rewrite E in H; try discriminate.
  - injection H as ->. congruence.
  - injection H as <-.
    set (u := registered_user ext now salt db un em pw).
    assert (Hin : In u (users (with_user u db))).
    { cbn [with_user users set_users]. apply in_or_app. right. now left. }
    split.
    + exists u. repeat split; assumption.
    + intros now' salt'.
      destruct (post_register_cases ext now' salt' b (with_user u db) Hv)
        as [(_ & _ & _ & E')|(Hnone' & _)]; [exact E'|].
      destruct (Hnone' u Hin) as [Hne _]. now elim Hne.
Qed.

Lemma register_mail_failure_keeps_user_witness :
  exists db',
    post_register offline_ext 9000 "salt" dave_signup demo_db
    = (Threw MailError, db')
    /\ List.length (users db') = 4%nat
    /\ post_register offline_ext 9500 "salt" dave_signup db'
       = (Respond 400
            (ErrorBody "User already exists with this email or username"), db').
Proof.
  eexists. split; [reflexivity|].
  split; [reflexivity|].
  apply (register_mail_failure_keeps_user offline_ext 9000 "salt" dave_signup
                                          demo_db _ eq_refl eq_refl).
Defined.

(** X4.  Register, then log in: after a registration answered 201, a login
    with the same email and password is answered 200 "Login successful" for
    the user just created, provided bcrypt accepts a password against its
    own hash. *)
Theorem register_then_login (ext : Externals) (now : Z) (salt : string)
        (b : AuthBody.t) (db db' : DB) (payload : body) :
  validateRegistration ext b = None ->
  validateLogin ext b = None ->
  (forall password s,
      bcrypt_compare ext password (bcrypt_hash ext password s) = true) ->
  post_register ext now salt b db = (Respond 201 payload, db') ->
  exists u,
    users db' = (users db ++ [u])%list
    /\ sql_text (AuthBody.email b) = Some (User.email u)
    /\ post_login ext b db'
       = (Respond 200
            (SessionBody "Login successful" (User.id u) (User.username u)
                         (User.email u) (generateToken ext u)), db').
Proof.
  intros Hv Hl Hbcrypt H.
  destruct (post_register_cases ext now salt b db Hv)
    as [(u & _ & _ & E)
       |(Hnone & [(e & He & E)
                 |(un & em & pw & Hun & Hem & Hpw & [[_ E]|[_ E]])])];
    rewrite E in H; try discriminate.
  injection H as _ <-.
  set (u := registered_user ext now salt db un em pw).
  exists u. split; [reflexivity|]. split; [exact Hem|].
  unfold post_login. rewrite Hl.
  cbn [with_user users set_users]. rewrite filter_app.
  rewrite (filter_none _ (users db)).
  - subst u. cbn [filter app]. rewrite Hem.
    cbn [text_matches registered_user User.email].
    rewrite String.eqb_refl, Hpw.
    unfold registered_user at 1. cbn [User.password_hash].
    rewrite Hbcrypt. reflexivity.
  - intros v Hin. destruct (Hnone v Hin) as [Hne _].
    destruct (text_matches _ _) eqn:Hm; [|reflexivity].
    apply text_matches_eq in Hm. contradiction.
Qed.

Lemma register_then_login_witness :
  exists u,
    users (snd (post_register salted_ext 9000 "salt" dave_signup demo_db))
    = (users demo_db ++ [u])%list
    /\ sql_text (AuthBody.email dave_signup) = Some (User.email u)
    /\ post_login salted_ext dave_signup
                  (snd (post_register salted_ext 9000 "salt" dave_signup demo_db))
       = (Respond 200
            (SessionBody "Login successful" (User.id u) (User.username u)
                         (User.email u) (generateToken salted_ext u)),
          snd (post_register salted_ext 9000 "salt" dave_signup demo_db)).
Proof.
  assert (Hbcrypt : forall password s,
             bcrypt_compare salted_ext password
                            (bcrypt_hash salted_ext password s) = true).
  { intros password s. cbn [salted_ext bcrypt_compare bcrypt_hash].
    induction password as [|c password IH]; cbn [append prefix].
    - destruct (ascii_dec "$" "$") as [_|Hne]; [now destruct s|now elim Hne].
    - destruct (ascii_dec c c) as [_|Hne]; [exact IH|now elim Hne]. }
  exact (register_then_login salted_ext 9000 "salt" dave_signup demo_db _ _
                             eq_refl eq_refl Hbcrypt (surjective_pairing _)).
Defined.

Lemma post_forgot_password_cases ext now token email db :
  (truthy email = false
   /\ post_forgot_password ext now token email db
      = (Respond 400 (ErrorBody "Email is required"), db))
  \/ (truthy email = true
      /\ (forall u, In u (users db) -> sql_text email <> Some (User.email u))
      /\ post_forgot_password ext now token email db
         = (Respond 200 reset_notice, db))
  \/ (exists user rest,
        truthy email = true
        /\ filter (fun u => text_matches (sql_text email) (User.email u))
                  (users db) = user :: rest
        /\ post_forgot_password ext now token email db
           = (if sendEmail ext (User.email user)
                           "Password Reset Request - TaskFlow"
              then Respond 200 reset_notice else Threw MailError,
              set_password_reset_tokens
                (filter (fun r => negb (ResetToken.user_id r =? User.id user))
                        (password_reset_tokens db)
                 ++ [ResetToken.mk (User.id user) token (now + 3600000) now])
                db)).
Proof.
  unfold post_forgot_password. destruct (truthy email); cbn [negb]; [|now left].
  right.
  destruct (filter _ (users db)) as [|user rest] eqn:E.
  - left. repeat split. intros u Hu Hm.
    assert (Hin : In u (filter (fun u => text_matches (sql_text email)
                                                      (User.email u))
                               (users db))).
    { apply filter_In. split; [assumption|]. now apply text_matches_eq. }
    rewrite E in Hin. destruct Hin.
  - right. exists user, rest. repeat split.
    destruct (sendEmail ext (User.email user) _); reflexivity.
Qed.

(** X5.  POST /api/auth/forgot-password: a missing (falsy) email is
    answered 400 "Email is required"; an email no user has is answered 200
    with the reset notice and writes nothing; and when the mailer delivers,
    an email some user has is answered with the same 200 notice, so the
    response does not tell whether the account exists. *)
Theorem forgot_password_same_notice (ext : Externals) (now : Z)
        (token : string) (email : value) (db : DB) :
  (truthy email = false ->
   post_forgot_password ext now token email db
   = (Respond 400 (ErrorBody "Email is required"), db))
  /\ (truthy email = true ->
      (forall u, In u (users db) -> sql_text email <> Some (User.email u)) ->
      post_forgot_password ext now token email db
      = (Respond 200
           (MessageBody
              "If an account with that email exists, a password reset link has been sent."),
         db))
  /\ (truthy email = true ->
      (forall u, In u (users db) ->
                 sendEmail ext (User.email u)
                           "Password Reset Request - TaskFlow" = true) ->
      fst (post_forgot_password ext now token email db)
      = Respond 200
          (MessageBody
             "If an account with that email exists, a password reset link has been sent.")).
Proof.
  destruct (post_forgot_password_cases ext now token email db)
    as [[Hf E]|[(Ht & Hnone & E)|(user & rest & Ht & Hfil & E)]];
    rewrite E; repeat apply conj; try congruence; try reflexivity.
  - intros _ Hnone. apply filter_head_In in Hfil. destruct Hfil as [Hin Hm].
    apply text_matches_eq in Hm. now elim (Hnone user Hin).
  - intros _ Hmail. apply filter_head_In in Hfil. destruct Hfil as [Hin _].
    cbn [fst]. now rewrite (Hmail user Hin).
Qed.

Lemma forgot_password_same_notice_witness :
  post_forgot_password demo_ext 9000 "f00d" (VStr "") demo_db
  = (Respond 400 (ErrorBody "Email is required"), demo_db)
  /\ fst (post_forgot_password demo_ext 9000 "f00d" (VStr "nobody@example.com")
                               demo_db)
     = fst (post_forgot_password demo_ext 9000 "f00d" (VStr "bob@example.com")
                                 demo_db).
Proof.
  destruct (forgot_password_same_notice demo_ext 9000 "f00d" (VStr "") demo_db)
    as (H400 & _).
  destruct (forgot_password_same_notice demo_ext 9000 "f00d"
                                        (VStr "nobody@example.com") demo_db)
    as (_ & Hunknown & _).
  destruct (forgot_password_same_notice demo_ext 9000 "f00d"
                                        (VStr "bob@example.com") demo_db)
    as (_ & _ & Hknown).
  split; [now apply H400|].
  rewrite Hunknown, Hknown; try reflexivity.
  intros u [<-|[<-|[<-|[]]]]; discriminate.
Defined.

Lemma filter_filter_neg {A} (f : A -> bool) (l : list A) :
  filter f (filter (fun x => negb (f x)) l) = [].
Proof.
  apply filter_none. intros x Hx. apply filter_In in Hx.
  destruct Hx as [_ Hx]. now apply negb_true_iff in Hx.
Qed.

(** X6.  A reset request for the email of a user (emails being unique,
    and whether or not the mail then goes out) leaves that user with
    exactly one reset token: the new one, expiring one hour after the
    request; any earlier token of the user is gone, and the tokens of other
    users are untouched. *)
Theorem reset_token_replaced (ext : Externals) (now : Z) (token : string)
        (email : value) (db : DB) (u : User.t) :
  users_unique db ->
  In u (users db) ->
  truthy email = true ->
  sql_text email = Some (User.email u) ->
  tokens_of (User.id u) (snd (post_forgot_password ext now token email db))
  = [ResetToken.mk (User.id u) token (now + 3600000) now]
  /\ forall r, ResetToken.user_id r <> User.id u ->
       (In r (password_reset_tokens
                (snd (post_forgot_password ext now token email db)))
        <-> In r (password_reset_tokens db)).
Proof.
  intros [Hemails _] Hu Ht Hem.
  destruct (post_forgot_password_cases ext now token email db)
    as [[Hf _]|[(_ & Hnone & _)|(user & rest & _ & Hfil & E)]].
  - congruence.
  - now elim (Hnone u Hu).
  - apply filter_head_In in Hfil. destruct Hfil as [Hin Hm].
    apply text_matches_eq in Hm.
    assert (user = u).
    { apply (NoDup_map_inj User.email (users db)); auto. congruence. }
    subst user. rewrite E. cbn [snd]. unfold tokens_of.
    cbn [password_reset_tokens set_password_reset_tokens]. split.
    + rewrite filter_app.
      rewrite (filter_filter_neg (fun r => ResetToken.user_id r =? User.id u)).
      cbn [filter app ResetToken.user_id]. now rewrite Z.eqb_refl.
    + intros r Hr. rewrite in_app_iff, filter_In. split.
      * intros [[H _]|[<-|[]]]; [assumption|]. now elim Hr.
      * intros H. left. split; [assumption|].
        apply negb_true_iff, Z.eqb_neq. assumption.
Qed.

Lemma reset_token_replaced_witness :
  tokens_of 2
    (snd (post_forgot_password demo_ext 9000 "f00d" (VStr "bob@example.com")
            (snd (post_forgot_password demo_ext 8000 "0ld" (VStr "bob@example.com")
                                       demo_db))))
  = [ResetToken.mk 2 "f00d" (9000 + 3600000) 9000].
Proof.
  apply (reset_token_replaced demo_ext 9000 "f00d" (VStr "bob@example.com") _
                              (User.mk 2 "bob" "bob@example.com" "salt$hunter2" 0)).
  - exact demo_db_users_unique.
  - right. now left.
  - reflexivity.
  - reflexivity.
Defined.

Lemma handle_tokens_step ext r db : tokens_step db (snd (handle ext r db)).
Proof.
  destruct r; cbn [handle].
  - unfold post_register. split_matches; now apply tokens_same.
  - unfold post_login. split_matches; now apply tokens_same.
  - destruct (post_forgot_password_cases ext now resetToken email db)
      as [[_ E]|[(_ & _ & E)|(user & rest & _ & _ & E)]]; rewrite E;
      try now apply tokens_same.
    apply (tokens_upserted _ _
             (ResetToken.mk (User.id user) resetToken (now + 3600000) now)).
    reflexivity.
  - now apply tokens_same.
  - unfold post_task. split_matches; now apply tokens_same.
  - unfold put_task. split_matches; now apply tokens_same.
  - unfold delete_task. split_matches; now apply tokens_same.
  - now apply tokens_same.
  - unfold get_family_info. split_matches; now apply tokens_same.
  - unfold post_family_create.
    destruct (validateFamily ext name); [now apply tokens_same|].
    rewrite create_family_run.
    destruct (filter _ (family_members db)); [|now apply tokens_same].
    destruct (call_trim name); [|now apply tokens_same].
    destruct (existsb _ (families db)); now apply tokens_same.
  - unfold post_family_join.
    destruct (negb (truthy invitationCode)); [now apply tokens_same|].
    destruct invitationCode as [| | | |code]; try now apply tokens_same.
    destruct (String.length (trim code) =? 0)%nat; [now apply tokens_same|].
    rewrite join_family_run.
    destruct (filter _ (family_members db)); [|now apply tokens_same].
    destruct (filter _ (families db)); now apply tokens_same.
  - now apply tokens_same.
  - now apply tokens_same.
  - unfold post_family_task. split_matches; now apply tokens_same.
  - unfold put_family_task. split_matches; now apply tokens_same.
  - unfold delete_family_task. split_matches; now apply tokens_same.
  - now apply tokens_same.
  - now apply tokens_same.
Qed.

Lemma filter_filter_other {A} (f g : A -> bool) (l : list A) :
  (forall x, f x = true -> g x = true) ->
  filter f (filter g l) = filter f l.
Proof.
  intros H. induction l as [|x l IH]; [reflexivity|]. simpl.
  destruct (g x) eqn:Eg; simpl.
  - now rewrite IH.
  - destruct (f x) eqn:Ef; [|exact IH].
    rewrite (H x Ef) in Eg. discriminate.
Qed.

Lemma one_token_per_user_step db db' :
  tokens_step db db' -> one_token_per_user db -> one_token_per_user db'.
Proof.
  intros [Hsame|row Hup] Hinv uid; unfold tokens_of.
  - rewrite Hsame. apply Hinv.
  - rewrite Hup, filter_app, length_app. cbn [filter].
    destruct (Z.eqb_spec (ResetToken.user_id row) uid) as [<-|Hne].
    + rewrite filter_filter_neg. simpl. lia.
    + rewrite filter_filter_other.
      * specialize (Hinv uid). unfold tokens_of in Hinv. simpl. lia.
      * intros x Hx. apply Z.eqb_eq in Hx.
        apply negb_true_iff, Z.eqb_neq. congruence.
Qed.

(** X7.  Reset tokens are written by the upsert of forgot-password only,
    which puts the new token in the place of the user's old one: in a store
    where no user has more than one reset token, none has more than one
    after any sequence of requests. *)
Theorem one_reset_token_per_user (ext : Externals) (rs : list request)
        (db : DB) :
  one_token_per_user db -> one_token_per_user (serve ext rs db).
Proof.
  revert db. induction rs as [|r rs IH]; intros db Hinv; simpl; [assumption|].
  apply IH. eapply one_token_per_user_step; [|exact Hinv].
  apply handle_tokens_step.
Qed.

Lemma one_reset_token_per_user_witness :
  one_token_per_user
    (serve demo_ext
           [ForgotPassword 8000 "0ld" (VStr "bob@example.com");
            ForgotPassword 8500 "a11ce" (VStr "alice@example.com");
            ForgotPassword 9000 "f00d" (VStr "bob@example.com")] demo_db).
Proof.
  apply (one_reset_token_per_user demo_ext _ demo_db).
  intros uid. simpl. lia.
Defined.

(** ** Personal tasks: deleting, updating, creating, archiving *)

Lemma set_tasks_same db : set_tasks (tasks db) (tasks_id_seq db) db = db.
Proof. now destruct db. Qed.

Lemma filter_all {A} (f : A -> bool) (l : list A) :
  (forall x, In x l -> f x = true) -> filter f l = l.
Proof.
  induction l as [|x l IH]; intros H; simpl; [reflexivity|].
  rewrite (H x (or_introl eq_refl)). f_equal. apply IH.
  intros y Hy. apply H. now right.
Qed.

Lemma Forall2_map_same {A} (R : A -> A -> Prop) (f : A -> A) (l : list A) :
  (forall x, R x (f x)) -> Forall2 R l (map f l).
Proof.
  intros H. induction l; simpl; constructor; auto.
Qed.

Lemma owned_hit_false uid id (l : list Task.t) :
  (forall t, In t l -> Task.id t = id -> Task.user_id t <> uid) ->
  forall t, In t l -> (Task.id t =? id) && (Task.user_id t =? uid) = false.
Proof.
  intros H t Hin.
  destruct (Z.eqb_spec (Task.id t) id) as [Hi|]; [|reflexivity].
  destruct (Z.eqb_spec (Task.user_id t) uid) as [Hu|]; [|reflexivity].
  now elim (H t Hin Hi).
Qed.

(** X8.  DELETE /api/tasks/:id, past [validateTaskId], for an id within
    the range of the integer id column: when no task with that id belongs
    to the requester (the id is unknown, or the task is someone else's) the
    answer is 404 "Task not found" and the store is unchanged, so a user
    cannot delete another user's task.  Otherwise the answer is 200,
    exactly the requester's rows with that id are gone, every other row is
    kept, and deleting again is answered 404.  For an id outside that range
    the statement fails: the handler throws the database error and deletes
    nothing. *)
Theorem delete_task_own_only (ext : Externals) (uid id : Z) (db : DB) :
  validateTaskId ext id = None ->
  (in_int4 id = true ->
   ((forall t, In t (tasks db) -> Task.id t = id -> Task.user_id t <> uid) ->
    delete_task ext uid id db = (Respond 404 (ErrorBody "Task not found"), db))
   /\ ((exists t, In t (tasks db) /\ Task.id t = id /\ Task.user_id t = uid) ->
       exists db',
         delete_task ext uid id db
         = (Respond 200 (MessageBody "Task deleted successfully"), db')
         /\ (forall t, In t (tasks db') <->
                       In t (tasks db)
                       /\ ~ (Task.id t = id /\ Task.user_id t = uid))
         /\ delete_task ext uid id db'
            = (Respond 404 (ErrorBody "Task not found"), db')))
  /\ (in_int4 id = false ->
      delete_task ext uid id db = (Threw DatabaseError, db)).
Proof.
  intros Hv. split; [|now apply delete_task_out_of_range].
  intros Hr.
  assert (Hmiss : forall d,
             (forall t, In t (tasks d) -> Task.id t = id ->
                        Task.user_id t <> uid) ->
             delete_task ext uid id d
             = (Respond 404 (ErrorBody "Task not found"), d)).
  { intros d Hnone. unfold delete_task. rewrite Hv, Hr. cbn [negb].
    rewrite (filter_none _ _ (owned_hit_false uid id _ Hnone)).
    rewrite filter_all, set_tasks_same; [reflexivity|].
    intros t Hin. now rewrite (owned_hit_false uid id _ Hnone t Hin). }
  split; [apply Hmiss|].
  intros (t & Hin & Hi & Hu).
  assert (Hhit : (Task.id t =? id) && (Task.user_id t =? uid) = true)
    by (rewrite Hi, Hu, !Z.eqb_refl; reflexivity).
  destruct (filter_some
              (fun t => (Task.id t =? id) && (Task.user_id t =? uid))
              _ t Hin Hhit) as (y & rest & E).
  eexists. split; [unfold delete_task; rewrite Hv, Hr, E; reflexivity|].
  cbn [tasks set_tasks].
  assert (Hchar : forall x,
             In x (filter (fun t => negb ((Task.id t =? id)
                                          && (Task.user_id t =? uid)))
                          (tasks db))
             <-> In x (tasks db) /\ ~ (Task.id x = id /\ Task.user_id x = uid)).
  { intros x. rewrite filter_In, negb_true_iff, andb_false_iff, !Z.eqb_neq.
    destruct (Z.eq_dec (Task.id x) id), (Z.eq_dec (Task.user_id x) uid);
      tauto. }
  split; [exact Hchar|].
  apply Hmiss. cbn [tasks set_tasks]. intros x Hx Hxi Hxu.
  apply Hchar in Hx. tauto.
Qed.

Lemma delete_task_own_only_witness :
  delete_task demo_ext 2 1 home_db
  = (Respond 404 (ErrorBody "Task not found"), home_db)
  /\ (exists db',
      delete_task demo_ext 1 1 home_db
      = (Respond 200 (MessageBody "Task deleted successfully"), db')
      /\ tasks db' = []
      /\ delete_task demo_ext 1 1 db'
         = (Respond 404 (ErrorBody "Task not found"), db'))
  /\ delete_task demo_ext 1 99999999999 home_db
     = (Threw DatabaseError, home_db).
Proof.
  destruct (delete_task_own_only demo_ext 2 1 home_db eq_refl) as (Hin & _).
  destruct (Hin eq_refl) as (Hmiss & _).
  destruct (delete_task_own_only demo_ext 1 1 home_db eq_refl) as (Hin' & _).
  destruct (Hin' eq_refl) as (_ & Hhit).
  destruct (delete_task_own_only demo_ext 1 99999999999 home_db eq_refl)
    as (_ & Hout).
  split; [|split].
  - apply Hmiss. intros t [<-|[]] _. discriminate.
  - destruct Hhit as (db' & E & _ & Hagain).
    + eexists. split; [now left|]. split; reflexivity.
    + exists db'. split; [exact E|]. split; [|exact Hagain].
      vm_compute in E. now injection E as <-.
  - apply Hout. reflexivity.
Defined.

(** X9.  PUT /api/tasks/:id, past its validators: when no task with that id
    belongs to the requester the answer is 404 "Task not found" and nothing
    is written, for an id within the range of the integer id column; for an
    id outside it the first query fails, and the handler throws the
    database error and writes nothing.  A 200 answer rewrites only the
    requester's rows with that id: every other row is left as it was, and
    on the rewritten rows the id, the owner, the assignee, the week bucket,
    the archived flag and stamp and the creation time are kept, the title
    is the trimmed title of the request and [updated_at] the time of the
    request. *)
Theorem put_task_own_only (ext : Externals) (now uid id : Z) (b : TaskBody.t)
        (db : DB) :
  validateTaskId ext id = None ->
  validateTask ext b = None ->
  (in_int4 id = true ->
   (forall t, In t (tasks db) -> Task.id t = id -> Task.user_id t <> uid) ->
   put_task ext now uid id b db
   = (Respond 404 (ErrorBody "Task not found"), db))
  /\ (in_int4 id = false ->
      put_task ext now uid id b db = (Threw DatabaseError, db))
  /\ (forall payload db',
        put_task ext now uid id b db = (Respond 200 payload, db') ->
        tasks_id_seq db' = tasks_id_seq db
        /\ Forall2
             (fun t t' =>
                Task.id t' = Task.id t
                /\ Task.user_id t' = Task.user_id t
                /\ Task.assigned_to t' = Task.assigned_to t
                /\ Task.week_start t' = Task.week_start t
                /\ Task.archived t' = Task.archived t
                /\ Task.archived_at t' = Task.archived_at t
                /\ Task.created_at t' = Task.created_at t
                /\ (Task.id t <> id \/ Task.user_id t <> uid -> t' = t)
                /\ (Task.id t = id -> Task.user_id t = uid ->
                    Some (Task.title t') = call_trim (TaskBody.title b)
                    /\ Task.updated_at t' = now))
             (tasks db) (tasks db')).
Proof.
  intros Hid Hv.
  split; [|split; [now apply put_task_out_of_range|]].
  - intros Hr Hnone.
    destruct (put_task_cases ext now uid id b db Hid Hv Hr)
      as [[Hnil E]|[(e & E)|(title & d & p & pl & Hne & Ht & _ & _ & E)]].
    + exact E.
    + exfalso. unfold put_task in E. rewrite Hid, Hv, Hr in E.
      cbn [negb] in E.
      rewrite (filter_none _ _ (owned_hit_false uid id _ Hnone)) in E.
      discriminate.
    + rewrite (filter_none _ _ (owned_hit_false uid id _ Hnone)) in Hne.
      now elim Hne.
  - intros payload db' H.
    destruct (in_int4 id) eqn:Hr;
      [|rewrite (put_task_out_of_range _ _ _ _ _ _ Hid Hv Hr) in H;
        discriminate].
    destruct (put_task_cases ext now uid id b db Hid Hv Hr)
      as [[Hnil E]|[(e & E)|(title & d & p & pl & Hne & Ht & _ & _ & E)]];
      rewrite E in H; try discriminate.
    injection H as _ <-.
    cbn [tasks tasks_id_seq set_tasks]. split; [reflexivity|].
    apply Forall2_map_same. intros t. unfold updated_task.
    destruct (Z.eqb_spec (Task.id t) id) as [Hi|Hi];
      destruct (Z.eqb_spec (Task.user_id t) uid) as [Hu|Hu];
      cbn [andb Task.id Task.user_id Task.assigned_to Task.week_start
           Task.archived Task.archived_at Task.created_at Task.title
           Task.updated_at];
      repeat split; auto; try tauto.
Qed.

Lemma put_task_own_only_witness :
  put_task demo_ext 5000 2 1 complete_task home_db
  = (Respond 404 (ErrorBody "Task not found"), home_db)
  /\ put_task demo_ext 5000 1 (-2147483649) complete_task home_db
     = (Threw DatabaseError, home_db)
  /\ Forall2 (fun t t' => Task.week_start t' = Task.week_start t
                          /\ Task.archived t' = Task.archived t)
             (tasks home_db)
             (tasks (snd (put_task demo_ext 5000 1 1 complete_task home_db))).
Proof.
  destruct (put_task_own_only demo_ext 5000 2 1 complete_task home_db
                              eq_refl eq_refl) as (Hmiss & _).
  destruct (put_task_own_only demo_ext 5000 1 (-2147483649) complete_task
                              home_db eq_refl eq_refl) as (_ & Hout & _).
  destruct (put_task_own_only demo_ext 5000 1 1 complete_task home_db
                              eq_refl eq_refl) as (_ & _ & Hok).
  split; [|split].
  - apply Hmiss; [reflexivity|]. intros t [<-|[]] _. discriminate.
  - apply Hout. reflexivity.
  - destruct (Hok _ _ (surjective_pairing _)) as (_ & Hall).
    eapply Forall2_impl; [|exact Hall].
    intros t t' H. cbv beta in H. tauto.
Defined.

Lemma get_tasks_listed uid db :
  get_tasks uid db = (Respond 200 (TaskRows (listed_tasks uid db)), db).
Proof. reflexivity. Qed.

Lemma in_listed_tasks uid db t :
  In t (listed_tasks uid db) <-> In t (tasks db) /\ owned_active uid t = true.
Proof.
  unfold listed_tasks.
  rewrite (Permutation_in' (eq_refl t) (order_by_perm _ _)).
  apply filter_In.
Qed.

(** X10.  Create, then list: a task stored by POST /api/tasks (201) carries
    the next id, the requester as owner and assignee, the bucket of the
    current week, the trimmed title, and is not archived; the requester's
    next listing shows it together with exactly the rows listed before, and
    the listing of every other user is what it was. *)
Theorem created_task_is_listed (ext : Externals) (now uid : Z) (b : TaskBody.t)
        (db db' : DB) (row : Task.t) :
  validateTask ext b = None ->
  post_task ext now uid b db = (Respond 201 (TaskRow (Some row)), db') ->
  (Task.id row = tasks_id_seq db
   /\ Task.user_id row = uid /\ Task.assigned_to row = uid
   /\ Task.archived row = false
   /\ Task.week_start row = iso_date (getCurrentWeekStart ext now)
   /\ Some (Task.title row) = call_trim (TaskBody.title b))
  /\ (exists before after,
        get_tasks uid db = (Respond 200 (TaskRows before), db)
        /\ get_tasks uid db' = (Respond 200 (TaskRows after), db')
        /\ forall t, In t after <-> t = row \/ In t before)
  /\ (forall other, other <> uid ->
        fst (get_tasks other db') = fst (get_tasks other db)).
Proof.
  intros Hv H.
  destruct (post_task_cases ext now uid b db Hv)
    as [(title & d & p & Ht & _ & _ & E)|(e & E)];
    rewrite E in H; [|discriminate].
  injection H as <- <-. repeat apply conj; try reflexivity.
  - now rewrite Ht.
  - exists (listed_tasks uid db). eexists.
    split; [apply get_tasks_listed|]. split; [apply get_tasks_listed|].
    intros t. rewrite !in_listed_tasks. cbn [tasks set_tasks].
    rewrite in_app_iff. split.
    + intros [[Hin|[<-|[]]] Ho]; auto.
    + intros [->|[Hin Ho]]; [|auto]. split; [right; now left|].
      unfold owned_active, created_task. cbn [Task.user_id Task.archived].
      now rewrite Z.eqb_refl.
  - intros other Hne. rewrite !get_tasks_listed. cbn [fst]. do 2 f_equal.
    unfold listed_tasks. cbn [tasks set_tasks]. rewrite filter_app.
    cbn [filter]. unfold owned_active at 2, created_task at 1.
    cbn [Task.user_id].
    destruct (Z.eqb_spec uid other) as [Heq|_]; [now elim Hne|].
    cbn [andb]. now rewrite app_nil_r.
Qed.

Lemma created_task_is_listed_witness :
  exists row before after,
    post_task demo_ext 6000 2 complete_task home_db
    = (Respond 201 (TaskRow (Some row)),
       snd (post_task demo_ext 6000 2 complete_task home_db))
    /\ get_tasks 2 home_db = (Respond 200 (TaskRows before), home_db)
    /\ get_tasks 2 (snd (post_task demo_ext 6000 2 complete_task home_db))
       = (Respond 200 (TaskRows after),
          snd (post_task demo_ext 6000 2 complete_task home_db))
    /\ (forall t, In t after <-> t = row \/ In t before)
    /\ fst (get_tasks 1 (snd (post_task demo_ext 6000 2 complete_task home_db)))
       = fst (get_tasks 1 home_db).
Proof.
  eexists.
  destruct (created_task_is_listed demo_ext 6000 2 complete_task home_db _ _
                                   eq_refl eq_refl)
    as (_ & (before & after & Hb & Ha & Hin) & Hother).
  exists before, after. split; [reflexivity|].
  split; [exact Hb|]. split; [exact Ha|]. split; [exact Hin|].
  apply Hother. discriminate.
Defined.

Lemma archive_step_other_listing ext now uid other (l : list Task.t) :
  other <> uid ->
  filter (owned_active other) (map (archive_step ext now uid) l)
  = filter (owned_active other) l.
Proof.
  intros Hne. induction l as [|t l IH]; [reflexivity|].
  cbn [map filter]. rewrite IH.
  destruct (archivable uid (archive_cutoff ext now) t) eqn:Ea.
  - assert (Hs : archive_step ext now uid t = archive_row now t)
      by (unfold archive_step; now rewrite Ea).
    rewrite Hs.
    unfold archivable in Ea. apply andb_true_iff in Ea. destruct Ea as [Ea _].
    apply andb_true_iff in Ea. destruct Ea as [Eu _]. apply Z.eqb_eq in Eu.
    unfold owned_active, archive_row. cbn [Task.user_id Task.archived].
    rewrite Eu. destruct (Z.eqb_spec uid other) as [Heq|_]; [|reflexivity].
    now elim Hne.
  - assert (Hs : archive_step ext now uid t = t)
      by (unfold archive_step; now rewrite Ea).
    now rewrite Hs.
Qed.

(** X11.  Archive, then list: after POST /api/tasks/archive the requester's
    listing shows exactly those of the rows listed before whose week bucket
    is not older than the previous week's bucket, and the listing of every
    other user is what it was. *)
Theorem archived_tasks_leave_listing (ext : Externals) (now uid : Z) (db : DB) :
  exists before after,
    get_tasks uid db = (Respond 200 (TaskRows before), db)
    /\ get_tasks uid (snd (post_archive ext now uid db))
       = (Respond 200 (TaskRows after), snd (post_archive ext now uid db))
    /\ (forall t, In t after <->
                  In t before
                  /\ iso_date (getCurrentWeekStart ext now) - 7
                     <= Task.week_start t)
    /\ (forall other, other <> uid ->
          fst (get_tasks other (snd (post_archive ext now uid db)))
          = fst (get_tasks other db)).
Proof.
  exists (listed_tasks uid db),
         (listed_tasks uid (snd (post_archive ext now uid db))).
  split; [apply get_tasks_listed|]. split; [apply get_tasks_listed|].
  assert (Hdb' : tasks (snd (post_archive ext now uid db))
                 = map (archive_step ext now uid) (tasks db)) by reflexivity.
  split.
  - intros t. rewrite !in_listed_tasks, Hdb', in_map_iff.
    rewrite <- archive_cutoff_previous_week. split.
    + intros [(t0 & Heq & Hin) Ho]. unfold archive_step in Heq.
      destruct (archivable uid (archive_cutoff ext now) t0) eqn:Ea.
      * subst t. unfold owned_active, archive_row in Ho.
        cbn [Task.archived] in Ho. rewrite andb_false_r in Ho. discriminate.
      * subst t0. split; [auto|].
        unfold owned_active in Ho. unfold archivable in Ea.
        apply andb_true_iff in Ho. destruct Ho as [Hu Hna].
        rewrite Hu, Hna, andb_true_r in Ea. cbn [andb] in Ea.
        apply Z.ltb_ge in Ea. exact Ea.
    + intros [[Hin Ho] Hweek]. split; [|exact Ho].
      exists t. split; [|exact Hin]. unfold archive_step.
      assert (Ea : archivable uid (archive_cutoff ext now) t = false).
      { unfold archivable. apply Z.ltb_ge in Hweek. rewrite Hweek.
        now rewrite andb_false_r. }
      now rewrite Ea.
  - intros other Hne. rewrite !get_tasks_listed. cbn [fst]. do 2 f_equal.
    unfold listed_tasks. rewrite Hdb'.
    now rewrite archive_step_other_listing.
Qed.

(** ** Failed requests *)

Lemma filter_negb_of_nil {A} (f : A -> bool) (l : list A) :
  filter f l = [] -> filter (fun x => negb (f x)) l = l.
Proof.
  intros H. apply filter_all. intros x Hx.
  destruct (f x) eqn:E; [|reflexivity].
  assert (Hin : In x (filter f l)) by (apply filter_In; auto).
  rewrite H in Hin. destruct Hin.
Qed.

Lemma same_rows_refl db : same_rows db db.
Proof. repeat split. Qed.

Ltac settle_failed :=
  cbn [fst snd failed]; intros Hfailed;
  first [ apply same_rows_refl | lia | now elim Hfailed ].

(** X12.  A request that fails writes no row: whenever a request is
    answered with a status of 400 or more, or throws an error other than a
    failed mail delivery, every table holds after it the rows it held
    before.  (A failed mail delivery is the one failure that comes after a
    write.) *)
Theorem failures_write_nothing (ext : Externals) (r : request) (db : DB) :
  failed (fst (handle ext r db)) -> same_rows db (snd (handle ext r db)).
Proof.
  destruct r; cbn [handle].
  - unfold post_register. split_matches; settle_failed.
  - unfold post_login. split_matches; settle_failed.
  - unfold post_forgot_password. split_matches; settle_failed.
  - unfold get_tasks. settle_failed.
  - unfold post_task. split_matches; settle_failed.
  - unfold put_task.
    destruct (validateTaskId ext id); [settle_failed|].
    destruct (validateTask ext b); [settle_failed|].
    destruct (negb (in_int4 id)); [settle_failed|].
    split_matches; settle_failed.
  - unfold delete_task.
    destruct (validateTaskId ext id); [settle_failed|].
    destruct (negb (in_int4 id)); [settle_failed|].
    destruct (filter _ (tasks db)) eqn:E; [|settle_failed].
    intros _. cbn [snd]. rewrite (filter_negb_of_nil _ _ E), set_tasks_same.
    apply same_rows_refl.
  - unfold post_archive. settle_failed.
  - unfold get_family_info. split_matches; settle_failed.
  - unfold post_family_create.
    destruct (validateFamily ext name); [settle_failed|].
    rewrite create_family_run.
    destruct (filter _ (family_members db)); [|settle_failed].
    destruct (call_trim name); [|settle_failed].
    destruct (existsb _ (families db)); settle_failed.
  - unfold post_family_join.
    destruct (negb (truthy invitationCode)); [settle_failed|].
    destruct invitationCode as [| | | |code]; try settle_failed.
    destruct (String.length (trim code) =? 0)%nat; [settle_failed|].
    rewrite join_family_run.
    destruct (filter _ (family_members db)); [|settle_failed].
    destruct (filter _ (families db)); settle_failed.
  - unfold get_family_members. settle_failed.
  - unfold get_family_tasks. settle_failed.
  - unfold post_family_task. split_matches; settle_failed.
  - unfold put_family_task.
    destruct (validateTaskId ext taskId); [settle_failed|].
    destruct (negb (in_int4 taskId)); [settle_failed|].
    split_matches; settle_failed.
  - unfold delete_family_task.
    destruct (validateTaskId ext taskId); [settle_failed|].
    destruct (negb (in_int4 taskId)); [settle_failed|].
    split_matches; settle_failed.
  - unfold get_stats. settle_failed.
  - unfold get_analytics. settle_failed.
Qed.

Lemma failures_write_nothing_witness :
  same_rows home_db (snd (handle demo_ext (DeleteTask 2 1) home_db))
  /\ same_rows home_db
       (snd (handle demo_ext (CreateFamily 2 (VStr "Second home") "XYZ789")
                    home_db))
  /\ same_rows home_db
       (snd (handle demo_ext (CreateTask 100 1
                                (TaskBody.mk (VNum 7) VUndefined VUndefined
                                             VUndefined)) home_db))
  /\ same_rows home_db
       (snd (handle demo_ext (DeleteFamilyTask 1 99999999999) home_db)).
Proof.
  split; [|split; [|split]].
  - apply (failures_write_nothing demo_ext (DeleteTask 2 1) home_db).
    vm_compute. discriminate.
  - apply (failures_write_nothing
             demo_ext (CreateFamily 2 (VStr "Second home") "XYZ789") home_db).
    vm_compute. discriminate.
  - apply (failures_write_nothing
             demo_ext
             (CreateTask 100 1 (TaskBody.mk (VNum 7) VUndefined VUndefined
                                            VUndefined)) home_db).
    vm_compute. discriminate.
  - apply (failures_write_nothing
             demo_ext (DeleteFamilyTask 1 99999999999) home_db).
    vm_compute. discriminate.
Defined.

(** ** Families: creating, joining, looking up *)

Lemma existsb_false_filter {A} (f : A -> bool) (l : list A) :
  existsb f l = false -> filter f l = [].
Proof.
  intros H. apply filter_none. intros x Hx.
  destruct (f x) eqn:E; [|reflexivity].
  assert (Hex : existsb f l = true) by (apply existsb_exists; eauto).
  congruence.
Qed.

Lemma post_family_create_success ext uid name code db payload db' :
  validateFamily ext name = None ->
  post_family_create ext uid name code db = (Respond 201 payload, db') ->
  exists trimmed,
    call_trim name = Some trimmed
    /\ memberships uid db = []
    /\ existsb (fun f => String.eqb (Family.invitation_code f) code)
               (families db) = false
    /\ payload = FamilyCreated "Family created successfully"
                               (families_id_seq db) trimmed code
    /\ db' = joined uid (Family.mk (families_id_seq db) trimmed uid code)
                    (set_families
                       (families db
                        ++ [Family.mk (families_id_seq db) trimmed uid code])
                       (families_id_seq db + 1) db).
Proof.
  intros Hv. unfold post_family_create, memberships.
  rewrite Hv, create_family_run.
  destruct (filter _ (family_members db)); [|discriminate].
  destruct (call_trim name) as [trimmed|]; [|discriminate].
  destruct (existsb _ (families db)); [discriminate|].
  intros H. injection H as <- <-. exists trimmed. repeat split.
Qed.

(** X13.  Create, then join: when POST /api/family/create is answered 201
    with an invitation code in upper case, a user without a membership who
    sends that code to POST /api/family/join, in any letter case and with
    surrounding white space, is answered 200 with the id and name of the
    family just created and becomes a member of it; after that, the same
    user creating a family fails with "You are already a member of a
    family". *)
Theorem created_family_can_be_joined (ext : Externals) (creator joiner : Z)
        (name : value) (code s : string) (db db' : DB) (payload : body) :
  validateFamily ext name = None ->
  toUpperCase ext code = code ->
  post_family_create ext creator name code db = (Respond 201 payload, db') ->
  memberships joiner db' = [] ->
  trim s <> "" ->
  same_ignoring_case ext (trim s) code ->
  exists fam,
    payload = FamilyCreated "Family created successfully"
                            (Family.id fam) (Family.name fam) code
    /\ Family.created_by fam = creator
    /\ Some (Family.name fam) = call_trim name
    /\ post_family_join ext joiner (VStr s) db'
       = (Respond 200 (FamilyJoined "Successfully joined family"
                                    (Family.id fam) (Family.name fam)),
          joined joiner fam db')
    /\ forall code',
        post_family_create ext joiner name code' (joined joiner fam db')
        = (Threw (Error "You are already a member of a family"),
           joined joiner fam db').
Proof.
  intros Hv Hcanon Hcreate Hfree Hs Hsame.
  destruct (post_family_create_success _ _ _ _ _ _ _ Hv Hcreate)
    as (trimmed & Htrim & _ & Hfresh & -> & ->).
  exists (Family.mk (families_id_seq db) trimmed creator code).
  repeat apply conj; try reflexivity; [now rewrite Htrim| |].
  - destruct (nonblank_code s Hs) as [Htruthy Hlen].
    unfold post_family_join. rewrite Htruthy, Hlen. cbn [negb].
    rewrite join_family_run. unfold memberships in Hfree. rewrite Hfree.
    assert (Hcode : toUpperCase ext (trim s) = code)
      by (unfold same_ignoring_case in Hsame; congruence).
    rewrite Hcode. cbn [joined families set_families set_family_members].
    rewrite filter_app, (existsb_false_filter _ _ Hfresh).
    cbn [filter app Family.invitation_code].
    rewrite String.eqb_refl. reflexivity.
  - intros code'. unfold post_family_create. rewrite Hv, create_family_run.
    cbn [joined family_members set_family_members].
    rewrite filter_app. cbn [filter Member.user_id]. rewrite Z.eqb_refl.
    destruct (filter _ _); reflexivity.
Qed.

Lemma created_family_can_be_joined_witness :
  exists fam,
    post_family_join demo_ext 2 (VStr " xyz789 ")
                     (snd (post_family_create demo_ext 1 (VStr " Annex ")
                                              "XYZ789" demo_db))
    = (Respond 200 (FamilyJoined "Successfully joined family"
                                 (Family.id fam) (Family.name fam)),
       joined 2 fam (snd (post_family_create demo_ext 1 (VStr " Annex ")
                                             "XYZ789" demo_db)))
    /\ Family.name fam = "Annex"
    /\ Family.created_by fam = 1.
Proof.
  destruct (created_family_can_be_joined
              demo_ext 1 2 (VStr " Annex ") "XYZ789" " xyz789 " demo_db _ _
              eq_refl eq_refl (surjective_pairing _) eq_refl)
    as (fam & _ & Hby & Hname & Hjoin & _).
  - vm_compute. discriminate.
  - reflexivity.
  - exists fam. split; [exact Hjoin|]. split; [|exact Hby].
    vm_compute in Hname. now injection Hname.
Defined.

Lemma in_families_of uid db f :
  In f (families_of uid db) <->
  In f (families db)
  /\ exists m, In m (family_members db)
               /\ Member.family_id m = Family.id f
               /\ Member.user_id m = uid.
Proof.
  split; [apply families_of_member|].
  intros (Hf & m & Hm & Hfam & Hu). unfold families_of.
  apply in_flat_map. exists f. split; [assumption|].
  apply in_map_iff. exists m. split; [reflexivity|].
  apply filter_In. split; [assumption|].
  rewrite Hfam, Hu, !Z.eqb_refl. reflexivity.
Qed.

(** X14.  GET /api/family/info is answered 404 "You are not part of any
    family" exactly when no membership row of the requester points to a
    family row; otherwise it is answered 200 with a family of which the
    requester is a member.  It never changes the store. *)
Theorem family_info_of_member (uid : Z) (db : DB) :
  ((forall f m, In f (families db) -> In m (family_members db) ->
                Member.user_id m = uid ->
                Member.family_id m <> Family.id f) ->
   get_family_info uid db
   = (Respond 404 (ErrorBody "You are not part of any family"), db))
  /\ ((exists f m, In f (families db) /\ In m (family_members db)
                   /\ Member.user_id m = uid
                   /\ Member.family_id m = Family.id f) ->
      exists f m,
        get_family_info uid db = (Respond 200 (FamilyRow f), db)
        /\ In f (families db) /\ In m (family_members db)
        /\ Member.user_id m = uid /\ Member.family_id m = Family.id f).
Proof.
  unfold get_family_info. destruct (families_of uid db) as [|f rest] eqn:E.
  - split; [reflexivity|]. intros (f & m & Hf & Hm & Hu & Hfam). exfalso.
    assert (Hin : In f (families_of uid db))
      by (apply in_families_of; eauto).
    rewrite E in Hin. destruct Hin.
  - assert (Hin : In f (families_of uid db)) by (rewrite E; now left).
    apply in_families_of in Hin. destruct Hin as (Hf & m & Hm & Hfam & Hu).
    split.
    + intros Hnone. now elim (Hnone f m Hf Hm Hu).
    + intros _. exists f, m. auto.
Qed.

Lemma flat_map_nil {A B} (g : A -> list B) (l : list A) :
  (forall x, In x l -> g x = []) -> flat_map g l = [].
Proof.
  induction l as [|x l IH]; intros H; simpl; [reflexivity|].
  rewrite (H x (or_introl eq_refl)), IH; [reflexivity|].
  intros y Hy. apply H. now right.
Qed.

(** X15.  Create, then look up: in a store whose family ids lie below the
    id sequence, after POST /api/family/create is answered 201 the
    creator's GET /api/family/info is answered 200 with the family just
    created: its new id, the trimmed name, the creator as leader and the
    invitation code of the response. *)
Theorem created_family_is_shown (ext : Externals) (uid : Z) (name : value)
        (code : string) (db db' : DB) (payload : body) :
  validateFamily ext name = None ->
  Forall (fun f => Family.id f < families_id_seq db) (families db) ->
  post_family_create ext uid name code db = (Respond 201 payload, db') ->
  exists trimmed,
    call_trim name = Some trimmed
    /\ payload = FamilyCreated "Family created successfully"
                               (families_id_seq db) trimmed code
    /\ get_family_info uid db'
       = (Respond 200
            (FamilyRow (Family.mk (families_id_seq db) trimmed uid code)), db').
Proof.
  intros Hv Hkeyed Hcreate.
  destruct (post_family_create_success _ _ _ _ _ _ _ Hv Hcreate)
    as (trimmed & Htrim & Hfree & _ & -> & ->).
  exists trimmed. split; [assumption|]. split; [reflexivity|].
  unfold get_family_info, families_of.
  cbn [joined families family_members set_families set_family_members
       Family.id].
  rewrite flat_map_app. rewrite flat_map_nil.
  - cbn [flat_map app Family.id]. rewrite filter_app.
    rewrite (filter_none _ (family_members db)).
    + cbn [filter app Member.family_id Member.user_id].
      rewrite !Z.eqb_refl. reflexivity.
    + intros m Hm. unfold memberships in Hfree.
      destruct (Member.user_id m =? uid) eqn:Eu; [|apply andb_false_r].
      assert (Hin : In m (filter (fun m => Member.user_id m =? uid)
                                 (family_members db)))
        by (apply filter_In; auto).
      rewrite Hfree in Hin. destruct Hin.
  - intros f Hf. rewrite Forall_forall in Hkeyed. specialize (Hkeyed f Hf).
    rewrite filter_app. rewrite (filter_none _ (family_members db)).
    + cbn [filter app Member.family_id Member.user_id].
      destruct (Z.eqb_spec (Family.id f) (families_id_seq db)); [lia|].
      reflexivity.
    + intros m Hm. unfold memberships in Hfree.
      destruct (Member.user_id m =? uid) eqn:Eu; [|apply andb_false_r].
      assert (Hin : In m (filter (fun m => Member.user_id m =? uid)
                                 (family_members db)))
        by (apply filter_In; auto).
      rewrite Hfree in Hin. destruct Hin.
Qed.

Lemma created_family_is_shown_witness :
  get_family_info 3 (snd (post_family_create demo_ext 3 (VStr " Annex ")
                                             "XYZ789" home_db))
  = (Respond 200 (FamilyRow (Family.mk 2 "Annex" 3 "XYZ789")),
     snd (post_family_create demo_ext 3 (VStr " Annex ") "XYZ789" home_db)).
Proof.
  assert (Hkeyed : Forall (fun f => Family.id f < families_id_seq home_db)
                          (families home_db)) by (repeat constructor).
  destruct (created_family_is_shown
              demo_ext 3 (VStr " Annex ") "XYZ789" home_db _ _ eq_refl Hkeyed
              (surjective_pairing _))
    as (trimmed & Htrim & _ & Hinfo).
  vm_compute in Htrim. injection Htrim as <-. exact Hinfo.
Defined.

(** X16.  GET /api/family/members lists a user exactly when the user is
    registered and has a membership in a family in which the requester has
    a membership too; a requester without a membership is shown nobody. *)
Theorem family_members_listing (uid : Z) (db : DB) :
  exists rows,
    get_family_members uid db = (Respond 200 (MemberRows rows), db)
    /\ (forall i n e,
          In (i, n, e) rows <->
          exists u m1 m2,
            In u (users db)
            /\ User.id u = i /\ User.username u = n /\ User.email u = e
            /\ In m1 (family_members db) /\ Member.user_id m1 = i
            /\ In m2 (family_members db) /\ Member.user_id m2 = uid
            /\ Member.family_id m1 = Member.family_id m2)
    /\ (memberships uid db = [] -> rows = []).
Proof.
  eexists. split; [reflexivity|]. split.
  - intros i n e. rewrite in_flat_map. split.
    + intros (u & Hu & Hin). apply in_flat_map in Hin.
      destruct Hin as (m1 & Hm1 & Hin). apply filter_In in Hm1.
      destruct Hm1 as [Hm1 H1]. apply Z.eqb_eq in H1.
      apply in_map_iff in Hin. destruct Hin as (m2 & Heq & Hm2).
      apply filter_In in Hm2. destruct Hm2 as [Hm2 Hc].
      apply andb_true_iff in Hc. destruct Hc as [Hf H2].
      apply Z.eqb_eq in Hf, H2. injection Heq as <- <- <-.
      exists u, m1, m2. repeat split; auto.
    + intros (u & m1 & m2 & Hu & <- & <- & <- & Hm1 & H1 & Hm2 & H2 & Hf).
      exists u. split; [assumption|]. apply in_flat_map. exists m1. split.
      * apply filter_In. split; [assumption|]. apply Z.eqb_eq. auto.
      * apply in_map_iff. exists m2. split; [reflexivity|].
        apply filter_In. split; [assumption|].
        rewrite Hf, H2, !Z.eqb_refl. reflexivity.
  - intros Hnone. apply flat_map_nil. intros u _.
    apply flat_map_nil. intros m1 _.
    rewrite filter_none; [reflexivity|]. intros m2 Hm2.
    destruct (Member.user_id m2 =? uid) eqn:Eu; [|apply andb_false_r].
    assert (Hin : In m2 (memberships uid db)) by (apply filter_In; auto).
    rewrite Hnone in Hin. destruct Hin.
Qed.

(** ** Family tasks: creating, deleting, reassigning *)

(** X17.  POST /api/family/tasks checks in this order, each failure leaving
    the store as it was: a missing or blank title is answered 400 "Task
    title is required", whoever asks; then a missing assignee 400 "Assigned
    user is required"; then a requester who is a member of no family 404
    "You are not part of any family"; then a member who leads no family
    403 "Only the family leader can create tasks". *)
Theorem family_task_create_errors (ext : Externals) (now uid : Z)
        (b : FamilyTaskBody.t) (db : DB) :
  (truthy (FamilyTaskBody.title b) = false
   \/ (exists s, FamilyTaskBody.title b = VStr s /\ trim s = "") ->
   post_family_task ext now uid b db
   = (Respond 400 (ErrorBody "Task title is required"), db))
  /\ (forall s,
        FamilyTaskBody.title b = VStr s -> trim s <> "" ->
        (truthy (FamilyTaskBody.assigned_to b) = false ->
         post_family_task ext now uid b db
         = (Respond 400 (ErrorBody "Assigned user is required"), db))
        /\ (truthy (FamilyTaskBody.assigned_to b) = true ->
            (forall f m, In f (families db) -> In m (family_members db) ->
                         Member.user_id m = uid ->
                         Member.family_id m <> Family.id f) ->
            post_family_task ext now uid b db
            = (Respond 404 (ErrorBody "You are not part of any family"), db))
        /\ (truthy (FamilyTaskBody.assigned_to b) = true ->
            (exists f m, In f (families db) /\ In m (family_members db)
                         /\ Member.user_id m = uid
                         /\ Member.family_id m = Family.id f) ->
            (forall f, In f (families db) -> Family.created_by f <> uid) ->
            post_family_task ext now uid b db
            = (Respond 403
                 (ErrorBody "Only the family leader can create tasks"), db))).
Proof.
  split.
  - intros [Hf|(s & Hs & Hblank)]; unfold post_family_task.
    + now rewrite Hf.
    + rewrite Hs. cbn [call_trim]. rewrite Hblank.
      destruct (negb (truthy (VStr s))); reflexivity.
  - intros s Hs Hcode. destruct (nonblank_code s Hcode) as [Htruthy Hlen].
    unfold post_family_task. rewrite Hs, Htruthy. cbn [negb call_trim].
    rewrite Hlen. repeat apply conj.
    + intros Ha. now rewrite Ha.
    + intros Ha Hnone. rewrite Ha. cbn [negb].
      destruct (families_of uid db) as [|f rest] eqn:E; [reflexivity|].
      exfalso.
      assert (Hin : In f (families_of uid db)) by (rewrite E; now left).
      apply in_families_of in Hin. destruct Hin as (Hf & m & Hm & Hfam & Hu).
      exact (Hnone f m Hf Hm Hu Hfam).
    + intros Ha (f & m & Hf & Hm & Hu & Hfam) Hnotleader.
      rewrite Ha. cbn [negb].
      destruct (families_of uid db) as [|f0 rest] eqn:E.
      * exfalso.
        assert (Hin : In f (families_of uid db))
          by (apply in_families_of; eauto).
        rewrite E in Hin. destruct Hin.
      * assert (Hin : In f0 (families_of uid db)) by (rewrite E; now left).
        apply in_families_of in Hin. destruct Hin as (Hf0 & _).
        destruct (Z.eqb_spec (Family.created_by f0) uid) as [Hl|_];
          [now elim (Hnotleader f0 Hf0)|reflexivity].
Qed.

Lemma family_task_create_errors_witness :
  post_family_task demo_ext 7000 3 blank_title_task home_db
  = (Respond 400 (ErrorBody "Task title is required"), home_db)
  /\ post_family_task demo_ext 7000 1 unassigned_task home_db
     = (Respond 400 (ErrorBody "Assigned user is required"), home_db)
  /\ post_family_task demo_ext 7000 3 assign_to_carol home_db
     = (Respond 404 (ErrorBody "You are not part of any family"), home_db)
  /\ post_family_task demo_ext 7000 2 assign_to_carol home_db
     = (Respond 403 (ErrorBody "Only the family leader can create tasks"),
        home_db).
Proof.
  repeat apply conj.
  - apply (family_task_create_errors demo_ext 7000 3 blank_title_task home_db).
    right. exists "  ". split; reflexivity.
  - refine (proj1 (proj2 (family_task_create_errors
                            demo_ext 7000 1 unassigned_task home_db)
                         "Mow" eq_refl _) eq_refl).
    vm_compute. discriminate.
  - refine (proj1 (proj2 (proj2 (family_task_create_errors
                                   demo_ext 7000 3 assign_to_carol home_db)
                                "Mow the lawn" eq_refl _)) eq_refl _).
    + vm_compute. discriminate.
    + intros f m _ [<-|[<-|[]]]; discriminate.
  - refine (proj2 (proj2 (proj2 (family_task_create_errors
                                   demo_ext 7000 2 assign_to_carol home_db)
                                "Mow the lawn" eq_refl _)) eq_refl _ _).
    + vm_compute. discriminate.
    + exists (Family.mk 1 "Home" 1 "ABC123"), (Member.mk 2 1 2).
      repeat split; [now left|right; now left].
    + intros f [<-|[]]. discriminate.
Defined.

(** X18.  How a description is stored (requests past their validators).
    POST /api/tasks trims it and stores NULL when it is absent or blank.
    PUT /api/tasks/:id trims it too, but stores a blank description as the
    empty string, and NULL only when it is absent. *)
Theorem description_storage (ext : Externals) (now uid id : Z)
        (b : TaskBody.t) (db : DB) :
  validateTask ext b = None ->
  validateTaskId ext id = None ->
  (forall row db',
      post_task ext now uid b db = (Respond 201 (TaskRow (Some row)), db') ->
      Task.description row
      = match TaskBody.description b with
        | VStr s => if String.eqb (trim s) "" then None else Some (trim s)
        | _ => None
        end)
  /\ (forall payload db',
        put_task ext now uid id b db = (Respond 200 payload, db') ->
        forall t, In t (tasks db') -> Task.id t = id -> Task.user_id t = uid ->
          Task.description t
          = match TaskBody.description b with
            | VStr s => Some (trim s)
            | _ => None
            end).
Proof.
  intros Hv Hid. split.
  - intros row db' H.
    destruct (post_task_cases ext now uid b db Hv)
      as [(title & d & p & _ & Hd & _ & E)|(e & E)];
      rewrite E in H; [|discriminate].
    injection H as <- _. cbn [created_task Task.description].
    destruct (TaskBody.description b) as [| | | |s]; simpl in Hd;
      try discriminate; injection Hd as <-; try reflexivity.
    unfold js_or. cbn [truthy].
    destruct (String.eqb (trim s) ""); reflexivity.
  - intros payload db' H t Hin Hi Hu.
    destruct (in_int4 id) eqn:Hr;
      [|rewrite (put_task_out_of_range _ _ _ _ _ _ Hid Hv Hr) in H;
        discriminate].
    destruct (put_task_cases ext now uid id b db Hid Hv Hr)
      as [[_ E]|[(e & E)|(title & d & p & pl & _ & _ & Hd & _ & E)]];
      rewrite E in H; try discriminate.
    injection H as _ <-. cbn [tasks set_tasks] in Hin.
    apply in_map_iff in Hin. destruct Hin as (t0 & <- & _).
    unfold updated_task in *.
    destruct ((Task.id t0 =? id) && (Task.user_id t0 =? uid)) eqn:Hhit.
    + cbn [Task.description].
      destruct (TaskBody.description b) as [| | | |s]; simpl in Hd;
        try discriminate; injection Hd as <-; reflexivity.
    + rewrite Hi, Hu, !Z.eqb_refl in Hhit. discriminate.
Qed.

Lemma description_storage_witness :
  (exists row db',
      post_task demo_ext 5000 1 blank_description home_db
      = (Respond 201 (TaskRow (Some row)), db')
      /\ Task.description row = None)
  /\ Forall (fun t => Task.description t = Some "")
            (tasks (snd (put_task demo_ext 5000 1 1 blank_description home_db))).
Proof.
  destruct (description_storage demo_ext 5000 1 1 blank_description home_db
                                eq_refl eq_refl) as (Hcreate & Hupdate).
  split.
  - do 2 eexists. split; [reflexivity|].
    exact (Hcreate _ _ eq_refl).
  - apply Forall_forall. intros t Hin.
    apply (Hupdate _ _ (surjective_pairing _) t Hin);
      destruct Hin as [<-|[]]; reflexivity.
Defined.

Lemma task_with_leader_nil taskId uid db :
  (forall ft, In ft (family_tasks db) -> FamilyTask.id ft <> taskId) ->
  task_with_leader taskId uid db = [].
Proof.
  intros H. unfold task_with_leader. rewrite filter_none; [reflexivity|].
  intros ft Hft. apply Z.eqb_neq. now apply H.
Qed.

(** X19.  DELETE /api/family/tasks/:taskId by the leader of a family that
    owns a task with that id (past [validateTaskId]; the id within the
    range of the integer id column, as the ids that column holds are) is
    answered 200 and removes every family task with that id, keeping all
    others; from then on, updating that id is answered 404 "Task not found"
    and deleting it again is answered 404, whoever asks. *)
Theorem delete_family_task_by_leader (ext : Externals) (uid taskId : Z)
        (db : DB) :
  validateTaskId ext taskId = None ->
  in_int4 taskId = true ->
  (exists ft f, In ft (family_tasks db) /\ FamilyTask.id ft = taskId
                /\ In f (families db)
                /\ Family.id f = FamilyTask.family_id ft
                /\ Family.created_by f = uid) ->
  exists db',
    delete_family_task ext uid taskId db
    = (Respond 200 (MessageBody "Task deleted successfully"), db')
    /\ (forall ft, In ft (family_tasks db') <->
                   In ft (family_tasks db) /\ FamilyTask.id ft <> taskId)
    /\ (forall now who b,
          put_family_task ext now who taskId b db'
          = (Respond 404 (ErrorBody "Task not found"), db'))
    /\ (forall who,
          delete_family_task ext who taskId db'
          = (Respond 404
               (ErrorBody
                  "Task not found or you don't have permission to delete it"),
             db')).
Proof.
  intros Hv Hr (ft & f & Hft & Hid & Hf & Hfam & Hl).
  assert (Hled : exists i rest, task_led_by taskId uid db = i :: rest).
  { destruct (task_led_by taskId uid db) as [|i rest] eqn:E; [|eauto].
    exfalso.
    assert (Hin : In (FamilyTask.id ft) (task_led_by taskId uid db)).
    { unfold task_led_by. apply in_flat_map. exists ft. split.
      - apply filter_In. split; [assumption|]. now apply Z.eqb_eq.
      - apply in_map_iff. exists f. split; [reflexivity|].
        apply filter_In. split; [assumption|].
        rewrite Hfam, Hl, !Z.eqb_refl. reflexivity. }
    rewrite E in Hin. destruct Hin. }
  destruct Hled as (i & rest & E).
  eexists. split; [unfold delete_family_task; rewrite Hv, Hr, E; reflexivity|].
  assert (Hgone : forall x,
             In x (filter (fun ft => negb (FamilyTask.id ft =? taskId))
                          (family_tasks db)) ->
             FamilyTask.id x <> taskId).
  { intros x Hx. apply filter_In in Hx. destruct Hx as [_ Hx].
    now apply negb_true_iff, Z.eqb_neq in Hx. }
  cbn [family_tasks set_family_tasks]. repeat apply conj.
  - intros x. rewrite filter_In, negb_true_iff, Z.eqb_neq. tauto.
  - intros now who b. unfold put_family_task. rewrite Hv, Hr.
    rewrite task_with_leader_nil; [reflexivity|exact Hgone].
  - intros who. unfold delete_family_task. rewrite Hv, Hr.
    rewrite task_led_by_nil; [reflexivity|].
    intros x g Hx Hxi. now elim (Hgone x Hx).
Qed.

Lemma delete_family_task_by_leader_witness :
  exists db',
    delete_family_task demo_ext 1 1 home_db
    = (Respond 200 (MessageBody "Task deleted successfully"), db')
    /\ put_family_task demo_ext 8000 2 1 edit_dishes db'
       = (Respond 404 (ErrorBody "Task not found"), db').
Proof.
  destruct (delete_family_task_by_leader demo_ext 1 1 home_db eq_refl eq_refl)
    as (db' & E & _ & Hput & _).
  - exists (FamilyTask.mk 1 1 1 (Some "Dishes") None (Some 1) (Some "pending")
                          (Some 2) 19999 None 200 200),
           (Family.mk 1 "Home" 1 "ABC123").
    repeat split; now left.
  - exists db'. split; [exact E|apply Hput].
Defined.

Lemma map_flat_map {A B C} (g : B -> C) (h : A -> list B) (l : list A) :
  map g (flat_map h l) = flat_map (fun x => map g (h x)) l.
Proof.
  induction l as [|x l IH]; simpl; [reflexivity|].
  now rewrite map_app, IH.
Qed.

Lemma updated_family_task_id now taskId b p a ft :
  FamilyTask.id (updated_family_task now taskId b p a ft) = FamilyTask.id ft
  /\ FamilyTask.family_id (updated_family_task now taskId b p a ft)
     = FamilyTask.family_id ft.
Proof.
  unfold updated_family_task. destruct (FamilyTask.id ft =? taskId); auto.
Qed.

(** The rows PUT /api/family/tasks/:taskId selects after an update are the
    rows it selected before, with the task rewritten. *)
Lemma task_with_leader_updated now taskId uid b p a db :
  task_with_leader taskId uid
    (set_family_tasks
       (map (updated_family_task now taskId b p a) (family_tasks db))
       (family_tasks_id_seq db) db)
  = map (fun r => (updated_family_task now taskId b p a (fst r), snd r))
        (task_with_leader taskId uid db).
Proof.
  unfold task_with_leader.
  cbn [family_tasks families family_members set_family_tasks].
  induction (family_tasks db) as [|ft l IH]; [reflexivity|].
  cbn [map filter].
  destruct (updated_family_task_id now taskId b p a ft) as [Hi Hf].
  rewrite Hi. destruct (FamilyTask.id ft =? taskId); [|exact IH].
  cbn [flat_map]. rewrite map_app, IH. f_equal.
  rewrite Hf, map_flat_map. apply flat_map_ext. intros f.
  rewrite map_map. reflexivity.
Qed.

(** X20.  Reassigning gives the task up: when a member who leads no family
    updates a family task (which only its assignee may then do) and the
    update names another assignee, the member's next update of that task is
    answered 403 "You don't have permission to update this task". *)
Theorem reassigning_gives_up_the_task (ext : Externals) (now uid taskId : Z)
        (b : FamilyTaskBody.t) (db db' : DB) (payload : body) :
  validateTaskId ext taskId = None ->
  (forall f, In f (families db) -> Family.created_by f <> uid) ->
  sql_int (int4in ext) (FamilyTaskBody.assigned_to b) <> Some (Some uid) ->
  put_family_task ext now uid taskId b db = (Respond 200 payload, db') ->
  forall now' b',
    put_family_task ext now' uid taskId b' db'
    = (Respond 403
         (ErrorBody "You don't have permission to update this task"), db').
Proof.
  intros Hv Hnolead Hother H now' b'.
  destruct (in_int4 taskId) eqn:Hr;
    [|rewrite (put_family_task_out_of_range _ _ _ _ _ _ Hv Hr) in H;
      discriminate].
  destruct (put_family_task_cases ext now uid taskId b db Hv Hr)
    as [[_ E]|[(t0 & l & r & _ & _ & _ & E)
              |(t0 & l & r & Hrow & _ & [[E _]|(p & a & pl & _ & Ha & E)])]];
    rewrite E in H; try discriminate.
  injection H as _ <-.
  assert (Hin : In (t0, l) (task_with_leader taskId uid db))
    by (rewrite Hrow; now left).
  apply in_task_with_leader in Hin.
  destruct Hin as (f & (_ & Hid & Hf & _) & Hl).
  unfold put_family_task. rewrite Hv, Hr, task_with_leader_updated, Hrow.
  cbn [map fst snd negb].
  destruct (Z.eqb_spec l uid) as [Heq|_].
  - subst l. now elim (Hnolead f Hf).
  - cbn [negb andb]. unfold updated_family_task at 1.
    rewrite Hid, Z.eqb_refl. cbn [FamilyTask.assigned_to].
    destruct (int_is uid a) eqn:Ei; [|reflexivity].
    exfalso. apply Hother. rewrite Ha. unfold int_is in Ei.
    destruct a as [n|]; [|discriminate]. apply Z.eqb_eq in Ei. now subst.
Qed.

Lemma reassigning_gives_up_the_task_witness :
  put_family_task demo_ext 8100 2 1 edit_dishes
    (snd (put_family_task demo_ext 8000 2 1 edit_to_alice home_db))
  = (Respond 403
       (ErrorBody "You don't have permission to update this task"),
     snd (put_family_task demo_ext 8000 2 1 edit_to_alice home_db)).
Proof.
  assert (Hnolead : forall f, In f (families home_db) ->
                              Family.created_by f <> 2)
    by (intros f [<-|[]]; discriminate).
  assert (Hother : sql_int (int4in demo_ext)
                           (FamilyTaskBody.assigned_to edit_to_alice)
                   <> Some (Some 2)) by discriminate.
  exact (reassigning_gives_up_the_task
           demo_ext 8000 2 1 edit_to_alice home_db _ _ eq_refl Hnolead Hother
           (surjective_pairing _) 8100 edit_dishes).
Defined.

(** ** Dashboard: the groups add up *)

Lemma group_sizes_step {A K} (test : A -> K -> bool) k ks rows :
  group_sizes test (k :: ks) rows
  = Z.of_nat (List.length (filter (fun t => test t k) rows))
    + group_sizes test ks rows.
Proof. reflexivity. Qed.

Section Grouping.
Context {A K : Type} (K_eq_dec : forall a b : K, {a = b} + {a <> b}).
Context (key : A -> K) (test : A -> K -> bool).
Hypothesis test_spec : forall t k, test t k = true <-> key t = k.

Lemma group_sizes_cons ks t rows :
  group_sizes test ks (t :: rows)
  = Z.of_nat (count_occ K_eq_dec ks (key t)) + group_sizes test ks rows.
Proof.
  induction ks as [|k ks IH]; [reflexivity|].
  rewrite !group_sizes_step, IH. cbn [filter count_occ].
  destruct (K_eq_dec k (key t)) as [Heq|Hne].
  - assert (Ht : test t k = true) by (apply test_spec; auto).
    rewrite Ht. cbn [List.length]. lia.
  - assert (Ht : test t k = false).
    { destruct (test t k) eqn:E; [|reflexivity].
      apply test_spec in E. now elim Hne. }
    rewrite Ht. lia.
Qed.

Lemma group_sizes_le ks rows :
  NoDup ks -> group_sizes test ks rows <= Z.of_nat (List.length rows).
Proof.
  intros Hnd. induction rows as [|t rows IH].
  - induction ks as [|k ks IHk]; [reflexivity|].
    inversion Hnd; subst. rewrite group_sizes_step.
    specialize (IHk H2). cbn [filter List.length] in *. lia.
  - rewrite group_sizes_cons. cbn [List.length]. rewrite Nat2Z.inj_succ.
    pose proof (proj1 (NoDup_count_occ K_eq_dec ks) Hnd (key t)). lia.
Qed.

Lemma group_sizes_all ks rows :
  NoDup ks -> (forall t, In t rows -> In (key t) ks) ->
  group_sizes test ks rows = Z.of_nat (List.length rows).
Proof.
  intros Hnd. induction rows as [|t rows IH]; intros Hall.
  - clear Hall. induction ks as [|k ks IHk]; [reflexivity|].
    inversion Hnd; subst. rewrite group_sizes_step, (IHk H2). reflexivity.
  - rewrite group_sizes_cons, IH by (intros x Hx; apply Hall; now right).
    cbn [List.length]. rewrite Nat2Z.inj_succ.
    pose proof (proj1 (NoDup_count_occ' K_eq_dec ks) Hnd (key t)
                      (Hall t (or_introl eq_refl))). lia.
Qed.
End Grouping.

Lemma disjoint_filters_le {A} (f g : A -> bool) (l : list A) :
  (forall x, f x = true -> g x = false) ->
  (List.length (filter f l) + List.length (filter g l) <= List.length l)%nat.
Proof.
  intros H. induction l as [|x l IH]; simpl; [lia|].
  destruct (f x) eqn:Ef.
  - rewrite (H x Ef). simpl. lia.
  - destruct (g x); simpl; lia.
Qed.

Lemma tally_bound rows :
  completed_tasks (tally rows) + pending_tasks (tally rows)
  <= total_tasks (tally rows).
Proof.
  unfold tally. cbn [completed_tasks pending_tasks total_tasks].
  pose proof (disjoint_filters_le
                (fun t => text_is "completed" (Task.status t))
                (fun t => text_is "pending" (Task.status t)) rows) as H.
  enough ((List.length
             (filter (fun t => text_is "completed" (Task.status t)) rows)
           + List.length
               (filter (fun t => text_is "pending" (Task.status t)) rows)
           <= List.length rows)%nat) by lia.
  apply H. intros t Ht. unfold text_is in *.
  destruct (Task.status t) as [s|]; [|reflexivity].
  apply String.eqb_eq in Ht. now subst.
Qed.

Lemma NoDup_firstn {A} n (l : list A) : NoDup l -> NoDup (firstn n l).
Proof.
  intros H. revert n. induction H as [|x l Hx Hl IH]; intros n.
  - destruct n; constructor.
  - destruct n; simpl; constructor; [|apply IH].
    intros Hin. apply Hx. eapply In_firstn. exact Hin.
Qed.

Lemma weekly_groups_sum rows :
  sum_totals (weekly_groups rows)
  = group_sizes (fun t w => Task.week_start t =? w)
                (firstn 4 (order_by (fun a b => b <=? a)
                                    (nodup Z.eq_dec (map Task.week_start rows))))
                rows.
Proof.
  unfold weekly_groups.
  induction (firstn 4 _) as [|w ws IH]; [reflexivity|].
  rewrite group_sizes_step, <- IH. reflexivity.
Qed.

(** X21.  The counts of GET /api/dashboard/stats fit together: the total of
    [currentWeek] is the number of the requester's non-archived tasks; in
    [currentWeek] and in every weekly row completed plus pending does not
    exceed the total; every weekly row counts at least one task; the weekly
    totals add up to at most the [currentWeek] total, and to exactly that
    total when those tasks lie in at most four week buckets. *)
Theorem stats_counts_consistent (uid : Z) (db : DB) :
  exists cur weekly,
    get_stats uid db = (Respond 200 (StatsBody cur weekly), db)
    /\ total_tasks cur
       = Z.of_nat (List.length (filter (owned_active uid) (tasks db)))
    /\ completed_tasks cur + pending_tasks cur <= total_tasks cur
    /\ Forall (fun p => 1 <= total_tasks (snd p)
                        /\ completed_tasks (snd p) + pending_tasks (snd p)
                           <= total_tasks (snd p)) weekly
    /\ sum_totals weekly <= total_tasks cur
    /\ ((List.length
           (nodup Z.eq_dec
                  (map Task.week_start (filter (owned_active uid) (tasks db))))
         <= 4)%nat ->
        sum_totals weekly = total_tasks cur).
Proof.
  set (rows := filter (owned_active uid) (tasks db)).
  exists (tally rows), (weekly_groups rows).
  split; [reflexivity|]. split; [reflexivity|].
  split; [apply tally_bound|].
  set (le := fun a b : Z => b <=? a).
  set (weeks := order_by le (nodup Z.eq_dec (map Task.week_start rows))).
  assert (Hperm : Permutation weeks (nodup Z.eq_dec (map Task.week_start rows)))
    by apply order_by_perm.
  assert (Hnd : NoDup weeks).
  { eapply Permutation_NoDup; [symmetry; exact Hperm|]. apply NoDup_nodup. }
  assert (Hspec : forall (t : Task.t) (w : Z),
             (Task.week_start t =? w) = true <-> Task.week_start t = w)
    by (intros; apply Z.eqb_eq).
  repeat apply conj.
  - apply Forall_forall. intros [w c] Hin.
    destruct (weekly_groups_recent_first rows) as (_ & _ & Hgroups).
    destruct (Hgroups w c Hin) as (-> & t & Ht & Hw).
    cbn [snd]. split; [|apply tally_bound].
    unfold tally. cbn [total_tasks].
    assert (Hin' : In t (filter (fun t => Task.week_start t =? w) rows))
      by (apply filter_In; split; [assumption|now apply Z.eqb_eq]).
    destruct (filter _ rows); [destruct Hin'|]. cbn [List.length]. lia.
  - rewrite weekly_groups_sum. fold le. fold weeks.
    apply (group_sizes_le Z.eq_dec Task.week_start _ Hspec).
    now apply NoDup_firstn.
  - intros Hfew. rewrite weekly_groups_sum. fold le. fold weeks.
    assert (Hlen : (List.length weeks <= 4)%nat).
    { now rewrite (Permutation_length Hperm). }
    rewrite (firstn_all2 (n := 4) weeks Hlen).
    apply (group_sizes_all Z.eq_dec Task.week_start _ Hspec); [assumption|].
    intros t Ht. apply (Permutation_in _ (Permutation_sym Hperm)).
    apply nodup_In, in_map. exact Ht.
Qed.

Section GroupBy.
Context {A K : Type} (K_eq_dec : forall a b : K, {a = b} + {a <> b}).
Context (key : A -> K) (test : A -> K -> bool).
Hypothesis test_spec : forall t k, test t k = true <-> key t = k.
Variable rows : list A.
Variable ks : list K.
Hypothesis ks_groups : Permutation ks (nodup K_eq_dec (map key rows)).

Lemma grouping_adds_up :
  group_sizes test ks rows = Z.of_nat (List.length rows).
Proof.
  apply (group_sizes_all K_eq_dec key test test_spec).
  - eapply Permutation_NoDup; [symmetry; exact ks_groups|]. apply NoDup_nodup.
  - intros t Ht. apply (Permutation_in _ (Permutation_sym ks_groups)).
    apply nodup_In, in_map. exact Ht.
Qed.

Lemma grouping_nonempty k :
  In k ks -> 1 <= Z.of_nat (List.length (filter (fun t => test t k) rows)).
Proof.
  intros Hk. apply (Permutation_in _ ks_groups) in Hk.
  apply nodup_In, in_map_iff in Hk. destruct Hk as (t & Hkey & Ht).
  assert (Hin : In t (filter (fun t => test t k) rows))
    by (apply filter_In; split; [assumption|now apply test_spec]).
  destruct (filter _ rows); [destruct Hin|]. cbn [List.length]. lia.
Qed.

Lemma sum_counts_groups (completed : list A -> Z) :
  sum_counts
    (map (fun k =>
            (k, Z.of_nat (List.length (filter (fun t => test t k) rows)),
             completed (filter (fun t => test t k) rows))) ks)
  = group_sizes test ks rows.
Proof.
  clear ks_groups. induction ks as [|k l IH]; [reflexivity|].
  rewrite group_sizes_step, <- IH. reflexivity.
Qed.
End GroupBy.

Lemma filter_length_mono {A} (f g : A -> bool) (l : list A) :
  (forall x, f x = true -> g x = true) ->
  (List.length (filter f l) <= List.length (filter g l))%nat.
Proof.
  intros H. induction l as [|x l IH]; simpl; [lia|].
  destruct (f x) eqn:Ef.
  - rewrite (H x Ef). simpl. lia.
  - destruct (g x); simpl; lia.
Qed.

Lemma get_analytics_window now uid tf db :
  exists trends dist,
    get_analytics now uid tf db
    = (Respond 200
         (AnalyticsBody trends dist
                        match tf with VUndefined => VStr "month" | v => v end),
       db)
    /\ sum_counts trends
       = Z.of_nat
           (List.length
              (filter (in_window now uid
                         (lookback_days
                            match tf with VUndefined => VStr "month" | v => v end))
                      (tasks db)))
    /\ sum_counts dist = sum_counts trends
    /\ Forall (fun r => 1 <= snd (fst r) /\ snd r <= snd (fst r)) trends
    /\ Forall (fun r => 1 <= snd (fst r) /\ snd r <= snd (fst r)) dist.
Proof.
  unfold get_analytics.
  set (timeframe := match tf with VUndefined => VStr "month" | v => v end).
  set (rows := filter _ (tasks db)).
  assert (Hrows : rows = filter (in_window now uid (lookback_days timeframe))
                                (tasks db)) by reflexivity.
  set (completed := fun l : list Task.t =>
         Z.of_nat (List.length
                     (filter (fun t => text_is "completed" (Task.status t)) l))).
  set (dates := order_by (fun a b => b <=? a) _).
  set (priorities := order_by _ (nodup option_Z_eq_dec _)).
  assert (Hdates : Permutation dates
                     (nodup Z.eq_dec
                            (map (fun t => iso_date (Task.created_at t)) rows)))
    by apply order_by_perm.
  assert (Hprios : Permutation priorities
                     (nodup option_Z_eq_dec (map Task.priority rows)))
    by apply order_by_perm.
  assert (Hdspec : forall (t : Task.t) (d : Z),
             (iso_date (Task.created_at t) =? d) = true
             <-> iso_date (Task.created_at t) = d)
    by (intros; apply Z.eqb_eq).
  assert (Hpspec : forall (t : Task.t) (p : option Z),
             (if option_Z_eq_dec (Task.priority t) p then true else false) = true
             <-> Task.priority t = p).
  { intros t p. destruct (option_Z_eq_dec (Task.priority t) p);
      split; congruence. }
  assert (Hcompleted : forall l, completed l <= Z.of_nat (List.length l)).
  { intros l. unfold completed. pose proof (filter_length_le
      (fun t => text_is "completed" (Task.status t)) l). lia. }
  do 2 eexists. split; [reflexivity|].
  assert (Htrends :
            sum_counts
              (map (fun d =>
                      (d, Z.of_nat (List.length
                                      (filter (fun t => iso_date (Task.created_at t) =? d)
                                              rows)),
                       completed (filter (fun t => iso_date (Task.created_at t) =? d)
                                         rows))) dates)
            = Z.of_nat (List.length rows)).
  { rewrite sum_counts_groups.
    exact (grouping_adds_up Z.eq_dec _ _ Hdspec rows dates Hdates). }
  repeat apply conj.
  - exact Htrends.
  - refine (eq_trans _ (eq_sym Htrends)).
    refine (eq_trans
              (sum_counts_groups
                 (fun t p => if option_Z_eq_dec (Task.priority t) p
                             then true else false) rows priorities completed)
              _).
    exact (grouping_adds_up option_Z_eq_dec _ _ Hpspec rows priorities Hprios).
  - apply Forall_forall. intros r Hr. apply in_map_iff in Hr.
    destruct Hr as (d & <- & Hd). cbn [fst snd]. split.
    + exact (grouping_nonempty Z.eq_dec _ _ Hdspec rows dates Hdates d Hd).
    + apply Hcompleted.
  - apply Forall_forall. intros r Hr. apply in_map_iff in Hr.
    destruct Hr as (p & <- & Hp). cbn [fst snd]. split.
    + exact (grouping_nonempty option_Z_eq_dec _ _ Hpspec rows priorities
                               Hprios p Hp).
    + apply Hcompleted.
Qed.

(** X22.  GET /api/dashboard/analytics looks back 7, 30 or 365 days for the
    timeframes [week], [month] and [year], and 30 days for a missing or any
    other timeframe, which it echoes as given ([month] when missing).  The
    tasks it counts are the requester's non-archived tasks created since
    midnight that many days ago: the trend rows and the priority rows each
    split exactly these tasks, so their totals add up to the same number;
    no row is empty and none has more completed tasks than tasks; and a
    longer timeframe never counts fewer tasks. *)
Theorem analytics_groups_add_up (now uid : Z) (tf : value) (db : DB) :
  (exists trends dist echoed,
      get_analytics now uid tf db
      = (Respond 200 (AnalyticsBody trends dist echoed), db)
      /\ echoed = match tf with VUndefined => VStr "month" | v => v end
      /\ lookback_days echoed
         = (if strict_eq_str tf "week" then 7
            else if strict_eq_str tf "year" then 365 else 30)
      /\ sum_counts trends
         = Z.of_nat (List.length
                       (filter (in_window now uid (lookback_days echoed))
                               (tasks db)))
      /\ sum_counts dist = sum_counts trends
      /\ Forall (fun r => 1 <= snd (fst r) /\ snd r <= snd (fst r)) trends
      /\ Forall (fun r => 1 <= snd (fst r) /\ snd r <= snd (fst r)) dist)
  /\ trend_total (fst (get_analytics now uid (VStr "week") db))
     <= trend_total (fst (get_analytics now uid (VStr "month") db))
  /\ trend_total (fst (get_analytics now uid (VStr "month") db))
     <= trend_total (fst (get_analytics now uid (VStr "year") db)).
Proof.
  assert (Hmono : forall d1 d2, d1 <= d2 ->
             Z.of_nat (List.length (filter (in_window now uid d1) (tasks db)))
             <= Z.of_nat (List.length (filter (in_window now uid d2) (tasks db)))).
  { intros d1 d2 Hd. apply inj_le, filter_length_mono.
    intros t Ht. unfold in_window in *. apply andb_true_iff in Ht.
    destruct Ht as [Ho Hc]. rewrite Ho. apply Z.leb_le in Hc.
    apply Z.leb_le. unfold ms_per_day in *. nia. }
  assert (Htotal : forall s,
             trend_total (fst (get_analytics now uid (VStr s) db))
             = Z.of_nat (List.length
                           (filter (in_window now uid
                                      (lookback_days (VStr s)))
                                   (tasks db)))).
  { intros s. destruct (get_analytics_window now uid (VStr s) db)
      as (trends & dist & E & Hsum & _). rewrite E. exact Hsum. }
  repeat apply conj.
  - destruct (get_analytics_window now uid tf db)
      as (trends & dist & E & Hsum & Hdist & Ht & Hd).
    exists trends, dist. eexists. split; [exact E|].
    split; [reflexivity|]. split; [|auto].
    unfold lookback_days.
    destruct tf as [| | | |s]; try reflexivity.
    cbn [strict_eq_str].
    destruct (String.eqb_spec s "week") as [->|_]; [reflexivity|].
    destruct (String.eqb_spec s "month") as [->|_]; reflexivity.
  - rewrite !Htotal. apply Hmono. vm_compute. discriminate.
  - rewrite !Htotal. apply Hmono. vm_compute. discriminate.
Qed.

(** ** Fields of the wrong type *)

(** X23.  The handlers call [trim] on body fields without checking that
    they are strings.  A field that is there but is not a string makes the
    call throw a TypeError, so the request ends in a server error instead
    of a 400, with nothing written: an invitation code or a family-task
    title that is a number or [true]; the title of a personal task (past
    [validateTask]) that is not a string, absent included; a description
    that is a number or a boolean. *)
Theorem non_string_fields_throw (ext : Externals) (now uid : Z) (db : DB) :
  (forall code,
      truthy code = true -> (forall s, code <> VStr s) ->
      post_family_join ext uid code db = (Threw TypeError, db))
  /\ (forall b,
        truthy (FamilyTaskBody.title b) = true ->
        (forall s, FamilyTaskBody.title b <> VStr s) ->
        post_family_task ext now uid b db = (Threw TypeError, db))
  /\ (forall b,
        validateTask ext b = None ->
        (forall s, TaskBody.title b <> VStr s)
        \/ (exists n, TaskBody.description b = VNum n)
        \/ (exists c, TaskBody.description b = VBool c) ->
        post_task ext now uid b db = (Threw TypeError, db)).
Proof.
  repeat apply conj.
  - intros code Ht Hns. unfold post_family_join. rewrite Ht. cbn [negb].
    destruct code as [| | | |s]; try reflexivity. now elim (Hns s).
  - intros b Ht Hns. unfold post_family_task. rewrite Ht. cbn [negb].
    destruct (FamilyTaskBody.title b) as [| | | |s]; try reflexivity.
    now elim (Hns s).
  - intros b Hv Hbad. unfold post_task. rewrite Hv.
    destruct (call_trim (TaskBody.title b)) as [title|] eqn:Et.
    + destruct Hbad as [Hns|[(n & Hd)|(c & Hd)]].
      * destruct (TaskBody.title b) as [| | | |s]; try discriminate.
        now elim (Hns s).
      * now rewrite Hd.
      * now rewrite Hd.
    + reflexivity.
Qed.

Lemma non_string_fields_throw_witness :
  post_family_join demo_ext 3 (VNum 123456) home_db = (Threw TypeError, home_db)
  /\ post_task demo_ext 100 1
       (TaskBody.mk VUndefined VUndefined VUndefined VUndefined) home_db
     = (Threw TypeError, home_db).
Proof.
  destruct (non_string_fields_throw demo_ext 100 1 home_db) as (Hjoin & _ & Htask).
  split.
  - apply Hjoin; [reflexivity|discriminate].
  - apply Htask; [reflexivity|]. left. discriminate.
Defined.
